(** * SQLite Viewer: a shallow embedding of [sqlite_viewer.py]

    Part I embeds the program, following the source file:

    - [Py]: the pieces of Python the program relies on (exception classes,
      truthiness of [str | None], [str.upper] on UTF-8 text, the
      substring test [in]).
    - [Frame]: data frames and the two pandas operations of
      [get_filtered_sorted_df] (the [str.contains] row mask and
      [sort_values], which raises when numpy's [argsort] does).
    - [Source]: [_get_sqlite_table_names] and [_get_csv_dataframe].
    - [Connection]: [DataframeConnection] with the object store and the two
      [functools.lru_cache(maxsize=1)] wrappers of [get_df] and
      [get_filtered_sorted_df].
    - [Viewer]: the presentation state of [SQLiteViewer] with
      [on_column_click] and [on_page_change].
    - [Fitter]: the row-count test of [show_column_selection_dialog] and
      the [_worker] of [on_best_fitted_distribution].
    - [Spec]: notions of the specification, stated without the code, to
      compare the code with.
    - [Examples]: sample files, tables and library answers.
    - [Paging]: [load_table_data] and its [_worker] (the page of a view
      as [.values.tolist()] hands it on, the page count, the sort
      indicator).
    - [Text] and [Menu]: the labels of the "items per page" menu and how
      they are read back, the plural ending of the messages, [join] and
      [split].
    - [App]: the window, its event handlers ([load_database_file],
      [on_switch_table], [on_search], [on_search_cancel],
      [on_set_items_per_page], [reset_state]) and sessions of events.
    - [Clipboard]: [on_copy].
    - [Dialog]: [ColumnSelectionDialog._on_ok] and
      [show_column_selection_dialog] for the entries of the data menu.
    - [Layout]: the list control with [save_column_attr],
      [display_table], [on_auto_size_columns], [on_reset_columns] and
      [on_select_all].
    - [Samples]: sample sessions and lists.

    Part II states and proves the properties.

    pandas, numpy, sqlite3 and scipy are not part of the repository.  A
    call into one of them is an argument of the embedded function (what
    the call returns or raises for the file at hand) or a member of the
    class [Frame.CellOps], so every theorem holds whatever the library
    answers; the same goes for the Unicode database behind [str.upper].  wxPython is not part of it either:
    the widgets are records holding what the handlers read and write,
    and an event is handled to its end (the worker thread of a load
    included) before the next one. *)

From Stdlib Require Import String Ascii List ZArith Bool Arith Lia.
From Stdlib Require Import Permutation Sorted.
From Stdlib Require Import Floats DecimalString.
Import ListNotations.

(** Case analysis on the comparisons of exponents and mantissas that
    the order of binary64 values is made of. *)
Ltac sf_compare_cases :=
  repeat match goal with
         | |- context [Z.compare ?a ?b] =>
             destruct (Z.compare_spec a b); cbn
         | |- context [Pos.compare ?a ?b] =>
             destruct (Pos.compare_spec a b); cbn
         end.

(* ------------------------------------------------------------------ *)
(** * Python preliminaries                                              *)
(* ------------------------------------------------------------------ *)

Module Py.

(** The exception classes that the program's [except] clauses can tell
    apart, with the subclass relations of Python and pandas:
    [EmptyDataError], [ParserError] and [UnicodeDecodeError] derive from
    [ValueError]; [KeyError] and [OSError] do not. *)
Inductive Exc : Type :=
| EmptyDataError
| ParserError
| UnicodeDecodeError
| ValueError
| TypeError
| KeyError
| OSError
| OtherError (msg : string).

Definition is_EmptyDataError (e : Exc) : bool :=
  match e with EmptyDataError => true | _ => false end.

Definition is_ValueError (e : Exc) : bool :=
  match e with
  | EmptyDataError | ParserError | UnicodeDecodeError | ValueError => true
  | _ => false
  end.

Definition is_TypeError (e : Exc) : bool :=
  match e with TypeError => true | _ => false end.

(** A call either returns a value or raises. *)
Definition result (A : Type) : Type := (Exc + A)%type.

(** Truthiness of a value of type [str | None]: [None] and the empty
    string are falsy. *)
Definition truthy (s : option string) : bool :=
  match s with
  | None => false
  | Some EmptyString => false
  | Some (String _ _) => true
  end.

(** [f(s) if s else d] for [s] of type [str | None]. *)
Definition if_truthy {A : Type} (s : option string) (f : string -> A)
  (d : A) : A :=
  match s with
  | Some (String c s') => f (String c s')
  | _ => d
  end.

(** [a == b] on values of type [str | None]. *)
Definition opt_str_eqb (a b : option string) : bool :=
  match a, b with
  | None, None => true
  | Some x, Some y => String.eqb x y
  | _, _ => false
  end.

(** Texts are held as their UTF-8 bytes.  A byte below 128 is an ASCII
    character; a byte from 128 to 191 continues the character that an
    earlier byte began. *)
Definition is_ascii (c : ascii) : bool := nat_of_ascii c <? 128.

Definition is_continuation (c : ascii) : bool :=
  let n := nat_of_ascii c in (128 <=? n) && (n <? 192).

Definition is_ascii_text (s : string) : bool :=
  forallb is_ascii (list_ascii_of_string s).

(** The characters of a text, each with the bytes that encode it: an
    ASCII byte is a character of its own; any other byte takes the
    continuation bytes that follow it. *)
Definition continues (s : string) : bool :=
  match s with
  | String d _ => is_continuation d
  | EmptyString => false
  end.

Fixpoint chars (s : string) : list string :=
  match s with
  | EmptyString => []
  | String c s' =>
      match chars s' with
      | ch :: rest =>
          if negb (is_ascii c) && continues s'
          then String c ch :: rest
          else String c EmptyString :: ch :: rest
      | [] => [String c EmptyString]
      end
  end.

(** [str.upper] on an ASCII character: [a]..[z] are mapped to
    [A]..[Z], every other character is kept. *)
Definition ascii_upper (c : ascii) : ascii :=
  let n := nat_of_ascii c in
  if (97 <=? n) && (n <=? 122) then ascii_of_nat (n - 32) else c.

(** [str.upper] on one character.  Outside ASCII the Unicode database
    decides (one character may become several, and may become ASCII
    ones): [upper_char] is what Python answers there. *)
Definition upper_one (upper_char : string -> string) (ch : string)
  : string :=
  match ch with
  | String c EmptyString =>
      if is_ascii c then String (ascii_upper c) EmptyString
      else upper_char ch
  | _ => upper_char ch
  end.

(** [s.upper()]: Python maps the characters one by one. *)
Definition upper (upper_char : string -> string) (s : string) : string :=
  fold_right String.append EmptyString
             (map (upper_one upper_char) (chars s)).

(** What [upper] is on ASCII text, whatever the database says of other
    characters. *)
Fixpoint upper_ascii (s : string) : string :=
  match s with
  | EmptyString => EmptyString
  | String c s' => String (ascii_upper c) (upper_ascii s')
  end.

(** [pat in s] on strings. *)
Fixpoint str_in (pat s : string) : bool :=
  String.prefix pat s ||
  match s with
  | EmptyString => false
  | String _ s' => str_in pat s'
  end.

End Py.

(* ------------------------------------------------------------------ *)
(** * Data frames and the two pandas operations of the view             *)
(* ------------------------------------------------------------------ *)

Module Frame.

(** A data frame: the column labels and the rows in index order. *)
Record DataFrame (Cell : Type) : Type := mkDF {
  columns : list string;
  rows : list (list Cell)
}.

Arguments mkDF {Cell} columns rows.
Arguments columns {Cell} d.
Arguments rows {Cell} d.

(** What Python, pandas and numpy answer about the values of a frame
    and about text:
    [cell_str v] is [str(v)], the text that [astype(str)] stores;
    [cell_isna v] is [pandas.isna(v)]; [cell_lt v w] is [v < w] between
    two values of one column; [cell_tolist df v] is the Python object
    that [df.values.tolist()] holds for the value [v] of the frame [df]
    ([.values] brings the columns to one common type, so the integers
    of a frame whose columns are integers and floats come out as
    floats); [upper_char ch] is [ch.upper()] for a character outside
    ASCII.  The conversion of [.values.tolist()] keeps a missing value
    missing and keeps two values in their order. *)
Class CellOps (Cell : Type) : Type := {
  cell_str : Cell -> string;
  cell_isna : Cell -> bool;
  cell_lt : Cell -> Cell -> bool;
  cell_tolist : DataFrame Cell -> Cell -> Cell;
  upper_char : string -> string;
  tolist_isna :
    forall df v, cell_isna (cell_tolist df v) = cell_isna v;
  tolist_order :
    forall df v w,
      cell_isna v = false -> cell_isna w = false ->
      cell_lt w v = false ->
      cell_lt (cell_tolist df w) (cell_tolist df v) = false
}.

(** [pd.DataFrame()]. *)
Definition empty_frame {Cell : Type} : DataFrame Cell := mkDF [] [].

(** [len(df)]. *)
Definition len {Cell : Type} (df : DataFrame Cell) : nat :=
  length (rows df).

(** [l[mask]]: the elements whose mask entry is [True]. *)
Fixpoint boolean_index {A : Type} (l : list A) (mask : list bool) : list A :=
  match l, mask with
  | x :: l', m :: mask' =>
      if m then x :: boolean_index l' mask' else boolean_index l' mask'
  | _, _ => []
  end.

(** [l.take(indexer)]: the elements at the given positions, in the order
    of [indexer]. *)
Definition take {A : Type} (l : list A) (indexer : list nat) : list A :=
  flat_map (fun j => match nth_error l j with
                     | Some x => [x]
                     | None => []
                     end) indexer.

(** The positions [0 .. len-1] paired with the elements. *)
Definition with_positions {A : Type} (l : list A) : list (nat * A) :=
  combine (seq 0 (length l)) l.

(** Positions of the label [by] among [cols], counted from [i]. *)
Fixpoint label_positions (by_ : string) (cols : list string) (i : nat)
  : list nat :=
  match cols with
  | [] => []
  | c :: cs =>
      (if String.eqb c by_ then [i] else []) ++ label_positions by_ cs (S i)
  end.

(** The column that [sort_values(by=...)] sorts on: [KeyError] when no
    column carries the label, [ValueError] when several do. *)
Definition column_position (by_ : string) (cols : list string)
  : Py.result nat :=
  match label_positions by_ cols 0 with
  | [] => inl Py.KeyError
  | [i] => inr i
  | _ :: _ :: _ => inl Py.ValueError
  end.

Section Engine.

Context {Cell : Type} {ops : CellOps Cell}.

(** ** The search mask:
    [df.astype(str).apply(lambda row: row.str.contains(q, case=False,
    regex=False)).any(axis=1)] *)

Definition astype_str (df : DataFrame Cell) : DataFrame string :=
  mkDF (columns df) (map (map cell_str) (rows df)).

(** [s.upper()] on a text. *)
Definition str_upper (s : string) : string :=
  Py.upper (@upper_char Cell ops) s.

(** [s.str.contains(pat, case=False, regex=False)] on one element:
    pandas tests [pat.upper() in s.upper()]. *)
Definition str_contains (pat s : string) : bool :=
  Py.str_in (str_upper pat) (str_upper s).

(** [apply] hands every column to the lambda; the result has the shape
    of the frame, one boolean per cell. *)
Definition contains_frame (pat : string) (sdf : DataFrame string)
  : DataFrame bool :=
  mkDF (columns sdf) (map (map (str_contains pat)) (rows sdf)).

Definition any_axis1 (b : DataFrame bool) : list bool :=
  map (existsb (fun x => x)) (rows b).

Definition search_mask (q : string) (df : DataFrame Cell) : list bool :=
  any_axis1 (contains_frame q (astype_str df)).

(** One row of the mask, computed on the row itself. *)
Definition row_mask (q : string) (row : list Cell) : bool :=
  existsb (fun c => str_contains q (cell_str c)) row.

(** [df[mask]]. *)
Definition filter_rows (q : string) (df : DataFrame Cell)
  : DataFrame Cell :=
  mkDF (columns df) (boolean_index (rows df) (search_mask q df)).

(** ** [df.sort_values(by=sort_column, ascending=sort_order)]

    pandas sorts through [nargsort] with its defaults [kind='quicksort']
    and [na_position='last']: the missing values are set aside, the
    others are handed to numpy's [argsort] (for a descending sort the
    input is reversed before and the result after), and the positions of
    the missing values are appended.  [argsort] is numpy's: it is an
    argument here, and an exception it raises leaves [sort_values]. *)

(** The sort key of a row: [None] when the value is missing. *)
Definition key_at (i : nat) (row : list Cell) : option Cell :=
  match nth_error row i with
  | Some c => if cell_isna c then None else Some c
  | None => None
  end.

Definition non_nan_items (keys : list (option Cell)) : list (nat * Cell) :=
  flat_map (fun p => match snd p with
                     | Some c => [(fst p, c)]
                     | None => []
                     end) (with_positions keys).

Definition nan_idx (keys : list (option Cell)) : list nat :=
  flat_map (fun p => match snd p with
                     | Some _ => []
                     | None => [fst p]
                     end) (with_positions keys).

(** The values that [nargsort] hands to [argsort]: the non-missing
    ones, last first for a descending sort. *)
Definition sort_input (keys : list (option Cell)) (ascending : bool)
  : list Cell :=
  let items := non_nan_items keys in
  map snd (if ascending then items else rev items).

Definition nargsort (argsort : list Cell -> Py.result (list nat))
  (keys : list (option Cell)) (ascending : bool) : Py.result (list nat) :=
  let items := non_nan_items keys in
  let items := if ascending then items else rev items in
  let non_nans := map snd items in
  let non_nan_idx := map fst items in
  match argsort non_nans with
  | inl e => inl e
  | inr order =>
      let indexer := take non_nan_idx order in
      let indexer := if ascending then indexer else rev indexer in
      inr (indexer ++ nan_idx keys)
  end.

(** The non-missing keys with their positions, in the order in which
    [nargsort] emits them when [argsort] has answered [order]. *)
Definition sorted_items (order : list nat) (keys : list (option Cell))
  (ascending : bool) : list (nat * Cell) :=
  let items := non_nan_items keys in
  let items' := if ascending then items else rev items in
  let s := take items' order in
  if ascending then s else rev s.

(** A positioned value is not after another: its value is not
    greater. *)
Definition pair_le (p q : nat * Cell) : Prop :=
  cell_lt (snd q) (snd p) = false.

(** What numpy promises of [argsort], whatever the [kind]: when it
    returns, the result lists every position once, and the values read
    in that order are ascending (no value is smaller than one before
    it).  The default [kind='quicksort'] promises nothing about the
    order of equal values.  It raises when two values cannot be
    compared ([TypeError] for a text and a number). *)
Definition sorts (argsort : list Cell -> Py.result (list nat))
  (vals : list Cell) : Prop :=
  forall order, argsort vals = inr order ->
    Permutation order (seq 0 (length vals))
    /\ StronglySorted (fun a b => cell_lt b a = false)
                      (take vals order).

Definition Sorter (argsort : list Cell -> Py.result (list nat)) : Prop :=
  forall vals, sorts argsort vals.

Definition sort_values (argsort : list Cell -> Py.result (list nat))
  (df : DataFrame Cell) (by_ : string) (ascending : bool)
  : Py.result (DataFrame Cell) :=
  match column_position by_ (columns df) with
  | inl e => inl e
  | inr i =>
      match nargsort argsort (map (key_at i) (rows df)) ascending with
      | inl e => inl e
      | inr indexer => inr (mkDF (columns df) (take (rows df) indexer))
      end
  end.

(** ** The body of [get_filtered_sorted_df], lines 69-73, on the frame
    that [get_df] returned. *)
Definition filtered_sorted_df (argsort : list Cell -> Py.result (list nat))
  (df : DataFrame Cell) (sort_column : option string) (sort_order : bool)
  (search_query : option string) : Py.result (DataFrame Cell) :=
  let df1 := Py.if_truthy search_query (fun q => filter_rows q df) df in
  Py.if_truthy sort_column
    (fun c => sort_values argsort df1 c sort_order) (inr df1).

End Engine.

End Frame.

(* ------------------------------------------------------------------ *)
(** * Source adapters                                                   *)
(* ------------------------------------------------------------------ *)

Module Source.

Import Frame.

(** One row of the [sqlite_master] catalogue, reduced to the two columns
    the query reads. *)
Record MasterRow : Type := mkMaster {
  m_type : string;
  m_name : string
}.

(** [SELECT name FROM sqlite_master WHERE type='table'] over a catalogue,
    in catalogue order. *)
Definition select_table_names (master : list MasterRow) : list string :=
  map m_name (filter (fun r => String.eqb (m_type r) "table") master).

Definition autoindex_prefix : string := "sqlite_autoindex_".

(** [name.startswith(p)]. *)
Definition startswith (name p : string) : bool := String.prefix p name.

Definition _get_sqlite_table_names (master : list MasterRow)
  : list string :=
  filter (fun name => negb (startswith name autoindex_prefix))
         (select_table_names master).

(** The two arguments in which the [pd.read_csv] calls of
    [_get_csv_dataframe] differ; encoding, engine and date parsing are the
    same in both. *)
Inductive BadLines : Type := bad_lines_error | bad_lines_warn.

Record CsvCall : Type := mkCsv {
  sep : string;
  on_bad_lines : BadLines
}.

Definition comma_strict : CsvCall := mkCsv "," bad_lines_error.
Definition semicolon_lenient : CsvCall := mkCsv ";" bad_lines_warn.

(** [_get_csv_dataframe].  [read_csv] is what pandas answers for the
    connection's file; the second component lists the [read_csv] calls
    made, in order.  The [except] clauses are tried in source order:
    [EmptyDataError] first, then [(TypeError, ValueError)]. *)
Definition _get_csv_dataframe {Cell : Type}
  (read_csv : CsvCall -> Py.result (DataFrame Cell))
  : Py.result (DataFrame Cell) * list CsvCall :=
  match read_csv comma_strict with
  | inr df => (inr df, [comma_strict])
  | inl e =>
      if Py.is_EmptyDataError e then
        (inr empty_frame, [comma_strict])
      else if Py.is_TypeError e || Py.is_ValueError e then
        (read_csv semicolon_lenient, [comma_strict; semicolon_lenient])
      else
        (inl e, [comma_strict])
  end.

End Source.

(* ------------------------------------------------------------------ *)
(** * [DataframeConnection] and its two single-entry caches             *)
(* ------------------------------------------------------------------ *)

Module Connection.

Import Frame.

(** A connection object.  [conn_id] stands for the object's identity:
    [functools.lru_cache] compares [self] by identity, since the class
    defines no [__eq__].  One object has one path and one file type, so
    [self_eqb] below compares the two fields along with the identity. *)
Record DataframeConnection : Type := mkConn {
  conn_id : nat;
  db_file : string;
  file_type : string
}.

(** What sqlite3 and pandas answer for a path. *)
Record Libraries (Cell : Type) : Type := mkLibs {
  read_master : string -> Py.result (list Source.MasterRow);
  read_sql_query : string -> string -> Py.result (DataFrame Cell);
  excel_sheet_names : string -> Py.result (list string);
  read_excel : string -> string -> Py.result (DataFrame Cell);
  read_csv : string -> Source.CsvCall -> Py.result (DataFrame Cell)
}.

Arguments mkLibs {Cell} read_master read_sql_query excel_sheet_names
  read_excel read_csv.
Arguments read_master {Cell} l path.
Arguments read_sql_query {Cell} l path table_name.
Arguments excel_sheet_names {Cell} l path.
Arguments read_excel {Cell} l path sheet_name.
Arguments read_csv {Cell} l path call.

Definition sqlite_extensions : list string :=
  [".db"; ".db3"; ".sqlite"; ".sqlite3"]%string.

Definition is_sqlite (ft : string) : bool :=
  existsb (String.eqb ft) sqlite_extensions.

Definition get_table_or_sheet_names {Cell : Type} (libs : Libraries Cell)
  (self : DataframeConnection) : Py.result (list string) :=
  if is_sqlite (file_type self) then
    match read_master libs (db_file self) with
    | inr master => inr (Source._get_sqlite_table_names master)
    | inl e => inl e
    end
  else if String.eqb (file_type self) ".xlsx" then
    excel_sheet_names libs (db_file self)
  else if String.eqb (file_type self) ".csv" then
    inr ["CSV file"%string]
  else inl Py.ValueError.

(** The state of one [lru_cache(maxsize=1)] wrapper: the entry it holds
    (key and the cached object) and the counters of [cache_info()]. *)
Record LruCache (K : Type) : Type := mkLru {
  slot : option (K * nat);
  hits : nat;
  misses : nat
}.

Arguments mkLru {K} slot hits misses.
Arguments slot {K} l.
Arguments hits {K} l.
Arguments misses {K} l.

(** A call misses when the cache is empty or holds another key. *)
Definition misses_on {K : Type} (c : LruCache K) (key : K)
  : Prop :=
  match slot c with
  | Some (k, _) => k <> key
  | None => True
  end.

(** Keys as [lru_cache] builds them from [self] and the keyword
    arguments of the call. *)
Definition DfKey : Type := (DataframeConnection * string)%type.

Record ViewKey : Type := mkViewKey {
  vk_self : DataframeConnection;
  vk_table_name : string;
  vk_sort_column : option string;
  vk_sort_order : bool;
  vk_search_query : option string
}.

Definition self_eqb (a b : DataframeConnection) : bool :=
  Nat.eqb (conn_id a) (conn_id b)
  && String.eqb (db_file a) (db_file b)
  && String.eqb (file_type a) (file_type b).

Definition dfkey_eqb (a b : DfKey) : bool :=
  self_eqb (fst a) (fst b) && String.eqb (snd a) (snd b).

Definition viewkey_eqb (a b : ViewKey) : bool :=
  self_eqb (vk_self a) (vk_self b)
  && String.eqb (vk_table_name a) (vk_table_name b)
  && Py.opt_str_eqb (vk_sort_column a) (vk_sort_column b)
  && Bool.eqb (vk_sort_order a) (vk_sort_order b)
  && Py.opt_str_eqb (vk_search_query a) (vk_search_query b).

Section Store.

Context {Cell : Type} {ops : CellOps Cell}.

(** The objects of the program: frames live in [heap] and are passed
    around by reference (their position in [heap]); the two wrappers keep
    a reference each. *)
Record World : Type := mkWorld {
  heap : list (DataFrame Cell);
  df_cache : LruCache DfKey;
  view_cache : LruCache ViewKey
}.

Definition init_world : World :=
  mkWorld [] (mkLru None 0 0) (mkLru None 0 0).

(** Computations that read and extend the store and may raise. *)
Definition M (A : Type) : Type := World -> Py.result A * World.

Definition ret {A : Type} (a : A) : M A := fun w => (inr a, w).

Definition raise {A : Type} (e : Py.Exc) : M A := fun w => (inl e, w).

Definition bind {A B : Type} (m : M A) (k : A -> M B) : M B :=
  fun w => match m w with
           | (inr a, w') => k a w'
           | (inl e, w') => (inl e, w')
           end.

Definition lift {A : Type} (r : Py.result A) : M A := fun w => (r, w).

(** A new frame object. *)
Definition alloc (df : DataFrame Cell) : M nat :=
  fun w => (inr (List.length (heap w)),
            mkWorld (heap w ++ [df]) (df_cache w) (view_cache w)).

Definition deref (r : nat) : M (DataFrame Cell) :=
  fun w => match nth_error (heap w) r with
           | Some df => (inr df, w)
           | None => (inl (Py.OtherError "dangling reference"), w)
           end.

Definition set_df_cache (c : LruCache DfKey) (w : World) : World :=
  mkWorld (heap w) c (view_cache w).

Definition set_view_cache (c : LruCache ViewKey) (w : World) : World :=
  mkWorld (heap w) (df_cache w) c.

(** [functools.lru_cache(maxsize=1)] around [f].  A hit returns the
    cached object and counts a hit.  A miss counts a miss and calls [f];
    when [f] returns, the entry is replaced by the new one; when [f]
    raises, the exception passes through and the entry stays. *)
Definition lru_cache {K : Type} (keq : K -> K -> bool)
  (get : World -> LruCache K) (set : LruCache K -> World -> World)
  (f : K -> M nat) (key : K) : M nat :=
  fun w =>
    let c := get w in
    let call_f :=
      match f key (set (mkLru (slot c) (hits c) (S (misses c))) w) with
      | (inr v, w') =>
          let c' := get w' in
          (inr v, set (mkLru (Some (key, v)) (hits c') (misses c')) w')
      | (inl e, w') => (inl e, w')
      end in
    match slot c with
    | Some (k, v) =>
        if keq key k
        then (inr v, set (mkLru (slot c) (S (hits c)) (misses c)) w)
        else call_f
    | None => call_f
    end.

Variable libs : Libraries Cell.
Variable argsort : list Cell -> Py.result (list nat).

(** The body of [get_df]. *)
Definition load_frame (self : DataframeConnection) (table_name : string)
  : Py.result (DataFrame Cell) :=
  if is_sqlite (file_type self) then
    read_sql_query libs (db_file self) table_name
  else if String.eqb (file_type self) ".xlsx" then
    read_excel libs (db_file self) table_name
  else if String.eqb (file_type self) ".csv" then
    fst (Source._get_csv_dataframe (read_csv libs (db_file self)))
  else inl Py.ValueError.

Definition get_df_body (key : DfKey) : M nat :=
  bind (lift (load_frame (fst key) (snd key))) alloc.

Definition get_df (self : DataframeConnection) (table_name : string)
  : M nat :=
  lru_cache dfkey_eqb df_cache set_df_cache get_df_body (self, table_name).

(** The body of [get_filtered_sorted_df]: [df[mask]] and [sort_values]
    build new frames; with neither a search query nor a sort column the
    very object that [get_df] returned is returned. *)
Definition get_filtered_sorted_df_body (key : ViewKey) : M nat :=
  bind (get_df (vk_self key) (vk_table_name key)) (fun r =>
  bind (Py.if_truthy (vk_search_query key)
          (fun q => bind (deref r) (fun df => alloc (filter_rows q df)))
          (ret r)) (fun r1 =>
  Py.if_truthy (vk_sort_column key)
    (fun c => bind (deref r1) (fun df1 =>
              bind (lift (sort_values argsort df1 c (vk_sort_order key)))
                   alloc))
    (ret r1))).

Definition get_filtered_sorted_df (self : DataframeConnection)
  (table_name : string) (sort_column : option string) (sort_order : bool)
  (search_query : option string) : M nat :=
  lru_cache viewkey_eqb view_cache set_view_cache
    get_filtered_sorted_df_body
    (mkViewKey self table_name sort_column sort_order search_query).

(** ** The two outcomes of a cached call, written out *)

(** What a call of [get_df] that finds its key does. *)
Definition df_hit (w : World) (r : nat) : Py.result nat * World :=
  (inr r,
   mkWorld (heap w)
     (mkLru (slot (df_cache w))
        (S (hits (df_cache w)))
        (misses (df_cache w)))
     (view_cache w)).

(** What a call of [get_df] that does not find its key does: the file is
    read once; a frame read becomes a new object and the one entry; an
    exception leaves heap and entry as they were. *)
Definition df_miss (self : DataframeConnection) (name : string)
  (w : World) : Py.result nat * World :=
  match load_frame self name with
  | inr df =>
      (inr (List.length (heap w)),
       mkWorld (heap w ++ [df])
         (mkLru
            (Some ((self, name), List.length (heap w)))
            (hits (df_cache w))
            (S (misses (df_cache w))))
         (view_cache w))
  | inl e =>
      (inl e,
       mkWorld (heap w)
         (mkLru (slot (df_cache w))
            (hits (df_cache w))
            (S (misses (df_cache w))))
         (view_cache w))
  end.

(** What a call of [get_filtered_sorted_df] that finds its key does. *)
Definition view_hit (w : World) (r : nat) : Py.result nat * World :=
  (inr r,
   set_view_cache
     (mkLru (slot (view_cache w))
        (S (hits (view_cache w)))
        (misses (view_cache w))) w).

(** What a call that does not find its key does: a miss is counted, the
    body runs once, and the object it returns becomes the one entry. *)
Definition view_miss (key : ViewKey) (w : World)
  : Py.result nat * World :=
  let counted :=
    set_view_cache
      (mkLru (slot (view_cache w))
         (hits (view_cache w))
         (S (misses (view_cache w)))) w in
  match get_filtered_sorted_df_body key counted with
  | (inr v, w') =>
      (inr v,
       set_view_cache
         (mkLru (Some (key, v))
            (hits (view_cache w'))
            (misses (view_cache w'))) w')
  | (inl e, w') => (inl e, w')
  end.

(** The caches agree with the files: the object kept for a key of
    [get_df] is the frame loaded for that key, and the object kept for a
    key of [get_filtered_sorted_df] is the view of the frame loaded for
    the key's table. *)
Definition view_of_key (key : ViewKey) (df : DataFrame Cell)
  : Py.result (DataFrame Cell) :=
  filtered_sorted_df argsort df (vk_sort_column key) (vk_sort_order key)
    (vk_search_query key).

Definition df_slot_ok (w : World) : Prop :=
  match slot (df_cache w) with
  | Some (k, r) =>
      exists df, load_frame (fst k) (snd k) = inr df
                 /\ nth_error (heap w) r = Some df
  | None => True
  end.

Definition view_slot_ok (w : World) : Prop :=
  match slot (view_cache w) with
  | Some (k, r) =>
      exists df v, load_frame (vk_self k) (vk_table_name k) = inr df
                   /\ view_of_key k df = inr v
                   /\ nth_error (heap w) r = Some v
  | None => True
  end.

Definition coherent (w : World) : Prop := df_slot_ok w /\ view_slot_ok w.

End Store.

End Connection.

(* ------------------------------------------------------------------ *)
(** * The presentation state and its event handlers                     *)
(* ------------------------------------------------------------------ *)

Module Viewer.

(** The fields of [SQLiteViewer] that the handlers read and write.
    [db_loaded] is the truthiness of [self.db]; [table_selection] is
    [self.table_switcher.GetStringSelection()]. *)
Record State : Type := mkState {
  db_loaded : bool;
  table_selection : string;
  current_page : Z;
  total_pages : Z;
  sort_column : option string;
  sort_order : bool;
  search_query : option string;
  items_per_page : Z
}.

(** The keyword arguments of one [load_table_data] call. *)
Record LoadRequest : Type := mkLoad {
  lr_table_name : string;
  lr_page_number : Z;
  lr_page_size : Z;
  lr_sort_column : option string;
  lr_sort_order : bool;
  lr_search_query : option string;
  lr_set_status : bool
}.

Definition load_current (set_status : bool) (st : State) : LoadRequest :=
  mkLoad (table_selection st) (current_page st) (items_per_page st)
         (sort_column st) (sort_order st) (search_query st) set_status.

Definition set_page (p : Z) (st : State) : State :=
  mkState (db_loaded st) (table_selection st) p (total_pages st)
          (sort_column st) (sort_order st) (search_query st)
          (items_per_page st).

Definition set_sort (c : option string) (o : bool) (st : State) : State :=
  mkState (db_loaded st) (table_selection st) (current_page st)
          (total_pages st) c o (search_query st) (items_per_page st).

(** [on_column_click]: [column] is the text of the clicked header. *)
Definition on_column_click (column : string) (st : State)
  : State * LoadRequest :=
  let st1 :=
    if Py.opt_str_eqb (sort_column st) (Some column) then
      let st' := if negb (sort_order st)
                 then set_sort None (sort_order st) st
                 else st in
      set_sort (sort_column st') false st'
    else
      set_sort (Some column) true st in
  let st2 := set_page 1 st1 in
  (st2, load_current false st2).

(** [on_page_change]: [backward] is [event.GetId() == wx.ID_BACKWARD].
    Python's [%] with a positive right operand is [Z.modulo]. *)
Definition on_page_change (backward : bool) (st : State)
  : State * option LoadRequest :=
  if db_loaded st && (1 <? total_pages st)%Z then
    let base := if backward then (current_page st - 2)%Z
                else current_page st in
    let st' := set_page ((base mod total_pages st) + 1)%Z st in
    (st', Some (load_current true st'))
  else (st, None).

(** The status text chosen at the end of [on_column_click]. *)
Inductive SortStatus : Type :=
| SortedBy (column : string) (ascending : bool)
| RestoredOriginalOrder.

Definition column_click_status (st : State) : SortStatus :=
  match sort_column st with
  | Some c => if Py.truthy (Some c) then SortedBy c (sort_order st)
              else RestoredOriginalOrder
  | None => RestoredOriginalOrder
  end.

End Viewer.


(* ------------------------------------------------------------------ *)
(** * The distribution fitter                                           *)
(* ------------------------------------------------------------------ *)

Module Fitter.

(** What [scipy.stats] answers: [fit d data] is
    [getattr(st, d).fit(data)], the maximum-likelihood estimate (scipy's
    default method); [logpdf_sum d data params] is
    [getattr(st, d).logpdf(data, *params).sum()].  Either call may
    raise.  Values are IEEE 754 binary64, as in numpy. *)
Record SciPy : Type := mkSciPy {
  fit : string -> list float -> Py.result (list float);
  logpdf_sum : string -> list float -> list float -> Py.result float
}.

Definition dist_names : list string :=
  ["norm"; "expon"; "pareto"; "lognorm"; "gamma"; "beta"; "uniform";
   "dweibull"]%string.

(** [Series.dropna()] on a numeric column: a missing value is a NaN. *)
Definition dropna (col : list float) : list float :=
  filter (fun x => negb (PrimFloat.is_nan x)) col.

Definition float_of_nat (n : nat) : float :=
  PrimFloat.of_uint63 (Uint63.of_Z (Z.of_nat n)).

(** [2 * len(params) - 2 * ll]. *)
Definition aic_of (params : list float) (ll : float) : float :=
  (float_of_nat (2 * List.length params) - 2 * ll)%float.

(** The three loop variables [best_dist, best_params, best_aic]. *)
Record Best : Type := mkBest {
  best_dist : option string;
  best_params : option (list float);
  best_aic : float
}.

Definition init_best : Best := mkBest None None infinity.

(** The first three statements of the loop body: the fitted parameters
    and the AIC of one candidate. *)
Definition evaluate (scipy : SciPy) (data : list float)
  (dist_name : string) : Py.result (list float * float) :=
  match fit scipy dist_name data with
  | inl e => inl e
  | inr params =>
      match logpdf_sum scipy dist_name data params with
      | inl e => inl e
      | inr ll => inr (params, aic_of params ll)
      end
  end.

(** One iteration of the [for] loop. *)
Definition try_candidate (scipy : SciPy) (data : list float)
  (dist_name : string) (b : Best) : Py.result Best :=
  match evaluate scipy data dist_name with
  | inl e => inl e
  | inr (params, aic) =>
      inr (if (aic <? best_aic b)%float
           then mkBest (Some dist_name) (Some params) aic
           else b)
  end.

(** The loop: an exception leaves it at once. *)
Fixpoint fit_loop (scipy : SciPy) (data : list float)
  (names : list string) (b : Best) : Py.result Best :=
  match names with
  | [] => inr b
  | d :: rest =>
      match try_candidate scipy data d b with
      | inl e => inl e
      | inr b' => fit_loop scipy data rest b'
      end
  end.

(** A candidate that returns. *)
Definition evaluates (scipy : SciPy) (data : list float) (d : string)
  : Prop :=
  exists params aic, evaluate scipy data d = inr (params, aic).

(** What holds of the loop variables after the candidates [done]: no
    candidate seen has an AIC below [best_aic]; and either nothing was
    selected and [best_aic] is still [+inf], or the selected candidate is
    one seen, with its parameters and AIC, the AIC below [+inf], and
    every candidate seen before it has an AIC that is not below or equal
    (so among equal AICs the first was kept). *)
Definition loop_inv (scipy : SciPy) (data : list float)
  (done : list string) (b : Best) : Prop :=
  (forall d params aic,
      In d done -> evaluate scipy data d = inr (params, aic) ->
      (aic <? best_aic b)%float = false)
  /\ ((best_dist b = None /\ best_params b = None
       /\ best_aic b = infinity)
      \/ exists pre d post params,
           done = pre ++ d :: post
           /\ best_dist b = Some d
           /\ best_params b = Some params
           /\ evaluate scipy data d = inr (params, best_aic b)
           /\ (best_aic b <? infinity)%float = true
           /\ forall d' params' aic',
                In d' pre -> evaluate scipy data d' = inr (params', aic') ->
                (aic' <=? best_aic b)%float = false).

(** What [_worker] hands to the control thread: the histogram with
    [dist_names=[best_dist]] and [params=[best_params]], or the error box
    (after which the exception is raised again on the worker). *)
Inductive WorkerOutcome : Type :=
| ShowBestFit (dist : option string) (params : option (list float))
| ErrorBox (e : Py.Exc).

(** [_worker] of [on_best_fitted_distribution]; [col] is the selected
    column [df[columns[0]]]. *)
Definition _worker (scipy : SciPy) (col : list float) : WorkerOutcome :=
  match fit_loop scipy (dropna col) dist_names init_best with
  | inr b => ShowBestFit (best_dist b) (best_params b)
  | inl e => ErrorBox e
  end.

(** The end of [show_column_selection_dialog] once the dialog is
    confirmed: the frame is refused when [len(df) < min_data_count],
    otherwise the callback runs.  [col] is the selected column of the
    frame, so [len(df)] is its length, missing values included. *)
Inductive DialogOutcome : Type :=
| TooFewRowsBox (min_data_count : nat)
| Ran (o : WorkerOutcome).

Definition show_column_selection_dialog (min_data_count : nat)
  (callback : list float -> WorkerOutcome) (col : list float)
  : DialogOutcome :=
  if List.length col <? min_data_count
  then TooFewRowsBox min_data_count
  else Ran (callback col).

(** The menu entry [ID_BEST_FITTED_DISTRIBUTION] of [on_data_menu]:
    [min_data_count=10]. *)
Definition on_data_menu_best_fit (scipy : SciPy) (col : list float)
  : DialogOutcome :=
  show_column_selection_dialog 10 (_worker scipy) col.

End Fitter.

(* ------------------------------------------------------------------ *)
(** * Notions of the specification, stated independently of the code    *)
(* ------------------------------------------------------------------ *)

Module Spec.

(** A structural parse failure: the content of the file is malformed,
    its lines do not have the structure of one delimited table.  pandas
    signals it with [ParserError].  An empty file, a file that is not
    UTF-8 text ([UnicodeDecodeError]) and an argument of a wrong type
    ([TypeError]) are other failures. *)
Definition structural_parse_failure (e : Py.Exc) : bool :=
  match e with
  | Py.ParserError => true
  | _ => false
  end.

(** A name carries a prefix. *)
Definition carries_prefix (p name : string) : Prop :=
  exists rest : string, name = String.append p rest.

(** The prefix that SQLite reserves for its own tables and indexes, and
    the prefix of the indexes it makes for UNIQUE and PRIMARY KEY
    constraints. *)
Definition reserved_prefix : string := "sqlite_".

Definition automatic_index_prefix : string := "sqlite_autoindex_".

(** [names] are taken from [all] without changing the order. *)
Inductive taken_in_order {A : Type} : list A -> list A -> Prop :=
| tio_nil : taken_in_order [] []
| tio_skip (x : A) (names all : list A) :
    taken_in_order names all -> taken_in_order names (x :: all)
| tio_keep (x : A) (names all : list A) :
    taken_in_order names all -> taken_in_order (x :: names) (x :: all).

(** The number that stands for a count in binary64 arithmetic (counts
    stay far below [2^53], so the conversion is exact). *)
Definition count_to_float (k : Z) : float :=
  PrimFloat.of_uint63 (Uint63.of_Z k).

(** The information criterion of a candidate with [k] fitted parameters
    and log-likelihood [ll]: [AIC = 2*k - 2*ll]. *)
Definition aic (k : nat) (ll : float) : float :=
  (count_to_float (2 * Z.of_nat k) - 2 * ll)%float.

(** Two characters are the same letter up to case: equal, or the lower
    and upper case form of one of the 26 letters of ASCII. *)
Definition letter_pairs : list (ascii * ascii) :=
  combine (list_ascii_of_string "abcdefghijklmnopqrstuvwxyz")
          (list_ascii_of_string "ABCDEFGHIJKLMNOPQRSTUVWXYZ").

(** [c] is a lower-case letter of the table; and the test that
    [Py.ascii_upper] maps [c] as the table says (a lower-case letter to
    its upper-case form, any other character to itself). *)
Definition is_lower_letter (c : ascii) : bool :=
  existsb (fun p => Ascii.eqb (fst p) c) letter_pairs.

Definition upper_agrees_with_table (c : ascii) : bool :=
  if is_lower_letter c
  then existsb (fun p => Ascii.eqb (fst p) c
                         && Ascii.eqb (snd p) (Py.ascii_upper c))
               letter_pairs
  else Ascii.eqb (Py.ascii_upper c) c.

Definition same_letter (a b : ascii) : Prop :=
  a = b \/ In (a, b) letter_pairs \/ In (b, a) letter_pairs.

(** Two strings are equal up to letter case. *)
Inductive eq_ignoring_case : string -> string -> Prop :=
| eic_empty : eq_ignoring_case EmptyString EmptyString
| eic_char (a b : ascii) (s t : string) :
    same_letter a b -> eq_ignoring_case s t ->
    eq_ignoring_case (String a s) (String b t).

(** [q] occurs in [s] as a substring, letter case ignored; no character
    of [q] has a special meaning. *)
Definition contains_ignoring_case (q s : string) : Prop :=
  exists pre mid post : string,
    s = String.append pre (String.append mid post)
    /\ eq_ignoring_case mid q.

(** The comparison that works on every text: the upper-cased text can
    be cut around the upper-cased query.  It is stated with Python's
    upper-casing, the only handle there is on the case of letters
    outside ASCII.  On ASCII text it is [contains_ignoring_case], which
    is stated without it (lemma [str_contains_iff]). *)
Definition contains_upper_cased {Cell : Type} {ops : Frame.CellOps Cell}
  (q s : string) : Prop :=
  exists pre post : string,
    Frame.str_upper s
    = String.append pre (String.append (Frame.str_upper q) post).

(** A row is found by the query when the text of one of its cells
    contains it in that way. *)
Definition row_found {Cell : Type} {ops : Frame.CellOps Cell}
  (q : string) (row : list Cell) : Prop :=
  exists c, In c row /\ contains_upper_cased q (Frame.cell_str c).

(** All cells of a row have ASCII text. *)
Definition ascii_row {Cell : Type} {ops : Frame.CellOps Cell}
  (row : list Cell) : Prop :=
  forall c, In c row -> Py.is_ascii_text (Frame.cell_str c) = true.

(** Two characters are upper-cased alike when they are one character,
    or two ASCII letters that differ in case. *)
Definition char_alike (ch ch' : string) : Prop :=
  ch = ch'
  \/ exists a b, ch = String a "" /\ ch' = String b ""
                 /\ Spec.same_letter a b.

(** [q] occurs in the text [s], the case of the 26 letters ignored and
    every other character as it is, and the occurrence ends where a
    character of [s] ends (as every occurrence of a text in a text
    does). *)
Definition occurs_ignoring_case (q s : string) : Prop :=
  exists pre mid post : string,
    s = String.append pre (String.append mid post)
    /\ eq_ignoring_case mid q
    /\ Py.continues post = false.

(** A row matches the query when the text of one of its cells contains
    it, letter case ignored. *)
Definition row_matches {Cell : Type} {ops : Frame.CellOps Cell}
  (q : string) (row : list Cell) : Prop :=
  exists c, In c row /\ contains_ignoring_case q (Frame.cell_str c).

(** The order that the specification asks of two sort keys: ascending,
    no key is smaller than one before it; descending, none is greater. *)
Definition key_in_order {Cell : Type} {ops : Frame.CellOps Cell}
  (ascending : bool) (a b : Cell) : Prop :=
  if ascending then Frame.cell_lt b a = false
  else Frame.cell_lt a b = false.

(** The sort key of a row in column [i] is missing. *)
Definition key_missing {Cell : Type} {ops : Frame.CellOps Cell}
  (i : nat) (row : list Cell) : bool :=
  match Frame.key_at i row with
  | None => true
  | Some _ => false
  end.

(** "Stable sort by the column": rows are taken one by one from the end
    of the input and put in front of the first row that is not strictly
    before them, so rows with equal keys keep their input order.  [before
    r1 r2] says that [r1] must come strictly before [r2]. *)
Fixpoint stable_insert {A : Type} (before : A -> A -> bool) (x : A)
  (l : list A) : list A :=
  match l with
  | [] => [x]
  | y :: l' =>
      if before y x then y :: stable_insert before x l' else x :: l
  end.

Definition stable_sort {A : Type} (before : A -> A -> bool) (l : list A)
  : list A :=
  fold_right (stable_insert before) [] l.

(** Strictly-before on rows, by the key in column [i]; a row with a
    missing key is before no row and no row is before it. *)
Definition row_before {Cell : Type} {ops : Frame.CellOps Cell}
  (i : nat) (ascending : bool) (r1 r2 : list Cell) : bool :=
  match Frame.key_at i r1, Frame.key_at i r2 with
  | Some a, Some b =>
      if ascending then Frame.cell_lt a b else Frame.cell_lt b a
  | _, _ => false
  end.

(** The rows of the view as the specification words them, for a table
    without missing sort keys. *)
Definition stable_sorted_rows {Cell : Type} {ops : Frame.CellOps Cell}
  (i : nat) (ascending : bool) (rows : list (list Cell))
  : list (list Cell) :=
  stable_sort (row_before i ascending) rows.

(** The statement that the view is the stable sort of the filtered rows by
    the column at position [i] labelled [c]. *)
Definition view_is_stable_sort {Cell : Type} {ops : Frame.CellOps Cell}
  (argsort : list Cell -> Py.result (list nat)) (df : Frame.DataFrame Cell)
  (c : string) (i : nat) (ascending : bool) (q : option string) : Prop :=
  Frame.filtered_sorted_df argsort df (Some c) ascending q
  = inr (Frame.mkDF (Frame.columns df)
           (stable_sorted_rows i ascending
              (Frame.rows (Py.if_truthy q (fun q => Frame.filter_rows q df)
                                        df)))).

(** The fitter fails: the request ends in a message box instead of a
    fitted distribution. *)
Definition fitter_fails (o : Fitter.DialogOutcome) : Prop :=
  match o with
  | Fitter.TooFewRowsBox _ => True
  | Fitter.Ran (Fitter.ErrorBox _) => True
  | Fitter.Ran (Fitter.ShowBestFit _ _) => False
  end.

(** A candidate fits: both scipy calls return and the AIC is below
    [+inf] (so not a NaN either). *)
Definition candidate_fits (scipy : Fitter.SciPy) (data : list float)
  (d : string) : Prop :=
  exists params aic,
    Fitter.evaluate scipy data d = inr (params, aic)
    /\ (aic <? infinity)%float = true.

(** The statement on failures, as worded: the fitter fails exactly when
    fewer than 10 non-missing values are there or no candidate fits. *)
Definition fit_error_statement (scipy : Fitter.SciPy) (col : list float)
  : Prop :=
  fitter_fails (Fitter.on_data_menu_best_fit scipy col) <->
  (List.length (Fitter.dropna col) < 10
   \/ forall d, In d Fitter.dist_names ->
                ~ candidate_fits scipy (Fitter.dropna col) d).

End Spec.

(* ------------------------------------------------------------------ *)
(** * Sample inputs                                                     *)
(* ------------------------------------------------------------------ *)

Module Examples.

(** A viewer showing the last of three pages, and the first. *)
Definition on_last_page : Viewer.State :=
  Viewer.mkState true "people" 3 3 None false None 250.

Definition on_first_page : Viewer.State :=
  Viewer.mkState true "people" 1 3 None false None 250.

(** A catalogue with two user tables, the sequence table of the engine,
    an automatic index, an entry of type [table] under the index prefix,
    and a view. *)
Definition sample_master : list Source.MasterRow :=
  [ Source.mkMaster "table" "people";
    Source.mkMaster "index" "sqlite_autoindex_people_1";
    Source.mkMaster "table" "sqlite_sequence";
    Source.mkMaster "table" "sqlite_autoindex_orders_1";
    Source.mkMaster "table" "orders";
    Source.mkMaster "view" "recent_orders" ].

(** The catalogue of a file whose table [people] has an AUTOINCREMENT
    key and a UNIQUE column: SQLite keeps the table [sqlite_sequence]
    and the index [sqlite_autoindex_people_1] for it. *)
Definition diary_master : list Source.MasterRow :=
  [ Source.mkMaster "table" "people";
    Source.mkMaster "index" "sqlite_autoindex_people_1";
    Source.mkMaster "table" "sqlite_sequence";
    Source.mkMaster "table" "notes" ].

(** Cell values for the samples: a missing value, an integer, a text.
    [value_lt] orders two values of one kind.  (Between a text and an
    integer Python raises; the answer given here for that is not asked
    for, since [numpy_argsort] below raises first.) *)
Inductive PyValue : Type :=
| PNone
| PInt (z : Z)
| PStr (s : string).

Definition value_str (v : PyValue) : string :=
  match v with
  | PNone => "None"
  | PInt z => NilZero.string_of_int (Z.to_int z)
  | PStr s => s
  end.

Definition value_isna (v : PyValue) : bool :=
  match v with PNone => true | _ => false end.

Definition value_lt (v w : PyValue) : bool :=
  match v, w with
  | PNone, PNone => false
  | PNone, _ => true
  | _, PNone => false
  | PInt x, PInt y => Z.ltb x y
  | PInt _, PStr _ => true
  | PStr _, PInt _ => false
  | PStr x, PStr y => String.ltb x y
  end.

(** A text from the codes of its UTF-8 bytes. *)
Definition utf8 (codes : list nat) : string :=
  string_of_list_ascii (map ascii_of_nat codes).

(** Four characters outside ASCII: e with acute accent, lower and upper
    case; sharp s; dotless i. *)
Definition e_acute : string := utf8 [195; 169].
Definition E_acute : string := utf8 [195; 137].
Definition sharp_s : string := utf8 [195; 159].
Definition dotless_i : string := utf8 [196; 177].

(** What Python answers to [ch.upper()] for these characters; the
    samples use no other character outside ASCII. *)
Definition sample_upper_char (ch : string) : string :=
  if String.eqb ch e_acute then E_acute
  else if String.eqb ch sharp_s then "SS"
  else if String.eqb ch dotless_i then "I"
  else ch.

(** Frames of these values hold integers only, or have a column of
    texts: [.values.tolist()] hands every value on as it is. *)
#[global] Instance PyValueOps : Frame.CellOps PyValue :=
  {| Frame.cell_str := value_str;
     Frame.cell_isna := value_isna;
     Frame.cell_lt := value_lt;
     Frame.cell_tolist := fun _ v => v;
     Frame.upper_char := sample_upper_char;
     Frame.tolist_isna := fun _ _ => eq_refl;
     Frame.tolist_order := fun _ _ _ _ _ H => H |}.

Definition people : Frame.DataFrame PyValue :=
  Frame.mkDF ["id"; "name"; "city"]%string
    [ [PInt 1; PStr "Alice"; PStr "Paris"];
      [PInt 2; PStr "bob"; PStr "Berlin"];
      [PInt 3; PStr "ALICIA"; PNone];
      [PInt 4; PStr "Carol"; PStr "Paris"] ].

Definition orders : Frame.DataFrame PyValue :=
  Frame.mkDF ["id"; "item"]%string
    [ [PInt 1; PStr "pen"]; [PInt 2; PStr "ink"] ].

(** A database file with the two tables; any other table name makes the
    query fail. *)
Definition shop_db : Connection.DataframeConnection :=
  Connection.mkConn 1 "shop.db" ".db".

Definition shop_libs : Connection.Libraries PyValue :=
  Connection.mkLibs
    (fun _ => inr sample_master)
    (fun _ table_name =>
       if String.eqb table_name "people" then inr people
       else if String.eqb table_name "orders" then inr orders
       else inl (Py.OtherError "no such table"))
    (fun _ => inl Py.OSError)
    (fun _ _ => inl Py.OSError)
    (fun _ _ => inl Py.OSError).

(** Two sorting procedures on positions, both by insertion.  The first
    takes the values from the last to the first and puts each in front
    of the values that are not smaller: equal values keep their order.
    The second takes them from the first to the last: equal values end
    up in reverse order. *)
Fixpoint insert_by {A : Type} (lt : A -> A -> bool) (x : nat * A)
  (l : list (nat * A)) : list (nat * A) :=
  match l with
  | [] => [x]
  | y :: l' =>
      if lt (snd y) (snd x) then y :: insert_by lt x l' else x :: l
  end.

Definition stable_argsort {A : Type} (lt : A -> A -> bool) (vals : list A)
  : list nat :=
  map fst (fold_right (insert_by lt) [] (Frame.with_positions vals)).

Definition reversing_argsort {A : Type} (lt : A -> A -> bool)
  (vals : list A) : Py.result (list nat) :=
  inr (map fst (fold_left (fun acc x => insert_by lt x acc)
                          (Frame.with_positions vals) [])).

(** What numpy's [argsort] answers for the sample values, up to 16 of
    them: [TypeError] when a text and an integer meet (['<' not
    supported between instances of 'str' and 'int']), and otherwise
    the positions found by insertion, equal values in their order.  (A
    longer input is partitioned first.) *)
Definition is_int (v : PyValue) : bool :=
  match v with PInt _ => true | _ => false end.

Definition is_text (v : PyValue) : bool :=
  match v with PStr _ => true | _ => false end.

Definition numpy_argsort (vals : list PyValue) : Py.result (list nat) :=
  if existsb is_int vals && existsb is_text vals then inl Py.TypeError
  else inr (stable_argsort value_lt vals).

(** Numbers for a table of numeric columns: an integer, or a float
    given by the number of its halves ([F 5] is 2.5).  In a frame with
    a float column, [.values] is an array of floats, and
    [.values.tolist()] hands the integers on as floats. *)
Inductive Number : Type :=
| I (z : Z)
| F (halves : Z).

Definition halves_of (n : Number) : Z :=
  match n with
  | I z => (2 * z)%Z
  | F h => h
  end.

Definition number_str (n : Number) : string :=
  match n with
  | I z => NilZero.string_of_int (Z.to_int z)
  | F h =>
      ((if (h <? 0)%Z then "-" else "")
       ++ NilZero.string_of_int (Z.to_int (Z.abs h / 2))
       ++ (if (Z.abs h mod 2 =? 0)%Z then ".0" else ".5"))%string
  end.

Definition is_float (n : Number) : bool :=
  match n with F _ => true | I _ => false end.

Definition number_tolist (df : Frame.DataFrame Number) (n : Number)
  : Number :=
  if existsb (existsb is_float) (Frame.rows df) then F (halves_of n)
  else n.

#[global] Instance NumberOps : Frame.CellOps Number :=
  {| Frame.cell_str := number_str;
     Frame.cell_isna := fun _ => false;
     Frame.cell_lt := fun v w => Z.ltb (halves_of v) (halves_of w);
     Frame.cell_tolist := number_tolist;
     Frame.upper_char := sample_upper_char;
     Frame.tolist_isna := fun _ _ => eq_refl;
     Frame.tolist_order := fun df v w _ _ H =>
       match existsb (existsb is_float) (Frame.rows df) as b
         return Z.ltb (halves_of (if b then F (halves_of w) else w))
                      (halves_of (if b then F (halves_of v) else v))
                = false
       with
       | true => H
       | false => H
       end |}.

(** A table with an integer column and a float column. *)
Definition prices : Frame.DataFrame Number :=
  Frame.mkDF ["id"; "price"]%string
    [ [I 1; F 5]; [I 2; F 8]; [I 3; F 3] ].

(** A table with a column that holds numbers and texts, as a column of
    a SQLite table without a declared type can. *)
Definition parts : Frame.DataFrame PyValue :=
  Frame.mkDF ["id"; "code"]%string
    [ [PInt 1; PInt 7]; [PInt 2; PStr "A7"]; [PInt 3; PInt 12] ].

(** Sample answers of scipy.  Every family gets as many parameters as
    it has (location and scale, and its shape parameters), and a fixed
    log-likelihood; log-normal and gamma tie for the lowest AIC. *)
Definition family_size (d : string) : nat :=
  if existsb (String.eqb d) ["norm"; "expon"; "uniform"]%string then 2
  else if String.eqb d "beta" then 4
  else 3.

Definition family_ll (d : string) : float :=
  if String.eqb d "norm" then (-21)%float
  else if String.eqb d "lognorm" then (-19.5)%float
  else if String.eqb d "gamma" then (-19.5)%float
  else (-30)%float.

Definition steady_scipy : Fitter.SciPy :=
  Fitter.mkSciPy
    (fun d _ => inr (repeat 1%float (family_size d)))
    (fun d _ _ => inr (family_ll d)).

(** The same, but the fit of the exponential family raises. *)
Definition expon_raises_scipy : Fitter.SciPy :=
  Fitter.mkSciPy
    (fun d _ => if String.eqb d "expon"
                then inl (Py.OtherError "fit did not converge")
                else inr (repeat 1%float (family_size d)))
    (fun d _ _ => inr (family_ll d)).

(** The same, but no log-likelihood is a number. *)
Definition nan_scipy : Fitter.SciPy :=
  Fitter.mkSciPy
    (fun d _ => inr (repeat 1%float (family_size d)))
    (fun _ _ _ => inr nan).

(** Ten rows, one value missing. *)
Definition nine_of_ten : list float :=
  [1.5; 2; 2.5; nan; 3; 3.5; 4; 4.5; 5; 5.5]%float.

(** Twelve rows without a missing value. *)
Definition twelve_values : list float :=
  [1.5; 2; 2.5; 3; 3.5; 4; 4.5; 5; 5.5; 6; 6.5; 7]%float.

End Examples.
From Stdlib Require Import DecimalN DecimalPos.


(* ------------------------------------------------------------------ *)
(** * Loading and showing one page: [load_table_data]                   *)
(* ------------------------------------------------------------------ *)

Module Paging.

Import Frame.

(** Python's [l[start:stop]] for any two integers: a negative bound
    counts from the end, and both are clamped to [0 .. len]. *)
Definition clamp_index (len i : Z) : Z :=
  if (i <? 0)%Z then Z.max 0 (len + i) else Z.min i len.

Definition py_slice {A : Type} (l : list A) (start stop : Z) : list A :=
  let len := Z.of_nat (List.length l) in
  let a := clamp_index len start in
  let b := clamp_index len stop in
  firstn (Z.to_nat (b - a)) (skipn (Z.to_nat a) l).

(** [int(np.ceil(a / b))].  The quotient is taken in binary64; for the
    row counts of a frame held in memory and the page sizes of the menu
    it lies strictly between two integers whenever the exact quotient
    does, so the ceiling is the exact one. *)
Definition ceil_div (a b : Z) : Z := (- ((- a) / b))%Z.

(** [l.index(x)] on a list of labels: [ValueError] when [x] is not in
    it. *)
Fixpoint list_index (x : string) (l : list string) : Py.result nat :=
  match l with
  | [] => inl Py.ValueError
  | y :: l' =>
      if String.eqb y x then inr 0
      else match list_index x l' with
           | inr i => inr (S i)
           | inl e => inl e
           end
  end.

Definition set_total_pages (n : Z) (st : Viewer.State) : Viewer.State :=
  Viewer.mkState (Viewer.db_loaded st) (Viewer.table_selection st)
    (Viewer.current_page st) n (Viewer.sort_column st)
    (Viewer.sort_order st) (Viewer.search_query st)
    (Viewer.items_per_page st).

Section Worker.

Context {Cell : Type} {ops : CellOps Cell}.

(** What is handed to [display_table] and the status bar. *)
Record Page : Type := mkPage {
  pg_rows : list (list Cell);
  pg_columns : list string;
  pg_total_rows : Z;
  pg_total_pages : Z;
  pg_sort_indicator : option (nat * bool);
  pg_set_status : bool
}.

(** How [_worker] ends: the error box (list cleared, exception raised
    again), the "No data found" box (list cleared), or the page. *)
Inductive Outcome : Type :=
| ErrorBox (e : Py.Exc)
| NoDataBox
| Display (p : Page).

(** The rows of a page: [l[offset:offset+page_size]]. *)
Definition page_rows (rows : list (list Cell)) (page_number page_size : Z)
  : list (list Cell) :=
  let offset := ((page_number - 1) * page_size)%Z in
  py_slice rows offset (offset + page_size).

(** The page of a frame: [df.iloc[offset:offset+page_size]], a frame
    with the columns of [df]. *)
Definition page (df : DataFrame Cell) (page_number page_size : Z)
  : DataFrame Cell :=
  mkDF (columns df) (page_rows (rows df) page_number page_size).

(** [df.values.tolist()]: the rows as lists of Python objects, every
    value converted as [.values] and [tolist] convert it. *)
Definition values_tolist (df : DataFrame Cell) : list (list Cell) :=
  map (map (cell_tolist df)) (rows df).

(** [_worker] of [load_table_data] from the answer of
    [get_filtered_sorted_df] on. *)
Definition _worker (view : Py.result (DataFrame Cell))
  (req : Viewer.LoadRequest) : Outcome :=
  match view with
  | inl e => ErrorBox e
  | inr df =>
      let rows_ :=
        values_tolist (page df (Viewer.lr_page_number req)
                            (Viewer.lr_page_size req)) in
      let total_rows := Z.of_nat (List.length (rows df)) in
      match Py.if_truthy (Viewer.lr_sort_column req)
              (fun c => match list_index c (columns df) with
                        | inr i => inr (Some (i, Viewer.lr_sort_order req))
                        | inl e => inl e
                        end)
              (inr None) with
      | inl e => ErrorBox e
      | inr indicator =>
          match rows_ with
          | [] => NoDataBox
          | _ :: _ =>
              Display (mkPage rows_ (columns df) total_rows
                         (ceil_div total_rows (Viewer.lr_page_size req))
                         indicator (Viewer.lr_set_status req))
          end
      end
  end.

(** [load_table_data]: the view is asked of the connection, the page is
    cut, and [self.total_pages] is set when a page is shown. *)
Definition load_table_data (libs : Connection.Libraries Cell)
  (argsort : list Cell -> Py.result (list nat))
  (self : Connection.DataframeConnection) (req : Viewer.LoadRequest)
  (st : Viewer.State) (w : Connection.World)
  : Outcome * Viewer.State * Connection.World :=
  let run :=
    Connection.bind
      (Connection.get_filtered_sorted_df libs argsort self
         (Viewer.lr_table_name req) (Viewer.lr_sort_column req)
         (Viewer.lr_sort_order req) (Viewer.lr_search_query req))
      Connection.deref w in
  let out := _worker (fst run) req in
  (out,
   match out with
   | Display p => set_total_pages (pg_total_pages p) st
   | _ => st
   end,
   snd run).

End Worker.

End Paging.

(* ------------------------------------------------------------------ *)
(** * Text: labels, counts and file types                               *)
(* ------------------------------------------------------------------ *)

Module Text.

(** [str.lower] as far as the file type needs it: [A]..[Z] are mapped
    to [a]..[z], every other byte is kept.  (Python also maps letters
    outside ASCII.  The only one that becomes an ASCII letter is the
    Kelvin sign, which becomes [k]; no extension that the program tests
    for has a [k], so every test of the file type comes out as in
    Python.) *)
Definition ascii_lower (c : ascii) : ascii :=
  let n := nat_of_ascii c in
  if (65 <=? n) && (n <=? 90) then ascii_of_nat (n + 32) else c.

Fixpoint lower (s : string) : string :=
  match s with
  | EmptyString => EmptyString
  | String c s' => String (ascii_lower c) (lower s')
  end.

(** The digits of [f"{n:,}"], last digit first: a comma is put after
    every third digit that has a digit after it.  [k] counts the digits
    since the last comma. *)
Fixpoint commas_rev (digits : list ascii) (k : nat) : list ascii :=
  match digits with
  | [] => []
  | c :: rest =>
      if k =? 3 then ","%char :: c :: commas_rev rest 1
      else c :: commas_rev rest (S k)
  end.

(** [f"{n:,}"] for an integer [n]. *)
Definition format_thousands (n : Z) : string :=
  let digits :=
    list_ascii_of_string (NilEmpty.string_of_uint (N.to_uint (Z.abs_N n))) in
  let grouped := string_of_list_ascii (rev (commas_rev (rev digits) 0)) in
  if (n <? 0)%Z then String "-" grouped else grouped.

(** [s.split(sep)[0]] for a one-character separator: the text before
    the first [sep], all of [s] when there is none. *)
Fixpoint before_first (sep : ascii) (s : string) : string :=
  match s with
  | EmptyString => EmptyString
  | String c s' =>
      if Ascii.eqb c sep then EmptyString
      else String c (before_first sep s')
  end.

(** [s.replace(c, "")] for a one-character [c]. *)
Fixpoint remove_char (c : ascii) (s : string) : string :=
  match s with
  | EmptyString => EmptyString
  | String d s' =>
      if Ascii.eqb d c then remove_char c s'
      else String d (remove_char c s')
  end.

(** [int(s)] on a text made of an optional sign and decimal digits.
    (Python also accepts white space around the number and underscores
    between digits; texts of that kind never reach the call in this
    program and are answered [ValueError] here.) *)
Definition int_of_digits (s : string) : Py.result Z :=
  match NilZero.uint_of_string s with
  | Some d => inr (Z.of_N (N.of_uint d))
  | None => inl Py.ValueError
  end.

Definition int (s : string) : Py.result Z :=
  match s with
  | String "-" s' =>
      match int_of_digits s' with
      | inr n => inr (- n)%Z
      | inl e => inl e
      end
  | String "+" s' => int_of_digits s'
  | _ => int_of_digits s
  end.

(** [sep.join(l)]. *)
Fixpoint join (sep : string) (l : list string) : string :=
  match l with
  | [] => EmptyString
  | [x] => x
  | x :: rest => (x ++ sep ++ join sep rest)%string
  end.

(** [s.split(sep)] for a one-character separator: the pieces between
    the separators, of which there is always at least one. *)
Fixpoint split (sep : ascii) (s : string) : list string :=
  match s with
  | EmptyString => [EmptyString]
  | String c s' =>
      if Ascii.eqb c sep then EmptyString :: split sep s'
      else match split sep s' with
           | piece :: pieces => String c piece :: pieces
           | [] => [String c EmptyString]
           end
  end.

(** [c in s] for a character [c]. *)
Fixpoint has_char (c : ascii) (s : string) : bool :=
  match s with
  | EmptyString => false
  | String d s' => Ascii.eqb d c || has_char c s'
  end.

Definition tab : ascii := "009"%char.
Definition newline : ascii := "010"%char.

(** ['s'[:n ^ 1]]: the plural ending of the messages that count rows
    or columns. *)
Definition plural_suffix (n : Z) : string :=
  string_of_list_ascii
    (Paging.py_slice (list_ascii_of_string "s") 0 (Z.lxor n 1)).

End Text.

(* ------------------------------------------------------------------ *)
(** * The "items per page" menu                                         *)
(* ------------------------------------------------------------------ *)

Module Menu.

(** [items_per_page_options] of [create_menu_bar]. *)
Definition items_per_page_options : list Z :=
  [5; 10; 25; 50; 100; 250; 500; 1000]%Z.

(** The label of a radio item: [f"{items_per_page:,} items per page"]. *)
Definition item_label (items_per_page : Z) : string :=
  (Text.format_thousands items_per_page ++ " items per page")%string.

(** What [on_set_items_per_page] reads back from the label of the
    chosen item:
    [int(label.split(" ")[0].replace(",", ""))]. *)
Definition label_value (label : string) : Py.result Z :=
  Text.int (Text.remove_char "," (Text.before_first " " label)).

End Menu.

(* ------------------------------------------------------------------ *)
(** * The window: [SQLiteViewer] and its event handlers                 *)
(* ------------------------------------------------------------------ *)

Module App.

Import Frame.

(** ** Handlers on the presentation state *)

Definition set_search_query (q : option string) (st : Viewer.State)
  : Viewer.State :=
  Viewer.mkState (Viewer.db_loaded st) (Viewer.table_selection st)
    (Viewer.current_page st) (Viewer.total_pages st)
    (Viewer.sort_column st) (Viewer.sort_order st) q
    (Viewer.items_per_page st).

Definition set_items_per_page (n : Z) (st : Viewer.State) : Viewer.State :=
  Viewer.mkState (Viewer.db_loaded st) (Viewer.table_selection st)
    (Viewer.current_page st) (Viewer.total_pages st)
    (Viewer.sort_column st) (Viewer.sort_order st)
    (Viewer.search_query st) n.

(** The table switcher gets a new selection. *)
Definition set_selection (name : string) (st : Viewer.State)
  : Viewer.State :=
  Viewer.mkState (Viewer.db_loaded st) name
    (Viewer.current_page st) (Viewer.total_pages st)
    (Viewer.sort_column st) (Viewer.sort_order st)
    (Viewer.search_query st) (Viewer.items_per_page st).

(** [reset_state]. *)
Definition reset_state (st : Viewer.State) : Viewer.State :=
  Viewer.mkState (Viewer.db_loaded st) (Viewer.table_selection st)
    1 0 None false None (Viewer.items_per_page st).

(** [load_table_data(table_name=..., page_size=...)]: the other
    parameters take their defaults. *)
Definition load_defaults (table_name : string) (page_size : Z)
  : Viewer.LoadRequest :=
  Viewer.mkLoad table_name 1 page_size None false None true.

(** [on_switch_table]. *)
Definition on_switch_table (st : Viewer.State)
  : Viewer.State * option Viewer.LoadRequest :=
  if Viewer.db_loaded st then
    let st' := reset_state st in
    (st', Some (load_defaults (Viewer.table_selection st')
                  (Viewer.items_per_page st')))
  else (st, None).

(** [on_search]: [text] is [self.search_ctrl.GetValue()]. *)
Definition on_search (text : string) (st : Viewer.State)
  : Viewer.State * option Viewer.LoadRequest :=
  if Viewer.db_loaded st && Py.truthy (Some text) then
    let st' := set_search_query (Some text) (Viewer.set_page 1 st) in
    (st', Some (Viewer.load_current true st'))
  else (st, None).

(** [on_search_cancel]. *)
Definition on_search_cancel (st : Viewer.State)
  : Viewer.State * option Viewer.LoadRequest :=
  if Viewer.db_loaded st then
    let st' := Viewer.set_page 1 (set_search_query None st) in
    (st', Some (Viewer.load_current true st'))
  else (st, None).

(** [on_set_items_per_page]: [label] is the label of the chosen menu
    item and [column_count] is [self.list_ctrl.GetColumnCount()].  The
    page size is stored first; the table is loaded again only when a
    table is shown. *)
Definition on_set_items_per_page (label : string) (column_count : nat)
  (st : Viewer.State)
  : Py.result (Viewer.State * option Viewer.LoadRequest) :=
  match Menu.label_value label with
  | inl e => inl e
  | inr n =>
      let st1 := set_items_per_page n st in
      if Viewer.db_loaded st1 && negb (column_count =? 0) then
        let st2 := Viewer.set_page 1 st1 in
        inr (st2, Some (Viewer.load_current true st2))
      else inr (st1, None)
  end.

(** ** The window *)

Section Window.

Context {Cell : Type} {ops : CellOps Cell}.

Variable libs : Connection.Libraries Cell.
Variable argsort : list Cell -> Py.result (list nat).

(** [os.path.splitext], of the platform the program runs on. *)
Variable splitext : string -> string * string.

(** The window: [self.db], the presentation state, the items of the
    table switcher, what the list control was last asked to show
    ([None] after [ClearAll]), the number of connection objects made so
    far, and the store of frames with the two caches.  [db_loaded] of
    the presentation state is the truthiness of [db]. *)
Record Window : Type := mkWindow {
  db : option Connection.DataframeConnection;
  ui : Viewer.State;
  table_switcher : list string;
  list_ctrl : option (@Paging.Page Cell);
  connections : nat;
  world : @Connection.World Cell
}.

(** [SQLiteViewer.__init__] and [create_dashboard]. *)
Definition init_window : Window :=
  mkWindow None
    (Viewer.mkState false "No database loaded" 1 0 None false None 250)
    ["No database loaded"%string] None 0 Connection.init_world.

Definition with_ui (st : Viewer.State) (win : Window) : Window :=
  mkWindow (db win) st (table_switcher win) (list_ctrl win)
    (connections win) (world win).

(** [self.list_ctrl.GetColumnCount()]. *)
Definition column_count (win : Window) : nat :=
  match list_ctrl win with
  | Some p => List.length (Paging.pg_columns p)
  | None => 0
  end.

(** A call of [load_table_data], run to its end: the list control
    shows the page, or is cleared by the error and the "No data found"
    paths.  Without a connection, [self.db.get_filtered_sorted_df]
    raises [AttributeError] inside the [try]. *)
Definition load (req : Viewer.LoadRequest) (win : Window) : Window :=
  match db win with
  | None =>
      mkWindow None (ui win) (table_switcher win) None
        (connections win) (world win)
  | Some self =>
      let r := Paging.load_table_data libs argsort self req (ui win)
                 (world win) in
      mkWindow (db win) (snd (fst r)) (table_switcher win)
        (match fst (fst r) with
         | Paging.Display p => Some p
         | _ => None
         end)
        (connections win) (snd r)
  end.

(** A handler's new state, and the load it asks for. *)
Definition run (r : Viewer.State * option Viewer.LoadRequest)
  (win : Window) : Window :=
  match snd r with
  | Some req => load req (with_ui (fst r) win)
  | None => with_ui (fst r) win
  end.

(** [DataframeConnection(db_file=filename)]: a new object. *)
Definition new_connection (id : nat) (filename : string)
  : Connection.DataframeConnection :=
  Connection.mkConn id filename (Text.lower (snd (splitext filename))).

(** [load_database_file].  When the table names cannot be read, or
    there are none, the window keeps its database and what it shows;
    otherwise the new connection replaces the old one, the first table
    is selected, the state is reset and the first page is loaded. *)
Definition load_database_file (filename : string) (win : Window)
  : Window :=
  let self := new_connection (connections win) filename in
  let made :=
    mkWindow (db win) (ui win) (table_switcher win) (list_ctrl win)
      (S (connections win)) (world win) in
  match Connection.get_table_or_sheet_names libs self with
  | inl _ => made
  | inr [] => made
  | inr (first :: others) =>
      let st :=
        reset_state
          (Viewer.mkState true first
             (Viewer.current_page (ui win)) (Viewer.total_pages (ui win))
             (Viewer.sort_column (ui win)) (Viewer.sort_order (ui win))
             (Viewer.search_query (ui win))
             (Viewer.items_per_page (ui win))) in
      load (load_defaults first (Viewer.items_per_page st))
        (mkWindow (Some self) st (first :: others) (list_ctrl win)
           (S (connections win)) (world win))
  end.

(** What the user does. *)
Inductive Event : Type :=
| Open (filename : string)
| SwitchTable (item : nat)
| Search (text : string)
| SearchCancel
| ColumnClick (col : nat)
| PageChange (backward : bool)
| SetItemsPerPage (item : nat).

(** One event, handled to its end (the load it starts included).  An
    event on something that is not there (an item the switcher does not
    have, a header the list does not show) does not occur. *)
Definition step (ev : Event) (win : Window) : Window :=
  match ev with
  | Open filename => load_database_file filename win
  | SwitchTable item =>
      match nth_error (table_switcher win) item with
      | Some name =>
          run (on_switch_table (set_selection name (ui win))) win
      | None => win
      end
  | Search text => run (on_search text (ui win)) win
  | SearchCancel => run (on_search_cancel (ui win)) win
  | ColumnClick col =>
      match list_ctrl win with
      | Some p =>
          match nth_error (Paging.pg_columns p) col with
          | Some column =>
              let r := Viewer.on_column_click column (ui win) in
              run (fst r, Some (snd r)) win
          | None => win
          end
      | None => win
      end
  | PageChange backward => run (Viewer.on_page_change backward (ui win)) win
  | SetItemsPerPage item =>
      match nth_error Menu.items_per_page_options item with
      | Some n =>
          match on_set_items_per_page (Menu.item_label n)
                  (column_count win) (ui win) with
          | inr r => run r win
          | inl _ => win
          end
      | None => win
      end
  end.

(** A session: the events handled one after the other, each to its end
    before the next. *)
Definition session (events : list Event) : Window :=
  fold_left (fun win ev => step ev win) events init_window.

(** What the list control shows is the page the state speaks of: the
    rows of page [current_page] of the view of the selected table under
    the state's sort and search, as [.values.tolist()] hands them on,
    and [total_pages] is the number of pages of that view. *)
Definition shows_current_page (win : Window) : Prop :=
  forall p, list_ctrl win = Some p -> Paging.pg_columns p <> [] ->
    exists self df view,
      db win = Some self
      /\ Connection.load_frame libs self
           (Viewer.table_selection (ui win)) = inr df
      /\ filtered_sorted_df argsort df (Viewer.sort_column (ui win))
           (Viewer.sort_order (ui win)) (Viewer.search_query (ui win))
         = inr view
      /\ Paging.pg_columns p = columns view
      /\ Paging.pg_rows p
         = Paging.values_tolist
             (Paging.page view (Viewer.current_page (ui win))
                (Viewer.items_per_page (ui win)))
      /\ Paging.pg_rows p <> []
      /\ Viewer.total_pages (ui win)
         = Paging.ceil_div (Z.of_nat (List.length (rows view)))
             (Viewer.items_per_page (ui win))
      /\ (1 <= Viewer.current_page (ui win)
          <= Viewer.total_pages (ui win))%Z.

(** What every session keeps: the caches agree with the files, the
    page size is positive, the page number is at least 1, [db_loaded]
    tells whether there is a connection, a list that shows something
    has a connection behind it, and the list shows the current page. *)
Definition consistent (win : Window) : Prop :=
  Connection.coherent libs argsort (world win)
  /\ (0 < Viewer.items_per_page (ui win))%Z
  /\ (1 <= Viewer.current_page (ui win))%Z
  /\ Viewer.db_loaded (ui win)
     = match db win with Some _ => true | None => false end
  /\ (list_ctrl win <> None -> db win <> None)
  /\ shows_current_page win.

(** The key under which the view of the state is cached. *)
Definition current_key (self : Connection.DataframeConnection)
  (st : Viewer.State) : Connection.ViewKey :=
  Connection.mkViewKey self (Viewer.table_selection st)
    (Viewer.sort_column st) (Viewer.sort_order st)
    (Viewer.search_query st).

(** The view behind the page that is shown is the entry of the view
    cache. *)
Definition shown_view_is_cached (win : Window) : Prop :=
  list_ctrl win <> None ->
  exists self r,
    db win = Some self
    /\ Connection.slot (Connection.view_cache (world win))
       = Some (current_key self (ui win), r).

(** The table switcher lists the tables of the open file, and its
    selection is one of them. *)
Definition switcher_lists_tables (win : Window) : Prop :=
  forall self, db win = Some self ->
    Connection.get_table_or_sheet_names libs self
    = inr (table_switcher win)
    /\ In (Viewer.table_selection (ui win)) (table_switcher win).

(** The two caches hold one table: the cached view is a view of the
    frame that [get_df] holds. *)
Definition caches_hold_one_table (w : @Connection.World Cell) : Prop :=
  forall k r,
    Connection.slot (Connection.view_cache w) = Some (k, r) ->
    exists r0,
      Connection.slot (Connection.df_cache w)
      = Some ((Connection.vk_self k, Connection.vk_table_name k), r0).

(** While a sort column is set, there is a connection, and a cached
    view is one of the selected table. *)
Definition sorted_table_is_cached (win : Window) : Prop :=
  Py.truthy (Viewer.sort_column (ui win)) = true ->
  exists self,
    db win = Some self
    /\ forall k r,
         Connection.slot (Connection.view_cache (world win)) = Some (k, r) ->
         Connection.vk_self k = self
         /\ Connection.vk_table_name k = Viewer.table_selection (ui win).

(** Two rows, one above the other in a list sorted on column [i], are
    in order: both have a sort value and the values are in order, or
    the lower one has none. *)
Definition rows_in_order (i : nat) (ascending : bool)
  (upper lower : list Cell) : Prop :=
  match key_at i upper, key_at i lower with
  | Some a, Some b =>
      if ascending then cell_lt b a = false else cell_lt a b = false
  | _, None => True
  | None, Some _ => False
  end.

(** The events that keep the table: all but opening a file and
    switching tables. *)
Definition keeps_table (ev : Event) : bool :=
  match ev with
  | Open _ | SwitchTable _ => false
  | _ => true
  end.

End Window.

End App.

(* ------------------------------------------------------------------ *)
(** * Copying the selected rows: [on_copy]                              *)
(* ------------------------------------------------------------------ *)

Module Clipboard.

(** The list control as [on_copy] reads it: the number of columns, and
    for every item whether it is selected and the texts of its cells. *)
Record ListCtrl : Type := mkListCtrl {
  column_count : nat;
  items : list (bool * list string)
}.

(** [GetItem(item, col).GetText()]; a cell that is not there has the
    empty text. *)
Definition item_text (lc : ListCtrl) (item : Z) (col : nat) : string :=
  match nth_error (items lc) (Z.to_nat item) with
  | Some (_, texts) => nth col texts EmptyString
  | None => EmptyString
  end.

(** The first selected item among [flags], which start at item [i];
    [-1] when there is none. *)
Fixpoint first_selected_from (flags : list bool) (i : nat) : Z :=
  match flags with
  | [] => (-1)%Z
  | b :: rest => if b then Z.of_nat i else first_selected_from rest (S i)
  end.

(** [GetNextSelected(item)]: the first selected item after [item]. *)
Definition GetNextSelected (lc : ListCtrl) (item : Z) : Z :=
  let start := Z.to_nat (item + 1) in
  first_selected_from (skipn start (map fst (items lc))) start.

(** [GetFirstSelected()]. *)
Definition GetFirstSelected (lc : ListCtrl) : Z := GetNextSelected lc (-1).

(** The [while item != -1] loop: [fuel] bounds the number of turns. *)
Fixpoint copy_loop (fuel : nat) (lc : ListCtrl) (item : Z)
  (data_to_copy : list (list string)) : option (list (list string)) :=
  if (item =? -1)%Z then Some data_to_copy
  else match fuel with
       | 0 => None
       | S fuel' =>
           copy_loop fuel' lc (GetNextSelected lc item)
             (data_to_copy
              ++ [map (item_text lc item) (seq 0 (column_count lc))])
       end.

(** How [on_copy] ends: the text put on the clipboard and the count of
    the status line, or one of the two other status lines. *)
Inductive CopyOutcome : Type :=
| Copied (text : string) (row_count : nat)
| ClipboardError
| NoRowsSelected.

(** The text: rows joined by newlines, cells by tabs. *)
Definition clipboard_text (data_to_copy : list (list string)) : string :=
  Text.join (String Text.newline EmptyString)
    (map (Text.join (String Text.tab EmptyString)) data_to_copy).

(** [on_copy]; [clipboard_opens] is the answer of
    [wx.TheClipboard.Open()].  [None] when the loop has not ended
    within [fuel] turns. *)
Definition on_copy (fuel : nat) (lc : ListCtrl) (clipboard_opens : bool)
  : option CopyOutcome :=
  match copy_loop fuel lc (GetFirstSelected lc) [] with
  | None => None
  | Some [] => Some NoRowsSelected
  | Some (row :: others) =>
      if clipboard_opens then
        Some (Copied (clipboard_text (row :: others))
                (List.length (row :: others)))
      else Some ClipboardError
  end.

(** The cells of the selected items, in the order of the list. *)
Definition selected_rows (lc : ListCtrl) : list (list string) :=
  map (fun it => map (fun col => nth col (snd it) EmptyString)
                     (seq 0 (column_count lc)))
      (filter fst (items lc)).

End Clipboard.

(* ------------------------------------------------------------------ *)
(** * The column selection dialog                                       *)
(* ------------------------------------------------------------------ *)

Module Dialog.

(** The outcomes of [_on_ok]: one of the two message boxes (the dialog
    stays open), or [EndModal(wx.ID_OK)]. *)
Inductive OkOutcome : Type :=
| AtLeastBox (min_count : Z)
| NoMoreThanBox (max_count : Z)
| EndModalOk.

(** [ColumnSelectionDialog._on_ok]; [selected] is
    [self.listbox.GetSelections()].  A bound that is [None] or [0] is
    falsy and not enforced. *)
Definition _on_ok (min_count : Z) (max_count : option Z)
  (selected : list nat) : OkOutcome :=
  if negb (min_count =? 0)%Z
     && (Z.of_nat (List.length selected) <? min_count)%Z
  then AtLeastBox min_count
  else match max_count with
       | Some m =>
           if negb (m =? 0)%Z && (m <? Z.of_nat (List.length selected))%Z
           then NoMoreThanBox m
           else EndModalOk
       | None => EndModalOk
       end.

(** The positions of the marked entries, counted from [i]. *)
Fixpoint marked_from (marks : list bool) (i : nat) : list nat :=
  match marks with
  | [] => []
  | b :: rest =>
      if b then i :: marked_from rest (S i) else marked_from rest (S i)
  end.

(** [ListBox.GetSelections()] of a list box with [count] entries, of
    which the user has marked some. *)
Definition GetSelections (count : nat) (marks : list bool) : list nat :=
  marked_from (firstn count marks) 0.

(** What the user does with the dialog: confirm with some entries
    marked, or cancel. *)
Inductive Action : Type :=
| PressOk (marks : list bool)
| PressCancel.

(** [ShowModal()]: the dialog stays up until [_on_ok] ends it or the
    user cancels (or closes it).  The result is [selected_columns] when
    it ended with [wx.ID_OK]. *)
Fixpoint ShowModal (count : nat) (min_count : Z) (max_count : option Z)
  (actions : list Action) : option (list nat) :=
  match actions with
  | [] => None
  | PressCancel :: _ => None
  | PressOk marks :: rest =>
      match _on_ok min_count max_count (GetSelections count marks) with
      | EndModalOk => Some (GetSelections count marks)
      | _ => ShowModal count min_count max_count rest
      end
  end.

(** [[columns[i] for i in selected]]. *)
Fixpoint pick (columns : list string) (selected : list nat)
  : Py.result (list string) :=
  match selected with
  | [] => inr []
  | i :: rest =>
      match nth_error columns i with
      | None => inl (Py.OtherError "IndexError")
      | Some c =>
          match pick columns rest with
          | inr cs => inr (c :: cs)
          | inl e => inl e
          end
      end
  end.

(** The entries of the data menu that [bind_events] binds. *)
Inductive Analysis : Type :=
| DescriptiveStatistics
| Histogram
| ScatterPlot
| CorrelationMatrix
| BestFittedDistribution.

(** The keyword arguments that [on_data_menu] passes for each entry
    (the defaults are [1], [None] and [1]). *)
Definition min_column_count (a : Analysis) : Z :=
  match a with
  | ScatterPlot | CorrelationMatrix => 2
  | _ => 1
  end.

Definition max_column_count (a : Analysis) : option Z :=
  match a with
  | ScatterPlot => Some 2%Z
  | BestFittedDistribution => Some 1%Z
  | _ => None
  end.

Definition min_data_count (a : Analysis) : Z :=
  match a with
  | CorrelationMatrix | BestFittedDistribution => 10
  | _ => 1
  end.

(** How [show_column_selection_dialog] ends. *)
Inductive Shown : Type :=
| TooFewColumnsBox (min_column_count : Z)
| Cancelled
| Raised (e : Py.Exc)
| TooFewRowsBox (min_data_count : Z)
| Called (selected_columns : list string) (filtered : bool).

(** [show_column_selection_dialog] for one entry of the menu.
    [columns] are the columns offered (of a valid type, in the order of
    the list); [ignore_filters] is the check box of the dialog;
    [table_len] and [view_len] are [len(df)] of the table and of the
    filtered and sorted view. *)
Definition show_column_selection_dialog (a : Analysis)
  (columns : list string) (actions : list Action) (ignore_filters : bool)
  (table_len view_len : Z) : Shown :=
  if (Z.of_nat (List.length columns) <? min_column_count a)%Z then
    TooFewColumnsBox (min_column_count a)
  else
    match ShowModal (List.length columns) (min_column_count a)
            (max_column_count a) actions with
    | None => Cancelled
    | Some selected =>
        match pick columns selected with
        | inl e => Raised e
        | inr selected_columns =>
            let len_df := if ignore_filters then table_len else view_len in
            if (len_df <? min_data_count a)%Z then
              TooFewRowsBox (min_data_count a)
            else Called selected_columns (negb ignore_filters)
        end
    end.

End Dialog.

(* ------------------------------------------------------------------ *)
(** * The list control: [save_column_attr], [display_table] and
      [on_select_all]                                                   *)
(* ------------------------------------------------------------------ *)

Module Layout.

(** A Python dict with text keys, as far as [get] and item assignment
    go: the last assignment to a key is the one that is found. *)
Definition Dict (V : Type) : Type := list (string * V).

Fixpoint dict_get {V : Type} (d : Dict V) (k : string) : option V :=
  match d with
  | [] => None
  | (k', v) :: d' => if String.eqb k' k then Some v else dict_get d' k
  end.

Definition dict_set {V : Type} (d : Dict V) (k : string) (v : V)
  : Dict V :=
  (k, v) :: d.

(** What [column_attr] keeps for a table: the order of the columns
    ([None] when the list had no columns) and the width of every
    heading. *)
Record Attr : Type := mkAttr {
  col_order : option (list nat);
  col_widths : Dict Z
}.

(** The values of [column_attr]: the name under the key
    ["current_table"], and the attributes under the name of a table. *)
Inductive Value : Type :=
| VName (table_name : string)
| VAttr (a : Attr).

Definition current_table_key : string := "current_table".

(** The list control: its columns (heading and width), the order in
    which they are shown, and its items (selected or not, and the texts
    of the cells). *)
Record ListCtrl : Type := mkList {
  cols : list (string * Z);
  order : list nat;
  items : list (bool * list string)
}.

(** [ClearAll()]. *)
Definition ClearAll : ListCtrl := mkList [] [] [].

(** [InsertColumn(i, heading, width=width)] behind the last column:
    the new column is shown last. *)
Definition InsertColumn (heading : string) (width : Z) (lc : ListCtrl)
  : ListCtrl :=
  mkList (cols lc ++ [(heading, width)])
         (order lc ++ [List.length (cols lc)])
         (items lc).

(** [SetColumnsOrder(orders)]: one entry for every column. *)
Definition SetColumnsOrder (orders : list nat) (lc : ListCtrl)
  : Py.result ListCtrl :=
  if List.length orders =? List.length (cols lc)
  then inr (mkList (cols lc) orders (items lc))
  else inl (Py.OtherError "wxAssertionError").

(** The dict comprehension
    [{column: GetColumnWidth(i) for i, column in enumerate(...)}]. *)
Definition widths_by_heading (lc : ListCtrl) : Dict Z :=
  fold_left (fun d c => dict_set d (fst c) (snd c)) (cols lc) [].

(** [save_column_attr]: the new dict, and the exception if one is
    raised.  A dict found under ["current_table"] is truthy and cannot
    be a key. *)
Definition save_column_attr (table_name : string) (lc : ListCtrl)
  (column_attr : Dict Value) : Dict Value * option Py.Exc :=
  let previous_table := dict_get column_attr current_table_key in
  let column_attr :=
    dict_set column_attr current_table_key (VName table_name) in
  match previous_table with
  | None => (column_attr, None)
  | Some (VName previous) =>
      if Py.truthy (Some previous) then
        (dict_set column_attr previous
           (VAttr (mkAttr
                     (if List.length (cols lc) =? 0 then None
                      else Some (order lc))
                     (widths_by_heading lc))),
         None)
      else (column_attr, None)
  | Some (VAttr _) => (column_attr, Some Py.TypeError)
  end.

(** [self.column_attr.get(table_name, {})], as far as its two [get]
    calls go: a name found there has no [get]. *)
Definition attr_of (column_attr : Dict Value) (table_name : string)
  : Py.result Attr :=
  match dict_get column_attr table_name with
  | None => inr (mkAttr None [])
  | Some (VAttr a) => inr a
  | Some (VName _) => inl (Py.OtherError "AttributeError")
  end.

Section Display.

Context {Cell : Type}.

(** [str(cell)] and [GetTextExtent(heading)[0]]. *)
Variable str : Cell -> string.
Variable text_extent : string -> Z.

(** The first loop of [display_table]. *)
Fixpoint insert_columns (widths : Dict Z) (columns : list string)
  (lc : ListCtrl) : ListCtrl :=
  match columns with
  | [] => lc
  | column :: rest =>
      let width := match dict_get widths column with
                   | Some w => w
                   | None => (text_extent column + 40)%Z
                   end in
      insert_columns widths rest (InsertColumn column width lc)
  end.

(** The second loop: [InsertItem(i, str(row[0]))] and [SetItem] for the
    other cells; [row[0]] raises on a row without cells. *)
Fixpoint insert_items (rows : list (list Cell)) (lc : ListCtrl)
  : Py.result ListCtrl :=
  match rows with
  | [] => inr lc
  | [] :: _ => inl (Py.OtherError "IndexError")
  | (cell :: cells) :: rest =>
      insert_items rest
        (mkList (cols lc) (order lc)
                (items lc ++ [(false, str cell :: map str cells)]))
  end.

(** [display_table]. *)
Definition display_table (column_attr : Dict Value) (table_name : string)
  (rows : list (list Cell)) (columns : list string)
  : Py.result ListCtrl :=
  let lc := ClearAll in
  match (match columns with
         | [] => inr lc
         | _ :: _ =>
             match attr_of column_attr table_name with
             | inr a => inr (insert_columns (col_widths a) columns lc)
             | inl e => inl e
             end
         end) with
  | inl e => inl e
  | inr lc =>
      match insert_items rows lc with
      | inl e => inl e
      | inr lc =>
          match attr_of column_attr table_name with
          | inl e => inl e
          | inr a =>
              match col_order a with
              | Some (i :: column_order) =>
                  SetColumnsOrder (i :: column_order) lc
              | _ => inr lc
              end
          end
      end
  end.

End Display.

Section Sizes.

(** [GetTextExtent(text)[0]]. *)
Variable text_extent : string -> Z.

(** [max(...)] over a generator: [ValueError] when it yields
    nothing. *)
Definition py_max (l : list Z) : Py.result Z :=
  match l with
  | [] => inl Py.ValueError
  | x :: rest => inr (fold_left Z.max rest x)
  end.

(** [GetItemText(item, i)]. *)
Definition GetItemText (it : bool * list string) (i : nat) : string :=
  nth i (snd it) EmptyString.

(** The width that [on_auto_size_columns] gives column [i]. *)
Definition auto_width (lc : ListCtrl) (i : nat) (heading : string)
  : Py.result Z :=
  match py_max (map (fun it => (text_extent (GetItemText it i) + 40)%Z)
                    (items lc)) with
  | inr m => inr (Z.max (text_extent heading + 40) m)
  | inl e => inl e
  end.

(** The loop of [on_auto_size_columns] from column [i] on; the columns
    before it are done. *)
Fixpoint auto_size_from (lc : ListCtrl) (i : nat)
  (todo : list (string * Z)) : Py.result (list (string * Z)) :=
  match todo with
  | [] => inr []
  | (heading, _) :: rest =>
      match auto_width lc i heading with
      | inl e => inl e
      | inr w =>
          match auto_size_from lc (S i) rest with
          | inr sized => inr ((heading, w) :: sized)
          | inl e => inl e
          end
      end
  end.

(** [on_auto_size_columns]. *)
Definition on_auto_size_columns (lc : ListCtrl) : Py.result ListCtrl :=
  match auto_size_from lc 0 (cols lc) with
  | inr sized => inr (mkList sized (order lc) (items lc))
  | inl e => inl e
  end.

(** [on_reset_columns]. *)
Definition on_reset_columns (lc : ListCtrl) : Py.result ListCtrl :=
  if List.length (cols lc) =? 0 then inr lc
  else
    match SetColumnsOrder (seq 0 (List.length (cols lc))) lc with
    | inl e => inl e
    | inr lc' =>
        inr (mkList (map (fun c => (fst c, (text_extent (fst c) + 40)%Z))
                         (cols lc'))
                    (order lc') (items lc'))
    end.

End Sizes.

(** [on_select_all]. *)
Definition on_select_all (lc : ListCtrl) : ListCtrl :=
  mkList (cols lc) (order lc) (map (fun it => (true, snd it)) (items lc)).

(** The list control as [on_copy] reads it. *)
Definition copy_source (lc : ListCtrl) : Clipboard.ListCtrl :=
  Clipboard.mkListCtrl (List.length (cols lc)) (items lc).

End Layout.

(* ------------------------------------------------------------------ *)
(** * Sample sessions                                                   *)
(* ------------------------------------------------------------------ *)

Module Samples.

Import Examples.

(** The elements before the first [c], and those after it when [c]
    occurs. *)
Fixpoint span_until (c : ascii) (l : list ascii)
  : list ascii * option (list ascii) :=
  match l with
  | [] => ([], None)
  | d :: rest =>
      if Ascii.eqb d c then ([], Some rest)
      else (d :: fst (span_until c rest), snd (span_until c rest))
  end.

(** [os.path.splitext] as a POSIX system has it: the extension starts
    at the last dot of the last component of the path, provided a
    character other than a dot comes before that dot in the
    component. *)
Definition posix_splitext (p : string) : string * string :=
  let chars := list_ascii_of_string p in
  let component := fst (span_until "/" (rev chars)) in
  match span_until "." component with
  | (after_dot, Some before_dot) =>
      if existsb (fun c => negb (Ascii.eqb c ".")) before_dot then
        let ext := "."%char :: rev after_dot in
        (string_of_list_ascii
           (firstn (List.length chars - List.length ext) chars),
         string_of_list_ascii ext)
      else (p, EmptyString)
  | (_, None) => (p, EmptyString)
  end.

(** A table of twelve rows. *)
Definition ledger : Frame.DataFrame PyValue :=
  Frame.mkDF ["entry"; "kind"]%string
    (map (fun i => [PInt (Z.of_nat i);
                    PStr (if Nat.even i then "credit" else "debit")])
         (seq 1 12)).

(** A file with the table [ledger] and the table [people]. *)
Definition bank_libs : Connection.Libraries PyValue :=
  Connection.mkLibs
    (fun _ => inr [ Source.mkMaster "table" "ledger";
                    Source.mkMaster "index" "sqlite_autoindex_ledger_1";
                    Source.mkMaster "table" "people" ])
    (fun _ table_name =>
       if String.eqb table_name "ledger" then inr ledger
       else if String.eqb table_name "people" then inr people
       else inl (Py.OtherError "no such table"))
    (fun _ => inl Py.OSError)
    (fun _ _ => inl Py.OSError)
    (fun _ _ => inl Py.OSError).

Definition bank_step : App.Event -> App.Window -> App.Window :=
  App.step bank_libs numpy_argsort posix_splitext.

Definition bank_session : list App.Event -> App.Window :=
  App.session bank_libs numpy_argsort posix_splitext.

(** The file is opened and the page size is set to 5: the ledger has
    three pages, of which the first is shown. *)
Definition opened : list App.Event :=
  [App.Open "/home/ann/Bank.DB"; App.SetItemsPerPage 0].

Definition first_page : Paging.Page :=
  Paging.mkPage
    (map (fun i => [PInt (Z.of_nat i);
                    PStr (if Nat.even i then "credit" else "debit")])
         (seq 1 5))
    ["entry"; "kind"]%string 12 3 None true.

(** Then the user goes one page back, which wraps to the last page, and
    sorts by the second column. *)
Definition browsed : list App.Event :=
  opened ++ [App.PageChange true; App.ColumnClick 1].

(** A list control with four items, of which the second and the fourth
    are selected. *)
Definition four_items : Clipboard.ListCtrl :=
  Clipboard.mkListCtrl 2
    [ (false, ["1"; "Alice"]%string);
      (true, ["2"; "bob"]%string);
      (false, ["3"; "ALICIA"]%string);
      (true, ["4"; "Carol"]%string) ].

(** The ledger sorted by its second column, as the sample sort
    procedure orders it, and the request for its first page of five. *)
Definition ledger_by_kind : Frame.DataFrame PyValue :=
  Eval vm_compute in
    match Frame.filtered_sorted_df numpy_argsort ledger
            (Some "kind"%string) true None with
    | inr view => view
    | inl _ => Frame.empty_frame
    end.

Definition sorted_request : Viewer.LoadRequest :=
  Viewer.mkLoad "ledger" 1 5 (Some "kind"%string) true None false.

Definition sorted_page : Paging.Page :=
  Paging.mkPage
    (map (fun i => [PInt (Z.of_nat i); PStr "credit"]) [2; 4; 6; 8; 10])
    ["entry"; "kind"]%string 12 3 (Some (1, true)) false.

(** After opening, the user searches for the credits. *)
Definition searched : list App.Event :=
  opened ++ [App.Search "CREDIT"].

Definition searched_page : Paging.Page :=
  Paging.mkPage
    (map (fun i => [PInt (Z.of_nat i); PStr "credit"]) [2; 4; 6; 8; 10])
    ["entry"; "kind"]%string 6 2 None true.

(** The connection that opening the file makes. *)
Definition bank_db : Connection.DataframeConnection :=
  Connection.mkConn 0 "/home/ann/Bank.DB" ".db".

(** The user marks one column, confirms, is told to mark two, marks
    the first and the third, and confirms. *)
Definition two_attempts : list Dialog.Action :=
  [ Dialog.PressOk [true; false; false];
    Dialog.PressOk [true; false; true] ].

(** The list showing the table [people], its columns resized and
    reordered by the user, and the list showing [orders]. *)
Definition people_list : Layout.ListCtrl :=
  Layout.mkList [("id", 60); ("name", 140); ("city", 95)]%string%Z
    [2; 0; 1]
    (map (fun row => (false, map value_str row)) (Frame.rows people)).

Definition orders_list : Layout.ListCtrl :=
  Layout.mkList [("id", 54); ("item", 68)]%string%Z [0; 1]
    (map (fun row => (false, map value_str row)) (Frame.rows orders)).

(** [column_attr] after the table [people] was loaded first. *)
Definition people_attr : Layout.Dict Layout.Value :=
  [("current_table"%string, Layout.VName "people")].

(** A width for every heading: seven units a character. *)
Definition sample_extent (heading : string) : Z :=
  (7 * Z.of_nat (String.length heading))%Z.

End Samples.

(* ================================================================== *)
(** * Part II: properties                                               *)
(* ================================================================== *)

(* ------------------------------------------------------------------ *)
(** ** Event handlers of the viewer                                     *)
(* ------------------------------------------------------------------ *)

Lemma opt_str_eqb_spec (a b : option string) :
  reflect (a = b) (Py.opt_str_eqb a b).
Proof.
  destruct a as [x|], b as [y|]; simpl; try (constructor; congruence).
  destruct (String.eqb_spec x y); constructor; congruence.
Qed.

Lemma opt_str_eqb_refl (a : option string) : Py.opt_str_eqb a a = true.
Proof. destruct (opt_str_eqb_spec a a); congruence. Qed.

(** Whatever the page, [on_page_change] leaves it between 1 and
    [total_pages] once there is more than one page. *)
Lemma on_page_change_in_range (backward : bool) (st : Viewer.State) :
  Viewer.db_loaded st = true ->
  (1 < Viewer.total_pages st)%Z ->
  (1 <= Viewer.current_page (fst (Viewer.on_page_change backward st))
     <= Viewer.total_pages st)%Z.
Proof.
  intros Hdb Hn. unfold Viewer.on_page_change. rewrite Hdb.
  destruct (Z.ltb_spec 1 (Viewer.total_pages st)) as [_|]; [|lia].
  cbn.
  set (base := if backward then _ else _).
  pose proof (Z.mod_pos_bound base (Viewer.total_pages st)). lia.
Qed.

(** With a single page the handler does nothing: no page change, no
    reload. *)
Lemma on_page_change_single_page (backward : bool) (st : Viewer.State) :
  (Viewer.total_pages st <= 1)%Z ->
  Viewer.on_page_change backward st = (st, None).
Proof.
  intros Hn. unfold Viewer.on_page_change.
  destruct (Z.ltb_spec 1 (Viewer.total_pages st)); [lia|].
  now rewrite andb_false_r.
Qed.

Lemma pred_first_page_wraps (n : Z) :
  (1 <= n)%Z -> ((1 - 2) mod n + 1)%Z = n.
Proof.
  intros Hn. destruct (Z.eq_dec n 1) as [->|Hne]; [reflexivity|].
  replace (1 - 2)%Z with ((n - 1) + (-1) * n)%Z by lia.
  rewrite Z.mod_add by lia. rewrite Z.mod_small by lia. lia.
Qed.

(** C6.  Page navigation wraps.  With a table loaded and the current page
    [p] among the pages [1 .. total_pages], the next-page event sets the
    page to [(p mod total_pages) + 1] and the previous-page event to
    [((p - 2) mod total_pages) + 1]; so the page after the last is 1 and
    the page before the first is [total_pages]. *)
Theorem page_navigation_wraps (st : Viewer.State) :
  Viewer.db_loaded st = true ->
  (1 <= Viewer.current_page st <= Viewer.total_pages st)%Z ->
  let p := Viewer.current_page st in
  let n := Viewer.total_pages st in
  let forward := Viewer.current_page (fst (Viewer.on_page_change false st)) in
  let back := Viewer.current_page (fst (Viewer.on_page_change true st)) in
  forward = (p mod n + 1)%Z /\
  back = ((p - 2) mod n + 1)%Z /\
  (p = n -> forward = 1%Z) /\
  (p = 1%Z -> back = n).
Proof.
  intros Hdb Hp. cbv zeta.
  unfold Viewer.on_page_change. rewrite Hdb.
  set (p := Viewer.current_page st) in *.
  set (n := Viewer.total_pages st) in *.
  pose proof (pred_first_page_wraps n) as Hback.
  destruct (Z.ltb_spec 1 n) as [Hn|Hn]; cbn; fold p.
  - repeat split.
    + intros ->. rewrite Z.mod_same by lia. reflexivity.
    + intros ->. apply Hback. lia.
  - assert (n = 1%Z) by lia. assert (p = 1%Z) by lia. subst n.
    replace (Viewer.total_pages st) with 1%Z in * by lia.
    rewrite !Z.mod_1_r. repeat split; lia.
Qed.

(** C10.  A header click cycles the sort state: a column that is not the
    sort column becomes the sort column, ascending; the sort column goes
    from ascending to descending, and from descending to no sort column;
    the page is 1 after every click, and the reload asks for the new
    state.  Three clicks on one header lead back to no sort column. *)
Theorem column_click_cycles (column : string) (st : Viewer.State) :
  let st' := fst (Viewer.on_column_click column st) in
  Viewer.current_page st' = 1%Z /\
  snd (Viewer.on_column_click column st) = Viewer.load_current false st' /\
  (Viewer.sort_column st <> Some column ->
     Viewer.sort_column st' = Some column /\ Viewer.sort_order st' = true) /\
  (Viewer.sort_column st = Some column -> Viewer.sort_order st = true ->
     Viewer.sort_column st' = Some column /\ Viewer.sort_order st' = false) /\
  (Viewer.sort_column st = Some column -> Viewer.sort_order st = false ->
     Viewer.sort_column st' = None /\ Viewer.sort_order st' = false) /\
  (Viewer.sort_column st <> Some column ->
     let st3 := fst (Viewer.on_column_click column
                  (fst (Viewer.on_column_click column st'))) in
     Viewer.sort_column st3 = None /\ Viewer.current_page st3 = 1%Z).
Proof.
  cbv zeta. unfold Viewer.on_column_click.
  destruct (opt_str_eqb_spec (Viewer.sort_column st) (Some column))
    as [Heq|Hne]; [destruct (Viewer.sort_order st) eqn:Ho|];
    cbn; repeat apply conj; intros;
    try contradiction; try congruence; try reflexivity;
    cbn; rewrite ?String.eqb_refl; cbn; rewrite ?String.eqb_refl; cbn;
    auto.
Qed.

Lemma page_navigation_wraps_witness :
  Viewer.current_page
    (fst (Viewer.on_page_change false Examples.on_last_page)) = 1%Z /\
  Viewer.current_page
    (fst (Viewer.on_page_change true Examples.on_first_page)) = 3%Z.
Proof.
  split.
  - apply (page_navigation_wraps Examples.on_last_page);
      [reflexivity | cbn; lia | reflexivity].
  - apply (page_navigation_wraps Examples.on_first_page);
      [reflexivity | cbn; lia | reflexivity].
Defined.

Example column_click_three_steps :
  let click st := fst (Viewer.on_column_click "name" st) in
  let s1 := click Examples.on_last_page in
  let s2 := click s1 in
  let s3 := click s2 in
  (Viewer.sort_column s1, Viewer.sort_order s1, Viewer.current_page s1)
    = (Some "name"%string, true, 1%Z) /\
  (Viewer.sort_column s2, Viewer.sort_order s2) = (Some "name"%string, false) /\
  (Viewer.sort_column s3, Viewer.sort_order s3) = (None, false).
Proof. repeat split. Qed.
(* ------------------------------------------------------------------ *)
(** ** Prefixes and substrings                                          *)
(* ------------------------------------------------------------------ *)

Section Strings.

Local Open Scope string_scope.

Lemma append_assoc (a b c : string) : (a ++ b) ++ c = a ++ (b ++ c).
Proof. induction a as [|x a IH]; cbn; [reflexivity|now rewrite IH]. Qed.

Lemma prefix_iff_append (p s : string) :
  String.prefix p s = true <-> exists post, s = p ++ post.
Proof.
  revert s. induction p as [|a p IH]; intros s.
  - destruct s; cbn; split; eauto.
  - destruct s as [|b s]; cbn.
    + split; [discriminate|]. intros [post H]. discriminate H.
    + destruct (ascii_dec a b) as [->|Hne].
      * rewrite IH. split; intros [post H]; exists post.
        -- now rewrite H.
        -- now injection H.
      * split; [discriminate|]. intros [post H]. injection H as H1 _.
        now symmetry in H1.
Qed.

(** [pat in s] holds exactly when [s] can be cut around [pat]. *)
Lemma str_in_iff_append (p s : string) :
  Py.str_in p s = true <-> exists pre post, s = pre ++ p ++ post.
Proof.
  induction s as [|b s IH]; cbn [Py.str_in].
  - rewrite orb_false_r. split.
    + intros H. apply prefix_iff_append in H as [post H]. now exists "", post.
    + intros [pre [post H]].
      destruct pre; [|discriminate H]. cbn in H.
      apply prefix_iff_append. now exists post.
  - rewrite orb_true_iff, IH. split.
    + intros [H|[pre [post H]]].
      * apply prefix_iff_append in H as [post H]. now exists "", post.
      * exists (String b pre), post. cbn. now rewrite H.
    + intros [pre [post H]]. destruct pre as [|c pre]; cbn in H.
      * left. apply prefix_iff_append. now exists post.
      * right. injection H as _ H. now exists pre, post.
Qed.

End Strings.

(* ------------------------------------------------------------------ *)
(** ** Source adapters                                                  *)
(* ------------------------------------------------------------------ *)

Lemma select_table_names_In (master : list Source.MasterRow) (n : string) :
  In n (Source.select_table_names master) <->
  In (Source.mkMaster "table" n) master.
Proof.
  unfold Source.select_table_names. rewrite in_map_iff. split.
  - intros [[t m] [Hm Hin]]. apply filter_In in Hin as [Hin Ht].
    cbn in *. apply String.eqb_eq in Ht. now subst.
  - intros Hin. exists (Source.mkMaster "table" n). split; [reflexivity|].
    apply filter_In. split; [assumption|reflexivity].
Qed.

Lemma count_occ_filter_true {A : Type} (dec : forall x y : A, {x = y} + {x <> y})
  (f : A -> bool) (l : list A) (x : A) :
  f x = true -> count_occ dec (filter f l) x = count_occ dec l x.
Proof.
  intros Hx. induction l as [|y l IH]; cbn; [reflexivity|].
  destruct (dec y x) as [->|Hne].
  - rewrite Hx. cbn. destruct (dec x x); [|contradiction]. now rewrite IH.
  - destruct (f y); cbn; [destruct (dec y x); [contradiction|]|]; exact IH.
Qed.

(** [name.startswith(p)] says that [name] carries the prefix [p]. *)
Lemma startswith_carries (name p : string) :
  Source.startswith name p = true <-> Spec.carries_prefix p name.
Proof. apply prefix_iff_append. Qed.

Lemma startswith_not_carries (name p : string) :
  Source.startswith name p = false <-> ~ Spec.carries_prefix p name.
Proof.
  rewrite <- startswith_carries.
  destruct (Source.startswith name p); split; congruence.
Qed.

(** A name under the prefix of the automatic indexes is under the
    reserved prefix. *)
Lemma automatic_index_prefix_reserved (name : string) :
  Spec.carries_prefix Spec.automatic_index_prefix name ->
  Spec.carries_prefix Spec.reserved_prefix name.
Proof.
  intros [rest ->]. exists ("autoindex_" ++ rest)%string. reflexivity.
Qed.

Lemma filter_taken_in_order {A : Type} (f : A -> bool) (l : list A) :
  Spec.taken_in_order (filter f l) l.
Proof.
  induction l as [|x l IH]; cbn; [constructor|].
  destruct (f x); [now apply Spec.tio_keep|now apply Spec.tio_skip].
Qed.

Lemma taken_in_order_trans {A : Type} (a b c : list A) :
  Spec.taken_in_order a b -> Spec.taken_in_order b c ->
  Spec.taken_in_order a c.
Proof.
  intros Hab Hbc. revert a Hab.
  induction Hbc as [|x b c Hbc IH|x b c Hbc IH]; intros a Hab.
  - exact Hab.
  - constructor. now apply IH.
  - inversion Hab as [|y a' b' Hab'|y a' b' Hab']; subst.
    + apply Spec.tio_skip. now apply IH.
    + apply Spec.tio_keep. now apply IH.
Qed.

Lemma map_taken_in_order {A B : Type} (g : A -> B) (a b : list A) :
  Spec.taken_in_order a b -> Spec.taken_in_order (map g a) (map g b).
Proof.
  induction 1; cbn;
    [constructor|now apply Spec.tio_skip|now apply Spec.tio_keep].
Qed.

Lemma count_occ_table_names (master : list Source.MasterRow) (n : string) :
  count_occ string_dec (Source.select_table_names master) n
  = List.length
      (filter (fun r => String.eqb (Source.m_type r) "table"
                        && String.eqb (Source.m_name r) n) master).
Proof.
  unfold Source.select_table_names.
  induction master as [|[t m] master IH]; [reflexivity|].
  cbn [filter Source.m_type Source.m_name].
  destruct (String.eqb t "table"); cbn [andb map]; [|exact IH].
  cbn [count_occ Source.m_name].
  destruct (string_dec m n) as [->|Hne].
  - rewrite String.eqb_refl. cbn [List.length]. now rewrite IH.
  - apply String.eqb_neq in Hne. now rewrite Hne.
Qed.

(** C8.  For a relational file (extension db, db3, sqlite or sqlite3)
    whose catalogue can be read, [get_table_or_sheet_names] returns the
    names that the catalogue lists with type [table], in catalogue
    order, without those that begin with [sqlite_autoindex_]: a name is
    returned exactly when the catalogue lists it as a table and it does
    not begin with these letters, as often as the catalogue lists it;
    so no table of the user (whose name cannot begin with [sqlite_]) is
    left out.  Other names under the reserved prefix [sqlite_] are
    returned like any table. *)
Theorem sqlite_table_names_exclude_autoindex {Cell : Type}
  (libs : Connection.Libraries Cell) (self : Connection.DataframeConnection)
  (master : list Source.MasterRow) :
  Connection.is_sqlite (Connection.file_type self) = true ->
  Connection.read_master libs (Connection.db_file self) = inr master ->
  exists names,
    Connection.get_table_or_sheet_names libs self = inr names
    /\ (forall n, In n names <->
          In (Source.mkMaster "table" n) master
          /\ ~ Spec.carries_prefix "sqlite_autoindex_" n)
    /\ (forall n, ~ Spec.carries_prefix "sqlite_autoindex_" n ->
          count_occ string_dec names n
          = List.length
              (filter (fun r => String.eqb (Source.m_type r) "table"
                                && String.eqb (Source.m_name r) n) master))
    /\ Spec.taken_in_order names (map Source.m_name master)
    /\ (forall n, In (Source.mkMaster "table" n) master ->
          ~ Spec.carries_prefix "sqlite_" n -> In n names).
Proof.
  intros Hext Hmaster. exists (Source._get_sqlite_table_names master).
  unfold Connection.get_table_or_sheet_names. rewrite Hext, Hmaster.
  unfold Source._get_sqlite_table_names.
  assert (Hin : forall n,
             In n (filter
                     (fun name =>
                        negb (Source.startswith name Source.autoindex_prefix))
                     (Source.select_table_names master)) <->
             In (Source.mkMaster "table" n) master
             /\ ~ Spec.carries_prefix "sqlite_autoindex_" n).
  { intros n. rewrite filter_In, select_table_names_In, negb_true_iff.
    now rewrite startswith_not_carries. }
  split; [reflexivity|]. split; [exact Hin|]. split; [|split].
  - intros n Hn. rewrite <- count_occ_table_names.
    apply count_occ_filter_true. apply negb_true_iff.
    now apply startswith_not_carries.
  - eapply taken_in_order_trans; [apply filter_taken_in_order|].
    unfold Source.select_table_names.
    apply map_taken_in_order, filter_taken_in_order.
  - intros n Hn Hres. apply Hin. split; [exact Hn|].
    intros Hidx. apply Hres.
    now apply (automatic_index_prefix_reserved n).
Qed.

Lemma sqlite_table_names_witness :
  exists names,
    Connection.get_table_or_sheet_names Examples.shop_libs Examples.shop_db
    = inr names
    /\ (forall n, In n names <->
          In (Source.mkMaster "table" n) Examples.sample_master
          /\ ~ Spec.carries_prefix "sqlite_autoindex_" n)
    /\ (forall n, ~ Spec.carries_prefix "sqlite_autoindex_" n ->
          count_occ string_dec names n
          = List.length
              (filter (fun r => String.eqb (Source.m_type r) "table"
                                && String.eqb (Source.m_name r) n)
                      Examples.sample_master))
    /\ Spec.taken_in_order names (map Source.m_name Examples.sample_master)
    /\ (forall n, In (Source.mkMaster "table" n) Examples.sample_master ->
          ~ Spec.carries_prefix "sqlite_" n -> In n names).
Proof.
  apply (sqlite_table_names_exclude_autoindex Examples.shop_libs
           Examples.shop_db Examples.sample_master);
    reflexivity.
Defined.

Example sqlite_table_names_sample :
  Source._get_sqlite_table_names Examples.sample_master
  = ["people"; "sqlite_sequence"; "orders"]%string.
Proof. reflexivity. Qed.

(** Against C8 as worded: the reserved prefix of SQLite is [sqlite_],
    and a name that carries it is returned.  A file whose table
    [people] has an AUTOINCREMENT key has the table [sqlite_sequence]
    in its catalogue; it is listed among the tables of the user. *)
Theorem reserved_table_name_is_listed :
  Spec.carries_prefix Spec.reserved_prefix "sqlite_sequence"
  /\ Source.select_table_names Examples.diary_master
     = ["people"; "sqlite_sequence"; "notes"]%string
  /\ Source._get_sqlite_table_names Examples.diary_master
     = ["people"; "sqlite_sequence"; "notes"]%string
  /\ Connection.get_table_or_sheet_names
       (Connection.mkLibs (fun _ => inr Examples.diary_master)
          (Connection.read_sql_query Examples.shop_libs)
          (Connection.excel_sheet_names Examples.shop_libs)
          (Connection.read_excel Examples.shop_libs)
          (Connection.read_csv Examples.shop_libs))
       (Connection.mkConn 1 "diary.sqlite3" ".sqlite3")
     = inr ["people"; "sqlite_sequence"; "notes"]%string.
Proof.
  split; [exists "sequence"%string; reflexivity|].
  repeat split.
Qed.

(** C5.  [_get_csv_dataframe] reads with the comma and
    [on_bad_lines='error'] first.  When that read returns, its frame is
    the result and nothing else is read.  When it raises
    [EmptyDataError] (an empty file), the result is the empty frame,
    which has no rows, and nothing else is read.  When it raises
    [ParserError] (the structural parse failure), or another
    [ValueError] such as [UnicodeDecodeError], or a [TypeError], the
    file is read once more, with the semicolon and
    [on_bad_lines='warn'], and that read decides the result.  Any other
    exception passes through without a second read.  So the second read
    follows every structural parse failure of the first, and not only
    those. *)
Theorem csv_semicolon_fallback {Cell : Type}
  (read_csv : Source.CsvCall -> Py.result (Frame.DataFrame Cell)) :
  let result := fst (Source._get_csv_dataframe read_csv) in
  let calls := snd (Source._get_csv_dataframe read_csv) in
  let comma := Source.mkCsv "," Source.bad_lines_error in
  let semicolon := Source.mkCsv ";" Source.bad_lines_warn in
  hd_error calls = Some comma
  /\ (forall df, read_csv comma = inr df ->
        result = inr df /\ calls = [comma])
  /\ (read_csv comma = inl Py.EmptyDataError ->
        result = inr (Frame.mkDF [] []) /\ calls = [comma])
  /\ (forall e, read_csv comma = inl e ->
        Spec.structural_parse_failure e = true ->
        result = read_csv semicolon /\ calls = [comma; semicolon])
  /\ (forall e, read_csv comma = inl e ->
        In e [Py.ParserError; Py.UnicodeDecodeError; Py.ValueError;
              Py.TypeError] ->
        result = read_csv semicolon /\ calls = [comma; semicolon])
  /\ (forall e, read_csv comma = inl e ->
        (e = Py.KeyError \/ e = Py.OSError
         \/ exists msg, e = Py.OtherError msg) ->
        result = inl e /\ calls = [comma])
  /\ (In semicolon calls <->
      exists e, read_csv comma = inl e
                /\ In e [Py.ParserError; Py.UnicodeDecodeError;
                         Py.ValueError; Py.TypeError]).
Proof.
  cbv zeta. unfold Source._get_csv_dataframe.
  change Source.comma_strict with (Source.mkCsv "," Source.bad_lines_error).
  change Source.semicolon_lenient
    with (Source.mkCsv ";" Source.bad_lines_warn).
  destruct (read_csv (Source.mkCsv "," Source.bad_lines_error))
    as [e|df] eqn:Hfirst.
  - split; [destruct e; reflexivity|].
    split; [intros df H; discriminate H|].
    split; [intros H; injection H as ->; split; reflexivity|].
    split.
    { intros e' H Hs. injection H as <-.
      destruct e; try discriminate Hs. split; reflexivity. }
    split.
    { intros e' H Hin. injection H as <-. cbn in Hin.
      destruct Hin as [<-|[<-|[<-|[<-|[]]]]]; split; reflexivity. }
    split.
    { intros e' H Hother. injection H as <-.
      destruct Hother as [->|[->|[msg ->]]]; split; reflexivity. }
    split.
    + intros Hin. exists e. split; [reflexivity|].
      destruct e; cbn in Hin |- *;
        try (destruct Hin as [H|[]]; discriminate H);
        auto.
    + intros (e' & H & Hin). injection H as <-. cbn in Hin.
      destruct Hin as [<-|[<-|[<-|[<-|[]]]]]; cbn; auto.
  - split; [reflexivity|].
    split; [intros df' H; injection H as <-; split; reflexivity|].
    split; [intros H; discriminate H|].
    split; [intros e H; discriminate H|].
    split; [intros e H; discriminate H|].
    split; [intros e H; discriminate H|].
    split.
    + cbn. intros [H|[]]. discriminate H.
    + intros (e & H & _). discriminate H.
Qed.

(** Against C5 as worded: the second read is not tied to a structural
    parse failure.  For a file that is not UTF-8 text the first read
    raises [UnicodeDecodeError] before any line is split; the program
    reads the file again with the semicolon, and the error of that
    second read is the result. *)
Theorem retry_without_structural_failure :
  let read_csv : Source.CsvCall -> Py.result (Frame.DataFrame Examples.PyValue)
    := fun _ => inl Py.UnicodeDecodeError in
  Spec.structural_parse_failure Py.UnicodeDecodeError = false
  /\ Source._get_csv_dataframe read_csv
     = (inl Py.UnicodeDecodeError,
        [Source.mkCsv "," Source.bad_lines_error;
         Source.mkCsv ";" Source.bad_lines_warn]).
Proof. split; reflexivity. Qed.

(** A file with no content at all: no second read, and a frame without
    rows. *)
Example empty_file_gives_empty_frame :
  let read_csv : Source.CsvCall -> Py.result (Frame.DataFrame Examples.PyValue)
    := fun _ => inl Py.EmptyDataError in
  Source._get_csv_dataframe read_csv
  = (inr (Frame.mkDF [] []), [Source.mkCsv "," Source.bad_lines_error])
  /\ Frame.len (@Frame.empty_frame Examples.PyValue) = 0.
Proof. split; reflexivity. Qed.

(* ------------------------------------------------------------------ *)
(** ** The search filter                                                *)
(* ------------------------------------------------------------------ *)

(** *** [str.upper] against the table of letters *)

Lemma upper_agrees_with_table_all (c : ascii) :
  Spec.upper_agrees_with_table c = true.
Proof. destruct c as [[] [] [] [] [] [] [] []]; vm_compute; reflexivity. Qed.

Lemma ascii_upper_cases (c : ascii) :
  In (c, Py.ascii_upper c) Spec.letter_pairs \/
  (Py.ascii_upper c = c /\ forall u, ~ In (c, u) Spec.letter_pairs).
Proof.
  pose proof (upper_agrees_with_table_all c) as H.
  unfold Spec.upper_agrees_with_table in H.
  destruct (Spec.is_lower_letter c) eqn:Hl.
  - left. apply existsb_exists in H as [[l u] [Hin Heq]]. cbn in Heq.
    apply andb_true_iff in Heq as [H1 H2].
    apply Ascii.eqb_eq in H1, H2. now subst.
  - right. split; [now apply Ascii.eqb_eq|].
    intros u Hin.
    assert (Spec.is_lower_letter c = true); [|congruence].
    apply existsb_exists. exists (c, u). split; [assumption|].
    apply Ascii.eqb_refl.
Qed.

Lemma letter_pair_upper (l u : ascii) :
  In (l, u) Spec.letter_pairs ->
  Py.ascii_upper l = u /\ Py.ascii_upper u = u
  /\ l = ascii_of_nat (nat_of_ascii u + 32).
Proof.
  intros H. unfold Spec.letter_pairs in H. cbn in H.
  repeat (destruct H as [H|H];
          [injection H as <- <-; repeat split; reflexivity|]).
  contradiction.
Qed.

Lemma same_letter_iff_upper (a b : ascii) :
  Spec.same_letter a b <-> Py.ascii_upper a = Py.ascii_upper b.
Proof.
  split.
  - intros [->|[H|H]]; [reflexivity| |];
      apply letter_pair_upper in H as (H1 & H2 & _); congruence.
  - intros H.
    destruct (ascii_upper_cases a) as [Ha|[Ha Na]],
             (ascii_upper_cases b) as [Hb|[Hb Nb]].
    + left. rewrite H in Ha.
      apply letter_pair_upper in Ha as (_ & _ & Ea).
      apply letter_pair_upper in Hb as (_ & _ & Eb). congruence.
    + right; left. rewrite H, Hb in Ha. exact Ha.
    + right; right. rewrite <- H, Ha in Hb. exact Hb.
    + left. congruence.
Qed.

Section UpperAscii.

Local Open Scope string_scope.

Lemma upper_ascii_append (a b : string) :
  Py.upper_ascii (a ++ b) = Py.upper_ascii a ++ Py.upper_ascii b.
Proof. induction a as [|x a IH]; cbn; [reflexivity|now rewrite IH]. Qed.

Lemma upper_ascii_split (s x y : string) :
  Py.upper_ascii s = x ++ y ->
  exists a b, s = a ++ b /\ Py.upper_ascii a = x /\ Py.upper_ascii b = y.
Proof.
  revert s. induction x as [|c x IH]; intros s H.
  - exists "", s. auto.
  - destruct s as [|d s]; [discriminate H|]. cbn in H.
    injection H as Hc H. apply IH in H as (a & b & -> & Ha & Hb).
    exists (String d a), b. cbn. now rewrite Hc, Ha, Hb.
Qed.

Lemma eq_ignoring_case_iff_upper (s t : string) :
  Spec.eq_ignoring_case s t <-> Py.upper_ascii s = Py.upper_ascii t.
Proof.
  split.
  - induction 1 as [|a b s t Hab _ IH]; cbn; [reflexivity|].
    apply same_letter_iff_upper in Hab. now rewrite Hab, IH.
  - revert t. induction s as [|a s IH]; intros [|b t] H; cbn in H;
      try discriminate H; [constructor|].
    injection H as Hab H. constructor; [|now apply IH].
    now apply same_letter_iff_upper.
Qed.

(** On ASCII text every byte is a character, and [upper] maps the
    bytes one by one, whatever the database says of other
    characters. *)
Lemma chars_ascii (c : ascii) (s : string) :
  Py.is_ascii c = true ->
  Py.chars (String c s) = String c "" :: Py.chars s.
Proof.
  intros Hc. cbn [Py.chars]. rewrite Hc. cbn [negb andb].
  destruct (Py.chars s); reflexivity.
Qed.

Lemma upper_on_ascii (u : string -> string) (s : string) :
  Py.is_ascii_text s = true -> Py.upper u s = Py.upper_ascii s.
Proof.
  unfold Py.is_ascii_text, Py.upper.
  induction s as [|c s IH]; [reflexivity|].
  cbn [list_ascii_of_string forallb]. intros H.
  apply andb_true_iff in H as [Hc Hs].
  rewrite (chars_ascii c s Hc). cbn [map fold_right Py.upper_one].
  rewrite Hc, (IH Hs). reflexivity.
Qed.

(** *** Text with characters outside ASCII *)

Lemma same_letter_bytes (a b : ascii) :
  Spec.same_letter a b ->
  Py.is_ascii a = Py.is_ascii b
  /\ Py.is_continuation a = Py.is_continuation b
  /\ (Py.is_ascii a = false -> a = b).
Proof.
  intros [->|[H|H]]; [auto| |];
    unfold Spec.letter_pairs in H; cbn in H;
    repeat (destruct H as [H|H];
            [injection H as <- <-; repeat split; discriminate|]);
    contradiction.
Qed.

Lemma chars_head (s : string) (ch : string) (rest : list string) :
  Py.chars s = ch :: rest ->
  exists c s' ch0, s = String c s' /\ ch = String c ch0.
Proof.
  destruct s as [|c s']; [discriminate|]. cbn [Py.chars].
  destruct (Py.chars s') as [|ch1 rest1].
  - intros [= <- <-]. now exists c, s', "".
  - destruct (negb (Py.is_ascii c) && Py.continues s').
    + intros [= <- <-]. now exists c, s', ch1.
    + intros [= <- <-]. now exists c, s', "".
Qed.

Lemma chars_nonempty (c : ascii) (s : string) : Py.chars (String c s) <> [].
Proof.
  cbn [Py.chars]. destruct (Py.chars s); [discriminate|].
  destruct (negb (Py.is_ascii c) && Py.continues s); discriminate.
Qed.

(** A cut in front of a character cuts the list of characters. *)
Lemma chars_append (a b : string) :
  Py.continues b = false ->
  Py.chars (a ++ b) = (Py.chars a ++ Py.chars b)%list.
Proof.
  intros Hb. induction a as [|c a IH]; [reflexivity|].
  cbn [append Py.chars]. rewrite IH.
  destruct a as [|d a].
  - cbn [append Py.chars app]. rewrite Hb, andb_false_r.
    destruct (Py.chars b); reflexivity.
  - assert (Hc : Py.continues (String d a ++ b) = Py.continues (String d a))
      by reflexivity.
    rewrite Hc.
    destruct (Py.chars (String d a)) as [|ch rest] eqn:E;
      [now apply chars_nonempty in E|].
    cbn [app].
    destruct (negb (Py.is_ascii c) && Py.continues (String d a));
      reflexivity.
Qed.

Lemma fold_append_app (l1 l2 : list string) :
  fold_right append "" (l1 ++ l2)%list
  = fold_right append "" l1 ++ fold_right append "" l2.
Proof.
  induction l1 as [|x l1 IH]; cbn; [reflexivity|].
  now rewrite IH, append_assoc.
Qed.

Lemma upper_append (u : string -> string) (a b : string) :
  Py.continues b = false ->
  Py.upper u (a ++ b) = Py.upper u a ++ Py.upper u b.
Proof.
  intros Hb. unfold Py.upper.
  now rewrite (chars_append a b Hb), map_app, fold_append_app.
Qed.

Lemma char_alike_upper (u : string -> string) (ch ch' : string) :
  Spec.char_alike ch ch' -> Py.upper_one u ch = Py.upper_one u ch'.
Proof.
  intros [->|(a & b & -> & -> & Hab)]; [reflexivity|].
  destruct (same_letter_bytes a b Hab) as (Hasc & _ & Heq).
  cbn [Py.upper_one]. rewrite <- Hasc.
  destruct (Py.is_ascii a) eqn:Ha.
  - apply same_letter_iff_upper in Hab. now rewrite Hab.
  - now rewrite (Heq eq_refl).
Qed.

Lemma eq_ignoring_case_chars (s t : string) :
  Spec.eq_ignoring_case s t ->
  Py.continues s = Py.continues t
  /\ Forall2 Spec.char_alike (Py.chars s) (Py.chars t).
Proof.
  induction 1 as [|a b s t Hab Hst [Hcont IH]].
  - split; [reflexivity|constructor].
  - destruct (same_letter_bytes a b Hab) as (Hasc & Hcon & Heq).
    split; [exact Hcon|].
    cbn [Py.chars]. rewrite <- Hasc, <- Hcont.
    destruct (Py.chars s) as [|ch rest] eqn:Es;
      destruct (Py.chars t) as [|ch' rest'] eqn:Et;
      inversion IH as [|? ? ? ? Hch Hrest]; subst.
    + constructor; [|constructor].
      right. now exists a, b.
    + destruct (negb (Py.is_ascii a) && Py.continues s) eqn:Hc.
      * apply andb_true_iff in Hc as [Ha Hs].
        apply negb_true_iff in Ha. rewrite <- (Heq Ha).
        constructor; [|exact Hrest]. left. f_equal.
        destruct Hch as [->|(x & y & -> & -> & Hxy)]; [reflexivity|].
        (* a single byte that continues a character is no letter *)
        destruct (same_letter_bytes x y Hxy) as (_ & _ & Hxeq).
        f_equal. apply Hxeq.
        destruct (chars_head s _ _ Es) as (c1 & s1 & ch0 & -> & Hhead).
        injection Hhead as <- _.
        cbn [Py.continues] in Hs.
        unfold Py.is_continuation, Py.is_ascii in *.
        apply andb_true_iff in Hs as [Hs _].
        apply Nat.leb_le in Hs. apply Nat.ltb_ge. lia.
      * constructor; [right; now exists a, b|].
        constructor; [exact Hch|exact Hrest].
Qed.

Lemma eq_ignoring_case_upper (u : string -> string) (s t : string) :
  Spec.eq_ignoring_case s t -> Py.upper u s = Py.upper u t.
Proof.
  intros H. apply eq_ignoring_case_chars in H as [_ H].
  unfold Py.upper. f_equal.
  induction H as [|ch ch' l l' Hch _ IH]; [reflexivity|].
  cbn [map]. now rewrite (char_alike_upper u ch ch' Hch), IH.
Qed.

End UpperAscii.

(** *** The row mask *)

Lemma boolean_index_map {A : Type} (f : A -> bool) (l : list A) :
  Frame.boolean_index l (map f l) = filter f l.
Proof.
  induction l as [|x l IH]; cbn; [reflexivity|].
  destruct (f x); now rewrite IH.
Qed.

Section Filter.

Context {Cell : Type} {ops : Frame.CellOps Cell}.

(** The element test of [str.contains(q, case=False, regex=False)]:
    the upper-cased text can be cut around the upper-cased query. *)
Lemma str_contains_upper_cased (q s : string) :
  Frame.str_contains q s = true <-> Spec.contains_upper_cased q s.
Proof.
  unfold Frame.str_contains, Spec.contains_upper_cased.
  apply str_in_iff_append.
Qed.

(** On ASCII text it is the specification's "contains, letter case
    ignored". *)
Lemma str_contains_iff (q s : string) :
  Py.is_ascii_text q = true -> Py.is_ascii_text s = true ->
  (Frame.str_contains q s = true <-> Spec.contains_ignoring_case q s).
Proof.
  intros Hq Hs.
  unfold Frame.str_contains, Frame.str_upper, Spec.contains_ignoring_case.
  rewrite (upper_on_ascii _ q Hq), (upper_on_ascii _ s Hs).
  rewrite str_in_iff_append. split.
  - intros (pre' & post' & H).
    apply upper_ascii_split in H as (pre & rest & -> & _ & H).
    apply upper_ascii_split in H as (mid & post & -> & Hmid & _).
    exists pre, mid, post. split; [reflexivity|].
    now apply eq_ignoring_case_iff_upper.
  - intros (pre & mid & post & -> & H).
    apply eq_ignoring_case_iff_upper in H.
    exists (Py.upper_ascii pre), (Py.upper_ascii post).
    now rewrite !upper_ascii_append, H.
Qed.

(** On any text, an occurrence of the query up to the case of the 26
    letters is found. *)
Lemma str_contains_occurrence (q s : string) :
  q <> EmptyString -> Py.continues q = false ->
  Spec.occurs_ignoring_case q s -> Frame.str_contains q s = true.
Proof.
  intros Hq Hcont (pre & mid & post & -> & Hmid & Hpost).
  apply str_contains_upper_cased. unfold Spec.contains_upper_cased.
  unfold Frame.str_upper.
  exists (Py.upper Frame.upper_char pre), (Py.upper Frame.upper_char post).
  rewrite <- (eq_ignoring_case_upper _ mid q Hmid).
  rewrite <- (upper_append _ mid post Hpost).
  apply upper_append.
  destruct (eq_ignoring_case_chars mid q Hmid) as [Hc _].
  destruct mid as [|m mid]; [|cbn [append Py.continues] in *; congruence].
  inversion Hmid; subst. contradiction.
Qed.

Lemma search_mask_rows (q : string) (df : Frame.DataFrame Cell) :
  Frame.search_mask q df = map (Frame.row_mask q) (Frame.rows df).
Proof.
  unfold Frame.search_mask, Frame.any_axis1, Frame.contains_frame,
    Frame.astype_str; cbn.
  rewrite !map_map. apply map_ext. intros row. unfold Frame.row_mask.
  induction row as [|c row IH]; cbn; [reflexivity|]. now rewrite IH.
Qed.

Lemma filter_rows_filter (q : string) (df : Frame.DataFrame Cell) :
  Frame.rows (Frame.filter_rows q df) = filter (Frame.row_mask q) (Frame.rows df).
Proof.
  unfold Frame.filter_rows; cbn [Frame.rows].
  rewrite search_mask_rows. apply boolean_index_map.
Qed.

Lemma row_mask_found (q : string) (row : list Cell) :
  Frame.row_mask q row = true <-> Spec.row_found q row.
Proof.
  unfold Frame.row_mask, Spec.row_found. rewrite existsb_exists.
  split; intros [c [Hin H]]; exists c; (split; [assumption|]);
    now apply str_contains_upper_cased.
Qed.

Lemma row_mask_iff (q : string) (row : list Cell) :
  Py.is_ascii_text q = true -> Spec.ascii_row row ->
  (Frame.row_mask q row = true <-> Spec.row_matches q row).
Proof.
  intros Hq Hrow.
  unfold Frame.row_mask, Spec.row_matches. rewrite existsb_exists.
  split; intros [c [Hin H]]; exists c; (split; [assumption|]);
    now apply (str_contains_iff q _ Hq (Hrow c Hin)).
Qed.

(** Queries that differ in letter case only select the same rows. *)
Lemma search_ignores_case (q q' : string) (df : Frame.DataFrame Cell) :
  Py.is_ascii_text q = true -> Py.is_ascii_text q' = true ->
  Spec.eq_ignoring_case q q' ->
  Frame.filter_rows q df = Frame.filter_rows q' df.
Proof.
  intros Hq Hq' H. apply eq_ignoring_case_iff_upper in H.
  unfold Frame.filter_rows, Frame.search_mask, Frame.contains_frame,
    Frame.str_contains, Frame.str_upper.
  now rewrite (upper_on_ascii _ q Hq), (upper_on_ascii _ q' Hq'), H.
Qed.


End Filter.

Example search_people_ali :
  Frame.rows (Frame.filter_rows "ali" Examples.people)
  = [ [Examples.PInt 1; Examples.PStr "Alice"; Examples.PStr "Paris"];
      [Examples.PInt 3; Examples.PStr "ALICIA"; Examples.PNone] ].
Proof. reflexivity. Qed.

(** The text of a missing value takes part in the search like any
    other. *)
Example search_people_none :
  Frame.rows (Frame.filter_rows "NONE" Examples.people)
  = [ [Examples.PInt 3; Examples.PStr "ALICIA"; Examples.PNone] ].
Proof. reflexivity. Qed.


(** Letters outside ASCII are compared by their upper-case forms too:
    the accented word is found in either case, and the sharp s is found
    by the two letters it is written with in upper case. *)
Example search_accented_letters :
  Frame.str_contains (ops := Examples.PyValueOps)
    ("CAF" ++ Examples.E_acute) ("un caf" ++ Examples.e_acute ++ " noir")
  = true
  /\ Frame.str_contains (ops := Examples.PyValueOps)
       "strasse" ("Stra" ++ Examples.sharp_s ++ "e")
     = true
  /\ Frame.str_contains (ops := Examples.PyValueOps)
       "cafe" ("caf" ++ Examples.e_acute)
     = false.
Proof. repeat split. Qed.

(* ------------------------------------------------------------------ *)
(** ** The two single-entry caches and the object store                 *)
(* ------------------------------------------------------------------ *)

Lemma self_eqb_spec (a b : Connection.DataframeConnection) :
  reflect (a = b) (Connection.self_eqb a b).
Proof.
  destruct a as [i f t], b as [j g u]. unfold Connection.self_eqb; cbn.
  destruct (Nat.eqb_spec i j), (String.eqb_spec f g), (String.eqb_spec t u);
    cbn; constructor; congruence.
Qed.

Lemma dfkey_eqb_spec (a b : Connection.DfKey) :
  reflect (a = b) (Connection.dfkey_eqb a b).
Proof.
  destruct a as [s n], b as [s' n']. unfold Connection.dfkey_eqb; cbn.
  destruct (self_eqb_spec s s'), (String.eqb_spec n n');
    cbn; constructor; congruence.
Qed.

Lemma viewkey_eqb_spec (a b : Connection.ViewKey) :
  reflect (a = b) (Connection.viewkey_eqb a b).
Proof.
  destruct a as [s n c o q], b as [s' n' c' o' q'].
  unfold Connection.viewkey_eqb; cbn.
  destruct (self_eqb_spec s s'), (String.eqb_spec n n'),
    (opt_str_eqb_spec c c'), (Bool.eqb_spec o o'), (opt_str_eqb_spec q q');
    cbn; constructor; congruence.
Qed.


Lemma nth_error_app_some {A : Type} (l extra : list A) (i : nat) (x : A) :
  nth_error l i = Some x -> nth_error (l ++ extra) i = Some x.
Proof.
  intros H. rewrite nth_error_app1; [assumption|].
  apply nth_error_Some. congruence.
Qed.

Lemma nth_error_snoc {A : Type} (l : list A) (x : A) :
  nth_error (l ++ [x]) (List.length l) = Some x.
Proof.
  rewrite nth_error_app2 by lia. now rewrite Nat.sub_diag.
Qed.

Section Cache.

Context {Cell : Type} {ops : Frame.CellOps Cell}.
Variable libs : Connection.Libraries Cell.
Variable argsort : list Cell -> Py.result (list nat).

Local Abbreviation World := (@Connection.World Cell).
Local Abbreviation get_df := (Connection.get_df libs).
Local Abbreviation load_frame := (Connection.load_frame libs).
Local Abbreviation view_body := (Connection.get_filtered_sorted_df_body libs argsort).
Local Abbreviation get_view := (Connection.get_filtered_sorted_df libs argsort).
Local Abbreviation view_of_key := (Connection.view_of_key argsort).
Local Abbreviation df_slot_ok := (Connection.df_slot_ok libs).
Local Abbreviation view_slot_ok := (Connection.view_slot_ok libs argsort).
Local Abbreviation coherent := (Connection.coherent libs argsort).
Local Abbreviation df_hit := (@Connection.df_hit Cell).
Local Abbreviation df_miss := (Connection.df_miss libs).
Local Abbreviation view_hit := (@Connection.view_hit Cell).
Local Abbreviation view_miss := (Connection.view_miss libs argsort).

(** *** [get_df] *)



Lemma get_df_hit self name w r :
  Connection.slot (Connection.df_cache w) = Some ((self, name), r) ->
  get_df self name w = df_hit w r.
Proof.
  intros H. unfold Connection.get_df, Connection.lru_cache, Connection.df_hit.
  rewrite H.
  destruct (dfkey_eqb_spec (self, name) (self, name)); [|contradiction].
  reflexivity.
Qed.

Lemma get_df_miss self name w :
  Connection.misses_on (Connection.df_cache w) (self, name) ->
  get_df self name w = df_miss self name w.
Proof.
  intros H. unfold Connection.misses_on in H.
  unfold Connection.get_df, Connection.lru_cache, Connection.df_miss,
    Connection.get_df_body, Connection.bind, Connection.lift,
    Connection.alloc.
  destruct (Connection.slot (Connection.df_cache w)) as [[k r]|] eqn:Hs.
  - destruct (dfkey_eqb_spec (self, name) k) as [<-|_];
      [now contradiction H|].
    cbn. destruct (load_frame self name); reflexivity.
  - cbn. destruct (load_frame self name); reflexivity.
Qed.

Lemma get_df_cases self name w :
  (exists r, Connection.slot (Connection.df_cache w) = Some ((self, name), r)
             /\ get_df self name w = df_hit w r)
  \/ (Connection.misses_on (Connection.df_cache w) (self, name)
      /\ get_df self name w = df_miss self name w).
Proof.
  destruct (Connection.slot (Connection.df_cache w)) as [[k r]|] eqn:Hs.
  - destruct (dfkey_eqb_spec k (self, name)) as [->|Hne].
    + left. exists r. split; [reflexivity|]. now apply get_df_hit.
    + right. assert (Hm : Connection.misses_on (Connection.df_cache w) (self, name))
        by (unfold Connection.misses_on; now rewrite Hs).
      split; [assumption|]. now apply get_df_miss.
  - right. assert (Hm : Connection.misses_on (Connection.df_cache w) (self, name))
      by (unfold Connection.misses_on; now rewrite Hs).
    split; [assumption|]. now apply get_df_miss.
Qed.

(** The contract of one [get_df] call on a world whose [get_df] entry
    agrees with the files. *)
Lemma get_df_spec self name w :
  df_slot_ok w ->
  exists extra,
    Connection.heap (snd (get_df self name w)) = Connection.heap w ++ extra
    /\ Connection.view_cache (snd (get_df self name w))
       = Connection.view_cache w
    /\ df_slot_ok (snd (get_df self name w))
    /\ match fst (get_df self name w) with
       | inr r =>
           exists df, load_frame self name = inr df
             /\ nth_error (Connection.heap (snd (get_df self name w))) r
                = Some df
             /\ Connection.slot
                  (Connection.df_cache (snd (get_df self name w)))
                = Some ((self, name), r)
       | inl e => load_frame self name = inl e /\ extra = []
       end.
Proof.
  intros Hok.
  destruct (get_df_cases self name w) as [(r & Hs & ->)|(Hm & ->)].
  - exists []. unfold Connection.df_hit; cbn. rewrite app_nil_r.
    unfold Connection.df_slot_ok in *; cbn. rewrite Hs in *.
    destruct Hok as (df & Hl & Hn). repeat split; eauto.
  - unfold Connection.df_miss. destruct (load_frame self name) as [e|df] eqn:Hl; cbn.
    + exists []. rewrite app_nil_r. repeat split; try reflexivity.
      unfold Connection.df_slot_ok in *; cbn.
      destruct (Connection.slot (Connection.df_cache w)) as [[k r]|];
        assumption.
    + exists [df]. repeat split.
      * unfold Connection.df_slot_ok; cbn. exists df. split; [assumption|].
        apply nth_error_snoc.
      * exists df. repeat split; [apply nth_error_snoc].
Qed.

(** *** [get_filtered_sorted_df] *)

Lemma df_slot_ok_extend (w w' : World) (extra : list (Frame.DataFrame Cell)) :
  Connection.df_cache w' = Connection.df_cache w ->
  Connection.heap w' = Connection.heap w ++ extra ->
  df_slot_ok w -> df_slot_ok w'.
Proof.
  unfold Connection.df_slot_ok. intros -> ->.
  destruct (Connection.slot (Connection.df_cache w)) as [[k r]|]; [|trivial].
  intros (df & Hl & Hn). exists df. split; [assumption|].
  now apply nth_error_app_some.
Qed.

Lemma view_slot_ok_extend (w w' : World)
  (extra : list (Frame.DataFrame Cell)) :
  Connection.slot (Connection.view_cache w')
  = Connection.slot (Connection.view_cache w) ->
  Connection.heap w' = Connection.heap w ++ extra ->
  view_slot_ok w -> view_slot_ok w'.
Proof.
  unfold Connection.view_slot_ok. intros -> ->.
  destruct (Connection.slot (Connection.view_cache w)) as [[k r]|];
    [|trivial].
  intros (df & v & Hl & Hv & Hn). exists df, v. repeat split; try assumption.
  now apply nth_error_app_some.
Qed.

(** The contract of the body of [get_filtered_sorted_df]: it leaves its
    own cache alone, only adds objects, and the object it returns is the
    view of the frame loaded for the table. *)
Lemma view_body_spec (key : Connection.ViewKey) (w : World) :
  df_slot_ok w ->
  exists extra,
    Connection.heap (snd (view_body key w)) = Connection.heap w ++ extra
    /\ Connection.view_cache (snd (view_body key w))
       = Connection.view_cache w
    /\ df_slot_ok (snd (view_body key w))
    /\ match fst (view_body key w) with
       | inr r =>
           exists df v,
             load_frame (Connection.vk_self key)
                        (Connection.vk_table_name key) = inr df
             /\ view_of_key key df = inr v
             /\ nth_error (Connection.heap (snd (view_body key w))) r
                = Some v
       | inl e =>
           load_frame (Connection.vk_self key)
                      (Connection.vk_table_name key) = inl e
           \/ exists df,
               load_frame (Connection.vk_self key)
                          (Connection.vk_table_name key) = inr df
               /\ view_of_key key df = inl e
       end.
Proof.
  intros Hok.
  destruct (get_df_spec (Connection.vk_self key)
              (Connection.vk_table_name key) w Hok)
    as (ex1 & Hheap & Hvc & Hok1 & Hres).
  unfold Connection.get_filtered_sorted_df_body, Connection.bind.
  destruct (get_df (Connection.vk_self key) (Connection.vk_table_name key) w)
    as [[e|r] w1]; cbn [fst snd] in *.
  - exists ex1. destruct Hres as [Hl _]. auto.
  - destruct Hres as (df & Hl & Hn & _).
    unfold Connection.view_of_key, Frame.filtered_sorted_df.
    destruct key as [self name sc so q]; cbn [Connection.vk_self
      Connection.vk_table_name Connection.vk_sort_column
      Connection.vk_sort_order Connection.vk_search_query] in *.
    destruct q as [[|qc q]|], sc as [[|cc c]|];
      cbn [Py.if_truthy Connection.ret Connection.deref Connection.alloc
           Connection.lift Connection.bind fst snd];
      unfold Connection.bind, Connection.deref, Connection.alloc,
        Connection.lift; cbn [Connection.heap];
      rewrite ?Hn; cbn [fst snd Connection.heap Connection.view_cache
                        Connection.df_cache];
      rewrite ?nth_error_snoc;
      try (destruct (Frame.sort_values argsort _ _ so) as [e|d] eqn:Hsv);
      cbn [fst snd Connection.heap Connection.view_cache
           Connection.df_cache];
      rewrite ?Hheap, <- ?app_assoc;
      eexists; (split; [reflexivity|]); (split; [assumption|]);
      (split;
       [ eapply df_slot_ok_extend; [| |exact Hok1]; cbn; try reflexivity;
         try (rewrite Hheap, <- ?app_assoc; reflexivity);
         now rewrite app_nil_r
       | ]);
      try (right; exists df; split; [assumption|reflexivity]);
      try (exists df; eexists; split; [exact Hl|]; split; [reflexivity|]);
      rewrite ?app_assoc, <- ?Hheap, ?nth_error_snoc; try reflexivity;
      try assumption;
      try (right; exists df; split; assumption);
      try (exists df, d; repeat split; assumption);
      try (unfold Connection.ret; cbn; apply nth_error_snoc).
Qed.

(** After its [get_df] call the body only adds objects: the [get_df]
    cache is as that call left it. *)
Lemma view_body_df_cache (key : Connection.ViewKey) (w : World) :
  Connection.df_cache (snd (view_body key w))
  = Connection.df_cache
      (snd (get_df (Connection.vk_self key) (Connection.vk_table_name key) w)).
Proof.
  unfold Connection.get_filtered_sorted_df_body, Connection.bind.
  destruct (get_df (Connection.vk_self key) (Connection.vk_table_name key) w)
    as [[e|r] w1]; cbn [fst snd]; [reflexivity|].
  destruct key as [self name sc so q]; cbn [Connection.vk_self
    Connection.vk_table_name Connection.vk_sort_column
    Connection.vk_sort_order Connection.vk_search_query].
  destruct q as [[|qc q]|], sc as [[|cc c]|];
    cbn [Py.if_truthy]; unfold Connection.ret, Connection.bind,
      Connection.deref, Connection.alloc, Connection.lift;
    cbn [Connection.heap];
    repeat match goal with
           | |- context [nth_error ?l ?i] => destruct (nth_error l i)
           | |- context [Frame.sort_values ?a ?d ?c ?o] =>
               destruct (Frame.sort_values a d c o)
           end; reflexivity.
Qed.



Lemma get_view_hit self name sc so q w r :
  Connection.slot (Connection.view_cache w)
  = Some (Connection.mkViewKey self name sc so q, r) ->
  get_view self name sc so q w = view_hit w r.
Proof.
  intros H.
  unfold Connection.get_filtered_sorted_df, Connection.lru_cache, Connection.view_hit.
  rewrite H.
  destruct (viewkey_eqb_spec (Connection.mkViewKey self name sc so q)
              (Connection.mkViewKey self name sc so q)); [|contradiction].
  reflexivity.
Qed.

Lemma get_view_miss self name sc so q w :
  Connection.misses_on (Connection.view_cache w)
            (Connection.mkViewKey self name sc so q) ->
  get_view self name sc so q w
  = view_miss (Connection.mkViewKey self name sc so q) w.
Proof.
  intros H. unfold Connection.misses_on in H.
  unfold Connection.get_filtered_sorted_df, Connection.lru_cache, Connection.view_miss.
  destruct (Connection.slot (Connection.view_cache w)) as [[k r]|] eqn:Hs;
    [|reflexivity].
  destruct (viewkey_eqb_spec (Connection.mkViewKey self name sc so q) k)
    as [<-|_]; [now contradiction H|reflexivity].
Qed.

Lemma get_view_cases self name sc so q w :
  (exists r,
      Connection.slot (Connection.view_cache w)
      = Some (Connection.mkViewKey self name sc so q, r)
      /\ get_view self name sc so q w = view_hit w r)
  \/ (Connection.misses_on (Connection.view_cache w)
                (Connection.mkViewKey self name sc so q)
      /\ get_view self name sc so q w
         = view_miss (Connection.mkViewKey self name sc so q) w).
Proof.
  destruct (Connection.slot (Connection.view_cache w)) as [[k r]|] eqn:Hs.
  - destruct (viewkey_eqb_spec k (Connection.mkViewKey self name sc so q))
      as [->|Hne].
    + left. exists r. split; [reflexivity|]. now apply get_view_hit.
    + right.
      assert (Hm : Connection.misses_on (Connection.view_cache w)
                     (Connection.mkViewKey self name sc so q))
        by (unfold Connection.misses_on; now rewrite Hs).
      split; [assumption|]. now apply get_view_miss.
  - right.
    assert (Hm : Connection.misses_on (Connection.view_cache w)
                   (Connection.mkViewKey self name sc so q))
      by (unfold Connection.misses_on; now rewrite Hs).
    split; [assumption|]. now apply get_view_miss.
Qed.

(** *** The caches stay in agreement with the files *)

Lemma init_world_coherent : coherent Connection.init_world.
Proof. split; exact I. Qed.

Lemma get_df_coherent self name w :
  coherent w -> coherent (snd (get_df self name w)).
Proof.
  intros [Hd Hv].
  destruct (get_df_spec self name w Hd) as (extra & Hh & Hvc & Hd' & _).
  split; [assumption|].
  eapply view_slot_ok_extend; [now rewrite Hvc|eassumption|assumption].
Qed.

(** The contract of one [get_filtered_sorted_df] call. *)
Lemma get_view_spec self name sc so q w :
  coherent w ->
  exists extra,
    Connection.heap (snd (get_view self name sc so q w))
    = Connection.heap w ++ extra
    /\ coherent (snd (get_view self name sc so q w))
    /\ match fst (get_view self name sc so q w) with
       | inr r =>
           exists df v,
             load_frame self name = inr df
             /\ Frame.filtered_sorted_df argsort df sc so q = inr v
             /\ nth_error
                  (Connection.heap (snd (get_view self name sc so q w))) r
                = Some v
             /\ Connection.slot
                  (Connection.view_cache
                     (snd (get_view self name sc so q w)))
                = Some (Connection.mkViewKey self name sc so q, r)
       | inl e =>
           load_frame self name = inl e
           \/ exists df, load_frame self name = inr df
                         /\ Frame.filtered_sorted_df argsort df sc so q
                            = inl e
       end.
Proof.
  intros [Hd Hv].
  destruct (get_view_cases self name sc so q w) as [(r & Hs & ->)|(Hm & ->)].
  - exists []. unfold Connection.view_hit; cbn [fst snd]. rewrite app_nil_r.
    unfold Connection.view_slot_ok in Hv. rewrite Hs in Hv.
    destruct Hv as (df & v & Hl & Hview & Hn).
    split; [reflexivity|]. split.
    + split; [exact Hd|].
      unfold Connection.view_slot_ok; cbn. rewrite Hs. now exists df, v.
    + exists df, v. cbn. rewrite Hs. repeat split; assumption.
  - unfold Connection.view_miss.
    set (counted := Connection.set_view_cache _ w).
    assert (Hdc : df_slot_ok counted) by exact Hd.
    destruct (view_body_spec (Connection.mkViewKey self name sc so q)
                counted Hdc) as (extra & Hh & Hvc & Hd' & Hres).
    destruct (view_body (Connection.mkViewKey self name sc so q) counted)
      as [[e|r] w']; cbn [fst snd] in *.
    + exists extra. split; [exact Hh|]. split; [|exact Hres].
      split; [exact Hd'|].
      eapply view_slot_ok_extend with (w := w); [| |exact Hv].
      * rewrite Hvc. reflexivity.
      * exact Hh.
    + exists extra. destruct Hres as (df & v & Hl & Hview & Hn).
      split; [exact Hh|]. split.
      * split; [exact Hd'|]. unfold Connection.view_slot_ok; cbn.
        exists df, v. repeat split; assumption.
      * exists df, v. repeat split; assumption.
Qed.

Lemma get_df_view_cache self name w :
  Connection.view_cache (snd (get_df self name w)) = Connection.view_cache w.
Proof.
  destruct (get_df_cases self name w) as [(r & _ & ->)|(_ & ->)];
    [reflexivity|].
  unfold Connection.df_miss. destruct (load_frame self name); reflexivity.
Qed.

Lemma view_body_view_cache (key : Connection.ViewKey) (w : World) :
  Connection.view_cache (snd (view_body key w)) = Connection.view_cache w.
Proof.
  rewrite <- (get_df_view_cache (Connection.vk_self key)
                (Connection.vk_table_name key) w).
  unfold Connection.get_filtered_sorted_df_body, Connection.bind.
  destruct (get_df (Connection.vk_self key) (Connection.vk_table_name key) w)
    as [[e|r] w1]; cbn [fst snd]; [reflexivity|].
  destruct key as [self name sc so q]; cbn [Connection.vk_self
    Connection.vk_table_name Connection.vk_sort_column
    Connection.vk_sort_order Connection.vk_search_query].
  destruct q as [[|qc q]|], sc as [[|cc c]|];
    cbn [Py.if_truthy]; unfold Connection.ret, Connection.bind,
      Connection.deref, Connection.alloc, Connection.lift;
    cbn [Connection.heap];
    repeat match goal with
           | |- context [nth_error ?l ?i] => destruct (nth_error l i)
           | |- context [Frame.sort_values ?a ?d ?c ?o] =>
               destruct (Frame.sort_values a d c o)
           end; reflexivity.
Qed.

Lemma get_df_returns_slot self name w r w1 :
  get_df self name w = (inr r, w1) ->
  Connection.slot (Connection.df_cache w1) = Some ((self, name), r).
Proof.
  destruct (get_df_cases self name w) as [(r0 & Hs & ->)|(_ & ->)].
  - unfold Connection.df_hit. intros H. injection H as <- <-. exact Hs.
  - unfold Connection.df_miss. destruct (load_frame self name); intros H;
      [discriminate H|]. injection H as <- <-. reflexivity.
Qed.

Lemma get_view_returns_slot self name sc so q w r w1 :
  get_view self name sc so q w = (inr r, w1) ->
  Connection.slot (Connection.view_cache w1)
  = Some (Connection.mkViewKey self name sc so q, r).
Proof.
  destruct (get_view_cases self name sc so q w) as [(r0 & Hs & ->)|(_ & ->)].
  - unfold Connection.view_hit. intros H. injection H as <- <-. exact Hs.
  - unfold Connection.view_miss.
    destruct (view_body _ _) as [[e|v] w']; intros H;
      [discriminate H|]. injection H as <- <-. reflexivity.
Qed.

(** A view computation for the table whose frame [get_df] holds leaves
    that entry in place. *)
Lemma get_view_keeps_df_slot self name sc so q w r :
  Connection.slot (Connection.df_cache w) = Some ((self, name), r) ->
  Connection.slot
    (Connection.df_cache (snd (get_view self name sc so q w)))
  = Some ((self, name), r).
Proof.
  intros Hs.
  destruct (get_view_cases self name sc so q w) as [(r0 & _ & ->)|(_ & ->)];
    [exact Hs|].
  unfold Connection.view_miss.
  set (counted := Connection.set_view_cache _ w).
  pose proof (view_body_df_cache
                (Connection.mkViewKey self name sc so q) counted) as Hb.
  cbn [Connection.vk_self Connection.vk_table_name] in Hb.
  rewrite (get_df_hit self name counted r Hs) in Hb.
  destruct (view_body (Connection.mkViewKey self name sc so q) counted)
    as [[e|v] w']; unfold Connection.df_hit in Hb; cbn in Hb |- *; rewrite Hb;
    cbn; exact Hs.
Qed.

(** C3.  Each of [get_df] and [get_filtered_sorted_df] keeps one entry.
    A call repeated with the key of a call that returned gives the same
    object again, counts a hit and no miss, and leaves the objects and
    the entry as they are: the body does not run.  A call whose key is
    not the stored one counts exactly one miss and no hit (the body runs
    once).  When the body returns, its result is the one entry, so the
    previous entry is gone.  When the body raises, the exception passes
    through, nothing is stored for the key, and the previous entry
    stays. *)
Theorem single_entry_caches self name sc so q (w : World) :
  let key := Connection.mkViewKey self name sc so q in
  (forall r w1, get_df self name w = (inr r, w1) ->
     exists w2, get_df self name w1 = (inr r, w2)
       /\ Connection.misses (Connection.df_cache w2)
          = Connection.misses (Connection.df_cache w1)
       /\ Connection.hits (Connection.df_cache w2)
          = S (Connection.hits (Connection.df_cache w1))
       /\ Connection.heap w2 = Connection.heap w1
       /\ Connection.slot (Connection.df_cache w2) = Some ((self, name), r))
  /\
  (Connection.misses_on (Connection.df_cache w) (self, name) ->
     let w1 := snd (get_df self name w) in
     Connection.misses (Connection.df_cache w1)
     = S (Connection.misses (Connection.df_cache w))
     /\ Connection.hits (Connection.df_cache w1)
        = Connection.hits (Connection.df_cache w)
     /\ (forall r, fst (get_df self name w) = inr r ->
          Connection.slot (Connection.df_cache w1) = Some ((self, name), r)
          /\ exists df, load_frame self name = inr df
                        /\ Connection.heap w1 = Connection.heap w ++ [df]
                        /\ nth_error (Connection.heap w1) r = Some df)
     /\ (forall e, fst (get_df self name w) = inl e ->
          load_frame self name = inl e
          /\ Connection.slot (Connection.df_cache w1)
             = Connection.slot (Connection.df_cache w)
          /\ Connection.heap w1 = Connection.heap w))
  /\
  (forall r w1, get_view self name sc so q w = (inr r, w1) ->
     exists w2, get_view self name sc so q w1 = (inr r, w2)
       /\ Connection.misses (Connection.view_cache w2)
          = Connection.misses (Connection.view_cache w1)
       /\ Connection.hits (Connection.view_cache w2)
          = S (Connection.hits (Connection.view_cache w1))
       /\ Connection.heap w2 = Connection.heap w1
       /\ Connection.df_cache w2 = Connection.df_cache w1
       /\ Connection.slot (Connection.view_cache w2) = Some (key, r))
  /\
  (Connection.misses_on (Connection.view_cache w) key ->
     let w1 := snd (get_view self name sc so q w) in
     Connection.misses (Connection.view_cache w1)
     = S (Connection.misses (Connection.view_cache w))
     /\ Connection.hits (Connection.view_cache w1)
        = Connection.hits (Connection.view_cache w)
     /\ (forall r, fst (get_view self name sc so q w) = inr r ->
          Connection.slot (Connection.view_cache w1) = Some (key, r))
     /\ (forall e, fst (get_view self name sc so q w) = inl e ->
          Connection.slot (Connection.view_cache w1)
          = Connection.slot (Connection.view_cache w))).
Proof.
  cbv zeta. repeat apply conj.
  - intros r w1 H. apply get_df_returns_slot in H.
    rewrite (get_df_hit self name w1 r H). unfold Connection.df_hit.
    eexists. split; [reflexivity|]. cbn. auto.
  - intros Hm. rewrite (get_df_miss self name w Hm). unfold Connection.df_miss.
    destruct (load_frame self name) as [e|df]; cbn;
      (split; [reflexivity|]); (split; [reflexivity|]); split.
    + intros r Hr. discriminate Hr.
    + intros e' He. injection He as <-. repeat split.
    + intros r Hr. injection Hr as <-. split; [reflexivity|].
      exists df. repeat split. apply nth_error_snoc.
    + intros e He. discriminate He.
  - intros r w1 H. apply get_view_returns_slot in H.
    rewrite (get_view_hit self name sc so q w1 r H). unfold Connection.view_hit.
    eexists. split; [reflexivity|]. cbn. auto.
  - intros Hm. rewrite (get_view_miss self name sc so q w Hm).
    unfold Connection.view_miss.
    set (counted := Connection.set_view_cache _ w).
    pose proof (view_body_view_cache
                  (Connection.mkViewKey self name sc so q) counted) as Hvc.
    destruct (view_body (Connection.mkViewKey self name sc so q) counted)
      as [[e|v] w']; cbn [fst snd] in *.
    + rewrite Hvc. cbn. repeat split. intros r Hr. discriminate Hr.
    + cbn. rewrite Hvc. cbn. repeat split.
      * intros r Hr. now injection Hr as <-.
      * intros e He. discriminate He.
Qed.

(** When the body raises, the exception passes through and the entry
    stays: nothing is stored for the key that failed. *)
Lemma get_df_raise_keeps_entry self name (w : World) (e : Py.Exc) :
  Connection.misses_on (Connection.df_cache w) (self, name) ->
  fst (get_df self name w) = inl e ->
  Connection.slot (Connection.df_cache (snd (get_df self name w)))
  = Connection.slot (Connection.df_cache w)
  /\ Connection.heap (snd (get_df self name w)) = Connection.heap w.
Proof.
  intros Hm. rewrite (get_df_miss self name w Hm). unfold Connection.df_miss.
  destruct (load_frame self name); cbn; [auto|discriminate].
Qed.

(** C9.  Computing a view leaves the raw table alone.  Let [get_df]
    return the object [r] for a table.  After any
    [get_filtered_sorted_df] call for that table, whatever the sort
    column, order and query and whether it returns or raises, every
    object that existed before is unchanged, [r] still holds the frame
    that was loaded, and [get_df] for the table answers with [r] again
    from its cache. *)
Theorem raw_table_unchanged_by_view self name sc so q (w w1 : World)
  (r : nat) :
  coherent w ->
  get_df self name w = (inr r, w1) ->
  let w2 := snd (get_view self name sc so q w1) in
  (forall i d, nth_error (Connection.heap w1) i = Some d ->
               nth_error (Connection.heap w2) i = Some d)
  /\ (exists df, load_frame self name = inr df
                 /\ nth_error (Connection.heap w1) r = Some df
                 /\ nth_error (Connection.heap w2) r = Some df)
  /\ get_df self name w2 = df_hit w2 r.
Proof.
  intros Hc Hg. cbv zeta.
  pose proof (get_df_returns_slot self name w r w1 Hg) as Hs.
  pose proof (get_df_coherent self name w Hc) as Hc1.
  destruct Hc as [Hd _].
  destruct (get_df_spec self name w Hd) as (ex & _ & _ & _ & Hres).
  rewrite Hg in Hc1, Hres. cbn [fst snd] in *.
  destruct Hres as (df & Hl & Hn & _).
  destruct (get_view_spec self name sc so q w1 Hc1) as (extra & Hh & _ & _).
  repeat apply conj.
  - intros i d Hi. rewrite Hh. now apply nth_error_app_some.
  - exists df. repeat split; try assumption.
    rewrite Hh. now apply nth_error_app_some.
  - apply get_df_hit. now apply get_view_keeps_df_slot.
Qed.

(** Cache coherence.  As long as the files answer the same, a
    [get_filtered_sorted_df] call that returns, from the cache or not,
    returns an object holding the view (filter, then sort) of the frame
    loaded for its table, and leaves the caches in agreement with the
    files. *)
Theorem cached_view_is_view_of_loaded_table self name sc so q
  (w w' : World) (r : nat) :
  coherent w ->
  get_view self name sc so q w = (inr r, w') ->
  coherent w'
  /\ exists df v,
       load_frame self name = inr df
       /\ Frame.filtered_sorted_df argsort df sc so q = inr v
       /\ nth_error (Connection.heap w') r = Some v.
Proof.
  intros Hc Hrun.
  destruct (get_view_spec self name sc so q w Hc) as (extra & _ & Hc' & Hres).
  rewrite Hrun in Hc', Hres. cbn [fst snd] in *.
  split; [exact Hc'|].
  destruct Hres as (df & v & Hl & Hv & Hn & _). now exists df, v.
Qed.

End Cache.

Lemma raw_table_unchanged_witness :
  let get_df := Connection.get_df Examples.shop_libs in
  let get_view :=
    Connection.get_filtered_sorted_df Examples.shop_libs
      Examples.numpy_argsort in
  let w1 := snd (get_df Examples.shop_db "people"%string
                        Connection.init_world) in
  let w2 := snd (get_view Examples.shop_db "people"%string
                   (Some "name"%string) true (Some "ali"%string) w1) in
  (forall i d, nth_error (Connection.heap w1) i = Some d ->
               nth_error (Connection.heap w2) i = Some d)
  /\ (exists df,
        Connection.load_frame Examples.shop_libs Examples.shop_db "people"
        = inr df
        /\ nth_error (Connection.heap w1) 0 = Some df
        /\ nth_error (Connection.heap w2) 0 = Some df)
  /\ get_df Examples.shop_db "people"%string w2 = Connection.df_hit w2 0.
Proof.
  exact (raw_table_unchanged_by_view Examples.shop_libs
           Examples.numpy_argsort
           Examples.shop_db "people" (Some "name"%string) true
           (Some "ali"%string) Connection.init_world _ 0
           (init_world_coherent _ _) eq_refl).
Defined.

Lemma cached_view_witness :
  Connection.coherent Examples.shop_libs
    Examples.numpy_argsort
    (snd (Connection.get_filtered_sorted_df Examples.shop_libs
            Examples.numpy_argsort Examples.shop_db
            "people" (Some "name"%string) true (Some "ali"%string)
            Connection.init_world))
  /\ exists df v,
       Connection.load_frame Examples.shop_libs Examples.shop_db "people"
       = inr df
       /\ Frame.filtered_sorted_df
            Examples.numpy_argsort df
            (Some "name"%string) true (Some "ali"%string) = inr v
       /\ nth_error
            (Connection.heap
               (snd (Connection.get_filtered_sorted_df Examples.shop_libs
                       Examples.numpy_argsort
                       Examples.shop_db "people" (Some "name"%string) true
                       (Some "ali"%string) Connection.init_world))) 2
          = Some v.
Proof.
  exact (cached_view_is_view_of_loaded_table Examples.shop_libs
           Examples.numpy_argsort Examples.shop_db
           "people" (Some "name"%string) true (Some "ali"%string)
           Connection.init_world _ 2 (init_world_coherent _ _) eq_refl).
Defined.

(** A session on the sample file: the table is loaded, filtered and
    sorted; the view has three objects behind it (the table, the filtered
    frame, the sorted frame) and the table object is as loaded. *)
Example view_session :
  let get_view :=
    Connection.get_filtered_sorted_df Examples.shop_libs
      Examples.numpy_argsort Examples.shop_db in
  let run := get_view "people"%string (Some "name"%string) true
                      (Some "ali"%string) Connection.init_world in
  fst run = inr 2
  /\ nth_error (Connection.heap (snd run)) 0 = Some Examples.people
  /\ option_map Frame.rows (nth_error (Connection.heap (snd run)) 2)
     = Some [ [Examples.PInt 3; Examples.PStr "ALICIA"; Examples.PNone];
              [Examples.PInt 1; Examples.PStr "Alice"; Examples.PStr "Paris"] ].
Proof. repeat split. Qed.

(** Alternating between two tables defeats the cache: of four calls only
    the repeated one is a hit. *)
Example get_df_alternation :
  let get_df := Connection.get_df Examples.shop_libs Examples.shop_db in
  let w1 := snd (get_df "people"%string Connection.init_world) in
  let w2 := snd (get_df "people"%string w1) in
  let w3 := snd (get_df "orders"%string w2) in
  let w4 := snd (get_df "people"%string w3) in
  (Connection.hits (Connection.df_cache w4),
   Connection.misses (Connection.df_cache w4)) = (1, 3)
  /\ fst (get_df "people"%string w1) = inr 0
  /\ fst (get_df "people"%string w3) = inr 2
  /\ List.length (Connection.heap w4) = 3.
Proof. repeat split. Qed.

(** Against C3 as worded: a call with another key does not always
    replace the entry.  The sample file has no table of the name asked
    for second; the query fails, [get_df] raises, one more miss is
    counted, and the cache still holds the table read before, which the
    third call gets from it. *)
Theorem raising_miss_keeps_the_previous_entry :
  let get_df := Connection.get_df Examples.shop_libs Examples.shop_db in
  let w1 := snd (get_df "people"%string Connection.init_world) in
  let w2 := snd (get_df "my table"%string w1) in
  Connection.slot (Connection.df_cache w1)
  = Some ((Examples.shop_db, "people"%string), 0)
  /\ Connection.misses_on (Connection.df_cache w1)
       (Examples.shop_db, "my table"%string)
  /\ fst (get_df "my table"%string w1)
     = inl (Py.OtherError "no such table")
  /\ Connection.slot (Connection.df_cache w2)
     = Some ((Examples.shop_db, "people"%string), 0)
  /\ Connection.misses (Connection.df_cache w2) = 2
  /\ get_df "people"%string w2 = Connection.df_hit w2 0.
Proof.
  cbv zeta. repeat split.
  cbn. intros H. discriminate H.
Qed.

(* ------------------------------------------------------------------ *)
(** ** The sort of the view                                             *)
(* ------------------------------------------------------------------ *)

Section Take.

Context {A : Type}.

Lemma take_app (l : list A) (p q : list nat) :
  Frame.take l (p ++ q) = Frame.take l p ++ Frame.take l q.
Proof. unfold Frame.take. apply flat_map_app. Qed.

Lemma take_cons_some (l : list A) (j : nat) (p : list nat) (x : A) :
  nth_error l j = Some x -> Frame.take l (j :: p) = x :: Frame.take l p.
Proof. intros H. unfold Frame.take; cbn. now rewrite H. Qed.

Lemma take_rev (l : list A) (p : list nat) :
  Frame.take l (rev p) = rev (Frame.take l p).
Proof.
  induction p as [|j p IH]; [reflexivity|].
  cbn [rev]. rewrite take_app, IH.
  change (j :: p) with ([j] ++ p). rewrite take_app, rev_app_distr.
  f_equal. unfold Frame.take; cbn.
  destruct (nth_error l j); reflexivity.
Qed.

Lemma take_map {B : Type} (f : A -> B) (l : list A) (p : list nat) :
  Frame.take (map f l) p = map f (Frame.take l p).
Proof.
  induction p as [|j p IH]; [reflexivity|].
  unfold Frame.take in *. cbn [flat_map].
  rewrite IH, map_app, nth_error_map.
  destruct (nth_error l j); reflexivity.
Qed.

Lemma take_seq_from (pre l : list A) :
  Frame.take (pre ++ l) (seq (List.length pre) (List.length l)) = l.
Proof.
  revert pre. induction l as [|x l IH]; intros pre; [reflexivity|].
  cbn [List.length seq].
  rewrite (take_cons_some (pre ++ x :: l) _ _ x).
  - f_equal. specialize (IH (pre ++ [x])).
    rewrite <- app_assoc, length_app in IH. cbn in IH.
    now rewrite Nat.add_1_r in IH.
  - rewrite nth_error_app2 by lia. now rewrite Nat.sub_diag.
Qed.

Lemma take_seq_all (l : list A) :
  Frame.take l (seq 0 (List.length l)) = l.
Proof. exact (take_seq_from [] l). Qed.

(** Taking the rows at a rearrangement of all positions rearranges the
    rows. *)
Lemma take_perm (l : list A) (p : list nat) :
  Permutation p (seq 0 (List.length l)) ->
  Permutation (Frame.take l p) l.
Proof.
  intros H. rewrite <- (take_seq_all l) at 2.
  unfold Frame.take. now apply Permutation_flat_map.
Qed.

End Take.

Lemma map_fst_combine_seq {B : Type} (l : list B) (a : nat) :
  map fst (combine (seq a (List.length l)) l) = seq a (List.length l).
Proof.
  revert a. induction l as [|x l IH]; intros a; [reflexivity|].
  cbn. now rewrite IH.
Qed.

Lemma in_combine_seq {B : Type} (l : list B) (a j : nat) (x : B) :
  In (j, x) (combine (seq a (List.length l)) l) ->
  a <= j /\ nth_error l (j - a) = Some x.
Proof.
  revert a. induction l as [|y l IH]; intros a H; [contradiction|].
  cbn in H. destruct H as [H|H].
  - injection H as <- <-. split; [lia|]. now rewrite Nat.sub_diag.
  - apply IH in H as [Hle Hn]. split; [lia|].
    replace (j - a) with (S (j - S a)) by lia. exact Hn.
Qed.

Lemma in_with_positions {B : Type} (l : list B) (j : nat) (x : B) :
  In (j, x) (Frame.with_positions l) -> nth_error l j = Some x.
Proof.
  intros H. apply in_combine_seq in H as [_ H].
  now rewrite Nat.sub_0_r in H.
Qed.

Lemma StronglySorted_snoc {B : Type} (R : B -> B -> Prop) (l : list B)
  (x : B) :
  StronglySorted R l -> Forall (fun y => R y x) l ->
  StronglySorted R (l ++ [x]).
Proof.
  induction 1 as [|y l Hs IH Hf]; intros Hx; cbn.
  - repeat constructor.
  - inversion Hx as [|? ? Hyx Hlx]; subst. constructor; [now apply IH|].
    apply Forall_app. split; [assumption|]. now constructor.
Qed.

Lemma StronglySorted_rev {B : Type} (R : B -> B -> Prop) (l : list B) :
  StronglySorted R l -> StronglySorted (fun a b => R b a) (rev l).
Proof.
  induction 1 as [|x l Hs IH Hf]; cbn; [constructor|].
  apply StronglySorted_snoc; [assumption|]. now apply Forall_rev.
Qed.

Section SortEngine.

Context {Cell : Type} {ops : Frame.CellOps Cell}.
Variable argsort : list Cell -> Py.result (list nat).
Hypothesis argsort_sorts : Frame.Sorter argsort.

Local Abbreviation sorted_items := (@Frame.sorted_items Cell).


Lemma nargsort_items (keys : list (option Cell)) (ascending : bool)
  (order : list nat) :
  argsort (Frame.sort_input keys ascending) = inr order ->
  Frame.nargsort argsort keys ascending
  = inr (map fst (sorted_items order keys ascending)
         ++ Frame.nan_idx keys).
Proof.
  unfold Frame.nargsort, Frame.sorted_items, Frame.sort_input.
  intros ->. destruct ascending; rewrite take_map; [reflexivity|].
  now rewrite (map_rev fst).
Qed.

Lemma nargsort_raises (keys : list (option Cell)) (ascending : bool)
  (e : Py.Exc) :
  argsort (Frame.sort_input keys ascending) = inl e ->
  Frame.nargsort argsort keys ascending = inl e.
Proof.
  unfold Frame.nargsort, Frame.sort_input. now intros ->.
Qed.

Lemma sorted_items_perm (keys : list (option Cell)) (ascending : bool)
  (order : list nat) :
  argsort (Frame.sort_input keys ascending) = inr order ->
  Permutation (sorted_items order keys ascending)
              (Frame.non_nan_items keys).
Proof.
  unfold Frame.sorted_items, Frame.sort_input.
  set (items := Frame.non_nan_items keys).
  destruct ascending; intros Hret;
    destruct (argsort_sorts _ _ Hret) as [Hp _].
  - apply take_perm. now rewrite length_map in Hp.
  - rewrite <- Permutation_rev.
    transitivity (rev items); [|symmetry; apply Permutation_rev].
    apply take_perm. now rewrite length_map in Hp.
Qed.

Lemma sorted_items_order (keys : list (option Cell)) (ascending : bool)
  (order : list nat) :
  argsort (Frame.sort_input keys ascending) = inr order ->
  StronglySorted (Spec.key_in_order ascending)
                 (map snd (sorted_items order keys ascending)).
Proof.
  unfold Frame.sorted_items, Frame.sort_input, Spec.key_in_order.
  set (items := Frame.non_nan_items keys).
  destruct ascending; intros Hret;
    destruct (argsort_sorts _ _ Hret) as [_ Hs].
  - rewrite <- take_map. exact Hs.
  - rewrite (map_rev snd), <- take_map.
    apply (StronglySorted_rev (fun a b => Frame.cell_lt b a = false)).
    exact Hs.
Qed.

Lemma split_by_key_perm (ps : list (nat * option Cell)) :
  Permutation
    (map fst (flat_map (fun p => match snd p with
                                 | Some c => [(fst p, c)]
                                 | None => []
                                 end) ps)
     ++ flat_map (fun p => match snd p with
                           | Some _ => []
                           | None => [fst p]
                           end) ps)
    (map fst ps).
Proof.
  induction ps as [|[j [c|]] ps IH]; cbn; [apply perm_nil| |].
  - apply perm_skip, IH.
  - etransitivity; [symmetry; apply Permutation_middle|].
    apply perm_skip, IH.
Qed.

(** Every position is either among the non-missing items or among the
    missing ones. *)
Lemma positions_partition (keys : list (option Cell)) :
  Permutation (map fst (Frame.non_nan_items keys) ++ Frame.nan_idx keys)
              (seq 0 (List.length keys)).
Proof.
  rewrite <- (map_fst_combine_seq keys 0). apply split_by_key_perm.
Qed.

Lemma non_nan_items_keys (keys : list (option Cell)) :
  Forall (fun p => nth_error keys (fst p) = Some (Some (snd p)))
         (Frame.non_nan_items keys).
Proof.
  apply Forall_forall. intros [j c] H.
  unfold Frame.non_nan_items in H. apply in_flat_map in H as [[j' k] [Hin H]].
  cbn in H. destruct k as [c'|]; [|contradiction].
  destruct H as [H|[]]. injection H as -> ->.
  cbn. now apply in_with_positions.
Qed.

Lemma nargsort_perm (keys : list (option Cell)) (ascending : bool)
  (order : list nat) :
  argsort (Frame.sort_input keys ascending) = inr order ->
  Permutation (map fst (sorted_items order keys ascending)
               ++ Frame.nan_idx keys)
              (seq 0 (List.length keys)).
Proof.
  intros Hret.
  etransitivity; [|apply positions_partition].
  apply Permutation_app_tail, Permutation_map.
  now apply sorted_items_perm.
Qed.

(** The keys of the rows taken at the positions of items are the keys
    of the items. *)
Lemma take_rows_keys (i : nat) (rows : list (list Cell))
  (items : list (nat * Cell)) :
  Forall (fun p => nth_error (map (Frame.key_at i) rows) (fst p)
                   = Some (Some (snd p))) items ->
  map (Frame.key_at i) (Frame.take rows (map fst items))
  = map Some (map snd items).
Proof.
  induction 1 as [|[j c] items Hj _ IH]; [reflexivity|].
  cbn [map fst snd] in *. rewrite nth_error_map in Hj.
  destruct (nth_error rows j) as [row|] eqn:Hrow; [|discriminate Hj].
  injection Hj as Hj.
  rewrite (take_cons_some rows j _ row Hrow). cbn [map]. now rewrite Hj, IH.
Qed.

(** The rows with a missing key follow in table order. *)
Lemma take_nan_rows_from (i : nat) (pre rows : list (list Cell)) :
  Frame.take (pre ++ rows)
    (flat_map (fun p : nat * option Cell =>
                 match snd p with
                 | Some _ => []
                 | None => [fst p]
                 end)
       (combine (seq (List.length pre) (List.length rows))
                (map (Frame.key_at i) rows)))
  = filter (Spec.key_missing i) rows.
Proof.
  revert pre. induction rows as [|row rows IH]; intros pre; [reflexivity|].
  cbn [List.length seq map combine flat_map filter snd fst].
  specialize (IH (pre ++ [row])).
  rewrite <- app_assoc, length_app, Nat.add_1_r in IH. cbn [app] in IH.
  unfold Spec.key_missing at 1.
  destruct (Frame.key_at i row); cbn [app]; [exact IH|].
  rewrite (take_cons_some (pre ++ row :: rows) _ _ row).
  - now rewrite IH.
  - rewrite nth_error_app2 by lia. now rewrite Nat.sub_diag.
Qed.

Lemma take_nan_rows (i : nat) (rows : list (list Cell)) :
  Frame.take rows (Frame.nan_idx (map (Frame.key_at i) rows))
  = filter (Spec.key_missing i) rows.
Proof.
  unfold Frame.nan_idx, Frame.with_positions. rewrite length_map.
  exact (take_nan_rows_from i [] rows).
Qed.

(** [sort_values] on a frame that has the column, when [argsort]
    returns. *)
Lemma sort_values_rows (df : Frame.DataFrame Cell) (c : string) (i : nat)
  (ascending : bool) (order : list nat) :
  Frame.column_position c (Frame.columns df) = inr i ->
  let keys := map (Frame.key_at i) (Frame.rows df) in
  argsort (Frame.sort_input keys ascending) = inr order ->
  let present :=
    Frame.take (Frame.rows df)
      (map fst (sorted_items order keys ascending)) in
  Frame.sort_values argsort df c ascending
  = inr (Frame.mkDF (Frame.columns df)
           (present ++ filter (Spec.key_missing i) (Frame.rows df)))
  /\ Permutation (present ++ filter (Spec.key_missing i) (Frame.rows df))
                 (Frame.rows df)
  /\ map (Frame.key_at i) present
     = map Some (map snd (sorted_items order keys ascending))
  /\ StronglySorted (Spec.key_in_order ascending)
                    (map snd (sorted_items order keys ascending)).
Proof.
  intros Hc. cbv zeta. intros Hret. unfold Frame.sort_values. rewrite Hc.
  set (keys := map (Frame.key_at i) (Frame.rows df)) in *.
  rewrite (nargsort_items keys ascending order Hret).
  repeat apply conj.
  - subst keys. now rewrite take_app, take_nan_rows.
  - subst keys. rewrite <- take_nan_rows, <- take_app.
    apply take_perm.
    set (keys := map (Frame.key_at i) (Frame.rows df)) in *.
    replace (List.length (Frame.rows df)) with (List.length keys)
      by apply length_map.
    now apply nargsort_perm.
  - apply take_rows_keys.
    eapply Permutation_Forall;
      [symmetry; now apply sorted_items_perm|apply non_nan_items_keys].
  - now apply sorted_items_order.
Qed.

(** When [argsort] raises, so does [sort_values]. *)
Lemma sort_values_raises (df : Frame.DataFrame Cell) (c : string) (i : nat)
  (ascending : bool) (e : Py.Exc) :
  Frame.column_position c (Frame.columns df) = inr i ->
  argsort (Frame.sort_input (map (Frame.key_at i) (Frame.rows df))
             ascending) = inl e ->
  Frame.sort_values argsort df c ascending = inl e.
Proof.
  intros Hc Hret. unfold Frame.sort_values. rewrite Hc.
  now rewrite (nargsort_raises _ _ _ Hret).
Qed.

End SortEngine.

(** *** Two procedures that meet the contract of [argsort] *)

Section InsertionSorters.

Context {Cell : Type} {ops : Frame.CellOps Cell}.

(** [cell_lt] is a strict weak order: asymmetric, and "not smaller" is
    transitive. *)
Hypothesis lt_asym :
  forall a b : Cell, Frame.cell_lt a b = true -> Frame.cell_lt b a = false.
Hypothesis ge_trans :
  forall a b c : Cell,
    Frame.cell_lt a b = false -> Frame.cell_lt b c = false ->
    Frame.cell_lt a c = false.


Lemma insert_by_perm (x : nat * Cell) (l : list (nat * Cell)) :
  Permutation (Examples.insert_by Frame.cell_lt x l) (x :: l).
Proof.
  induction l as [|y l IH]; cbn; [reflexivity|].
  destruct (Frame.cell_lt (snd y) (snd x)); [|reflexivity].
  etransitivity; [apply perm_skip, IH|apply perm_swap].
Qed.

Lemma insert_by_sorted (x : nat * Cell) (l : list (nat * Cell)) :
  StronglySorted Frame.pair_le l ->
  StronglySorted Frame.pair_le (Examples.insert_by Frame.cell_lt x l).
Proof.
  induction 1 as [|y l Hs IH Hf]; cbn; [repeat constructor|].
  destruct (Frame.cell_lt (snd y) (snd x)) eqn:Hyx.
  - constructor; [assumption|].
    eapply Permutation_Forall; [symmetry; apply insert_by_perm|].
    constructor; [|assumption]. unfold Frame.pair_le. now apply lt_asym.
  - constructor; [now constructor|].
    constructor; [exact Hyx|].
    eapply Forall_impl; [|exact Hf]. unfold Frame.pair_le. intros z Hz.
    now apply (ge_trans _ (snd y)).
Qed.

Lemma fold_right_insert_perm (l : list (nat * Cell)) :
  Permutation (fold_right (Examples.insert_by Frame.cell_lt) [] l) l.
Proof.
  induction l as [|x l IH]; cbn; [reflexivity|].
  etransitivity; [apply insert_by_perm|now apply perm_skip].
Qed.

Lemma fold_right_insert_sorted (l : list (nat * Cell)) :
  StronglySorted Frame.pair_le (fold_right (Examples.insert_by Frame.cell_lt) [] l).
Proof.
  induction l as [|x l IH]; cbn; [constructor|now apply insert_by_sorted].
Qed.

Lemma fold_left_insert_perm (l acc : list (nat * Cell)) :
  Permutation
    (fold_left (fun a x => Examples.insert_by Frame.cell_lt x a) l acc)
    (l ++ acc).
Proof.
  revert acc. induction l as [|x l IH]; intros acc; cbn; [reflexivity|].
  etransitivity; [apply IH|].
  etransitivity; [apply Permutation_app_head, insert_by_perm|].
  symmetry. apply Permutation_middle.
Qed.

Lemma fold_left_insert_sorted (l acc : list (nat * Cell)) :
  StronglySorted Frame.pair_le acc ->
  StronglySorted Frame.pair_le
    (fold_left (fun a x => Examples.insert_by Frame.cell_lt x a) l acc).
Proof.
  revert acc. induction l as [|x l IH]; intros acc H; cbn; [assumption|].
  now apply IH, insert_by_sorted.
Qed.

Lemma take_values_of_pairs (vals : list Cell) (ps : list (nat * Cell)) :
  Forall (fun p => nth_error vals (fst p) = Some (snd p)) ps ->
  Frame.take vals (map fst ps) = map snd ps.
Proof.
  induction 1 as [|[j v] ps Hj _ IH]; [reflexivity|].
  cbn [map fst snd] in *. rewrite (take_cons_some vals j _ v Hj).
  now rewrite IH.
Qed.

Lemma pairs_sorted_values (ps : list (nat * Cell)) :
  StronglySorted Frame.pair_le ps ->
  StronglySorted (fun a b => Frame.cell_lt b a = false) (map snd ps).
Proof.
  induction 1 as [|p ps Hs IH Hf]; cbn; constructor; [assumption|].
  apply Forall_map. exact Hf.
Qed.

(** Any sorted rearrangement of the positioned values answers
    [argsort]. *)
Lemma sorted_pairs_answer (vals : list Cell) (ps : list (nat * Cell)) :
  Permutation ps (Frame.with_positions vals) ->
  StronglySorted Frame.pair_le ps ->
  Permutation (map fst ps) (seq 0 (List.length vals))
  /\ StronglySorted (fun a b => Frame.cell_lt b a = false)
                    (Frame.take vals (map fst ps)).
Proof.
  intros Hp Hs. split.
  - rewrite <- (map_fst_combine_seq vals 0). now apply Permutation_map.
  - rewrite take_values_of_pairs; [now apply pairs_sorted_values|].
    eapply Permutation_Forall; [symmetry; exact Hp|].
    apply Forall_forall. intros [j v] H. now apply in_with_positions.
Qed.

Lemma stable_argsort_answer (vals : list Cell) :
  Permutation (Examples.stable_argsort Frame.cell_lt vals)
              (seq 0 (List.length vals))
  /\ StronglySorted (fun a b => Frame.cell_lt b a = false)
       (Frame.take vals (Examples.stable_argsort Frame.cell_lt vals)).
Proof.
  apply sorted_pairs_answer.
  - apply fold_right_insert_perm.
  - apply fold_right_insert_sorted.
Qed.

Lemma stable_argsort_sorts :
  Frame.Sorter (fun vals => inr (Examples.stable_argsort Frame.cell_lt vals)).
Proof.
  intros vals order H. injection H as <-. apply stable_argsort_answer.
Qed.

Lemma reversing_argsort_sorts :
  Frame.Sorter (Examples.reversing_argsort Frame.cell_lt).
Proof.
  intros vals order H. injection H as <-. apply sorted_pairs_answer.
  - etransitivity; [apply fold_left_insert_perm|]. now rewrite app_nil_r.
  - apply fold_left_insert_sorted. constructor.
Qed.

End InsertionSorters.

(** *** The order of the sample values *)

Lemma string_compare_not_lt_trans (a b c : string) :
  String.compare a b <> Lt -> String.compare b c <> Lt ->
  String.compare a c <> Lt.
Proof.
  revert b c. induction a as [|x a IH]; intros [|y b] [|z c]; cbn;
    try congruence.
  unfold Ascii.compare.
  destruct (N.compare_spec (N_of_ascii x) (N_of_ascii y)) as [Hxy|Hxy|Hxy],
           (N.compare_spec (N_of_ascii y) (N_of_ascii z)) as [Hyz|Hyz|Hyz],
           (N.compare_spec (N_of_ascii x) (N_of_ascii z)) as [Hxz|Hxz|Hxz];
    try congruence; try (exfalso; lia); intros; try discriminate.
  now apply (IH b c).
Qed.

Lemma string_ltb_asym (a b : string) :
  String.ltb a b = true -> String.ltb b a = false.
Proof.
  unfold String.ltb. rewrite (String.compare_antisym a b).
  destruct (String.compare b a); cbn; congruence.
Qed.

Lemma string_ltb_ge_trans (a b c : string) :
  String.ltb a b = false -> String.ltb b c = false -> String.ltb a c = false.
Proof.
  unfold String.ltb. intros Hab Hbc.
  pose proof (string_compare_not_lt_trans a b c) as H.
  destruct (String.compare a b), (String.compare b c),
    (String.compare a c); try discriminate; try reflexivity;
    exfalso; apply H; try discriminate; reflexivity.
Qed.

Lemma value_lt_asym (a b : Examples.PyValue) :
  Examples.value_lt a b = true -> Examples.value_lt b a = false.
Proof.
  destruct a, b; cbn; try congruence.
  - intros H. apply Z.ltb_lt in H. apply Z.ltb_ge. lia.
  - apply string_ltb_asym.
Qed.

Lemma value_lt_ge_trans (a b c : Examples.PyValue) :
  Examples.value_lt a b = false -> Examples.value_lt b c = false ->
  Examples.value_lt a c = false.
Proof.
  destruct a, b, c; cbn; try congruence.
  - intros H1 H2. apply Z.ltb_ge in H1, H2. apply Z.ltb_ge. lia.
  - apply string_ltb_ge_trans.
Qed.

(** The sample answers of [argsort] keep numpy's contract. *)
Lemma numpy_argsort_sorts : Frame.Sorter Examples.numpy_argsort.
Proof.
  intros vals order. unfold Examples.numpy_argsort.
  destruct (existsb Examples.is_int vals && existsb Examples.is_text vals);
    [discriminate|].
  intros H. injection H as <-.
  exact (stable_argsort_answer (ops := Examples.PyValueOps)
           value_lt_asym value_lt_ge_trans vals).
Qed.

Lemma sample_reversing_argsort_sorts :
  Frame.Sorter (Examples.reversing_argsort Examples.value_lt).
Proof.
  exact (reversing_argsort_sorts (ops := Examples.PyValueOps)
           value_lt_asym value_lt_ge_trans).
Qed.

(** *** The view *)

Section SortInput.

Context {Cell : Type} {ops : Frame.CellOps Cell}.

Lemma map_snd_combine_seq (l : list (option Cell)) (a : nat) :
  map snd (combine (seq a (List.length l)) l) = l.
Proof.
  revert a. induction l as [|x l IH]; intros a; [reflexivity|].
  cbn. now rewrite IH.
Qed.

Lemma non_nan_values (ps : list (nat * option Cell)) :
  map snd (flat_map (fun p => match snd p with
                              | Some c => [(fst p, c)]
                              | None => []
                              end) ps)
  = flat_map (fun k => match k with
                       | Some c => [c]
                       | None => []
                       end) (map snd ps).
Proof.
  induction ps as [|[j [c|]] ps IH]; cbn; [reflexivity| |exact IH].
  now rewrite IH.
Qed.

(** What [argsort] is asked to sort: the values of the column that are
    not missing. *)
Lemma sort_input_values (keys : list (option Cell)) (ascending : bool) :
  Permutation (Frame.sort_input keys ascending)
    (flat_map (fun k => match k with
                        | Some c => [c]
                        | None => []
                        end) keys).
Proof.
  unfold Frame.sort_input.
  assert (H : map snd (Frame.non_nan_items keys)
              = flat_map (fun k => match k with
                                   | Some c => [c]
                                   | None => []
                                   end) keys).
  { unfold Frame.non_nan_items, Frame.with_positions.
    now rewrite non_nan_values, map_snd_combine_seq. }
  destruct ascending; [now rewrite H|].
  rewrite map_rev, H. symmetry. apply Permutation_rev.
Qed.

End SortInput.



Example people_by_city_descending :
  Frame.filtered_sorted_df Examples.numpy_argsort
    Examples.people (Some "city"%string) false None
  = inr (Frame.mkDF ["id"; "name"; "city"]%string
      [ [Examples.PInt 1; Examples.PStr "Alice"; Examples.PStr "Paris"];
        [Examples.PInt 4; Examples.PStr "Carol"; Examples.PStr "Paris"];
        [Examples.PInt 2; Examples.PStr "bob"; Examples.PStr "Berlin"];
        [Examples.PInt 3; Examples.PStr "ALICIA"; Examples.PNone] ]).
Proof. reflexivity. Qed.


(** The contract of [argsort] leaves the order of equal values open: a
    procedure that keeps the contract may swap the two rows for Paris,
    which a stable sort keeps in table order.  pandas documents its
    default [kind='quicksort'] as not stable, and
    [get_filtered_sorted_df] asks for no other. *)
Lemma argsort_contract_leaves_ties_open :
  exists argsort : list Examples.PyValue -> Py.result (list nat),
    Frame.Sorter argsort
    /\ Frame.filtered_sorted_df argsort Examples.people
         (Some "city"%string) true (Some "paris"%string)
       = inr (Frame.mkDF ["id"; "name"; "city"]%string
           [ [Examples.PInt 4; Examples.PStr "Carol"; Examples.PStr "Paris"];
             [Examples.PInt 1; Examples.PStr "Alice"; Examples.PStr "Paris"] ])
    /\ Spec.stable_sorted_rows 2 true
         (Frame.rows (Frame.filter_rows "paris" Examples.people))
       = [ [Examples.PInt 1; Examples.PStr "Alice"; Examples.PStr "Paris"];
           [Examples.PInt 4; Examples.PStr "Carol"; Examples.PStr "Paris"] ]
    /\ ~ Spec.view_is_stable_sort argsort Examples.people "city" 2 true
           (Some "paris"%string).
Proof.
  exists (Examples.reversing_argsort Examples.value_lt).
  split; [exact sample_reversing_argsort_sorts|].
  split; [reflexivity|]. split; [reflexivity|].
  unfold Spec.view_is_stable_sort. intros H. vm_compute in H.
  discriminate H.
Qed.

(** With a procedure that keeps equal values in order, the view at the
    same input is the stable sort. *)
Example view_sort_stable_with_stable_argsort :
  Spec.view_is_stable_sort Examples.numpy_argsort
    Examples.people "city" 2 true (Some "paris"%string).
Proof. reflexivity. Qed.

(* ------------------------------------------------------------------ *)
(** ** The distribution fitter                                          *)
(* ------------------------------------------------------------------ *)

(** *** The order of binary64 values *)


Lemma SFleb_ltb_trans (x y z : spec_float) :
  SFleb x y = true -> SFltb y z = true -> SFltb x z = true.
Proof.
  unfold SFleb, SFltb.
  destruct x as [sx|sx| |sx mx ex], y as [sy|sy| |sy my ey],
           z as [sz|sz| |sz mz ez]; cbn;
    repeat match goal with s : bool |- _ => destruct s end; cbn;
    try discriminate; try reflexivity;
    change (Pos.compare_cont Eq) with Pos.compare;
    sf_compare_cases; intros; try discriminate; try reflexivity;
    exfalso; lia.
Qed.

Lemma SFltb_leb (x y : spec_float) : SFltb x y = true -> SFleb x y = true.
Proof.
  unfold SFltb, SFleb. destruct (SFcompare x y) as [[]|]; congruence.
Qed.

Lemma SFltb_irrefl (x : spec_float) : SFltb x x = false.
Proof.
  unfold SFltb. destruct x as [s|s| |s m e]; cbn; try destruct s;
    try reflexivity; rewrite Z.compare_refl;
    change (Pos.compare_cont Eq) with Pos.compare;
    rewrite Pos.compare_refl; reflexivity.
Qed.

Lemma float_ltb_irrefl (x : float) : (x <? x)%float = false.
Proof. rewrite ltb_spec. apply SFltb_irrefl. Qed.

Lemma float_leb_ltb_trans (x y z : float) :
  (x <=? y)%float = true -> (y <? z)%float = true -> (x <? z)%float = true.
Proof. rewrite leb_spec, !ltb_spec. apply SFleb_ltb_trans. Qed.

Lemma float_ltb_trans (x y z : float) :
  (x <? y)%float = true -> (y <? z)%float = true -> (x <? z)%float = true.
Proof.
  intros Hxy. apply float_leb_ltb_trans.
  rewrite leb_spec. apply SFltb_leb. now rewrite <- ltb_spec.
Qed.

(** *** The loop over the candidates *)

Section FitLoop.

Variable scipy : Fitter.SciPy.
Variable data : list float.

Local Abbreviation evaluate := (Fitter.evaluate scipy data).
Local Abbreviation evaluates := (Fitter.evaluates scipy data).
Local Abbreviation loop_inv := (Fitter.loop_inv scipy data).



Lemma loop_inv_init : loop_inv [] Fitter.init_best.
Proof.
  split; [intros d p a []|]. left. repeat split.
Qed.

Lemma not_true_false (b : bool) : (b = true -> False) -> b = false.
Proof. destruct b; [intros H; now destruct H|reflexivity]. Qed.

(** One iteration keeps the invariant. *)
Lemma try_candidate_inv (done : list string) (b b' : Fitter.Best)
  (d : string) :
  loop_inv done b ->
  Fitter.try_candidate scipy data d b = inr b' ->
  loop_inv (done ++ [d]) b' /\ evaluates d.
Proof.
  intros [Hmin Hsel]. unfold Fitter.try_candidate.
  destruct (evaluate d) as [e|[params aic]] eqn:Hev; [discriminate|].
  intros H. injection H as <-. split; [|now exists params, aic].
  destruct (aic <? Fitter.best_aic b)%float eqn:Hlt.
  - (* the candidate becomes the best *)
    assert (Hbelow : (aic <? infinity)%float = true).
    { destruct Hsel as [(_ & _ & Hinf)|(pre & d0 & post & p0 & _ & _ & _ & _
                                        & Hfin & _)].
      - now rewrite <- Hinf.
      - now apply (float_ltb_trans _ (Fitter.best_aic b)). }
    split; cbn [Fitter.best_aic Fitter.best_dist Fitter.best_params].
    + intros d' p' a' Hin Hev'. apply in_app_or in Hin as [Hin|[<-|[]]].
      * apply not_true_false. intros Hc.
        pose proof (float_ltb_trans _ _ _ Hc Hlt) as Hc'.
        now rewrite (Hmin d' p' a' Hin Hev') in Hc'.
      * rewrite Hev in Hev'. injection Hev' as _ <-.
        apply float_ltb_irrefl.
    + right. exists done, d, [], params. repeat split; try assumption.
      intros d' p' a' Hin Hev'. apply not_true_false. intros Hc.
      pose proof (float_leb_ltb_trans _ _ _ Hc Hlt) as Hc'.
      now rewrite (Hmin d' p' a' Hin Hev') in Hc'.
  - (* the best stays *)
    split.
    + intros d' p' a' Hin Hev'. apply in_app_or in Hin as [Hin|[<-|[]]].
      * now apply (Hmin d' p' a').
      * rewrite Hev in Hev'. now injection Hev' as _ <-.
    + destruct Hsel as [Hnone|(pre & d0 & post & p0 & -> & Hrest)];
        [now left|].
      right. exists pre, d0, (post ++ [d]), p0.
      split; [now rewrite <- app_assoc|exact Hrest].
Qed.

(** The loop returns exactly when every candidate returns, and then the
    invariant holds at its end; otherwise it raises what the first
    failing candidate raised, the candidates after it untried. *)
Lemma fit_loop_inv (names done : list string) (b : Fitter.Best) :
  loop_inv done b ->
  match Fitter.fit_loop scipy data names b with
  | inr b' => loop_inv (done ++ names) b' /\ Forall evaluates names
  | inl e =>
      exists pre d post,
        names = pre ++ d :: post
        /\ Forall evaluates pre
        /\ evaluate d = inl e
  end.
Proof.
  revert done b. induction names as [|d names IH]; intros done b Hinv; cbn.
  - rewrite app_nil_r. split; [assumption|constructor].
  - destruct (Fitter.try_candidate scipy data d b) as [e|b1] eqn:Htry.
    + exists [], d, names. repeat split; [constructor|].
      unfold Fitter.try_candidate in Htry.
      destruct (evaluate d) as [e'|[p a]]; [congruence|discriminate].
    + destruct (try_candidate_inv done b b1 d Hinv Htry) as [Hinv1 Hd].
      specialize (IH (done ++ [d]) b1 Hinv1).
      rewrite <- app_assoc in IH. cbn [app] in IH.
      destruct (Fitter.fit_loop scipy data names b1) as [e|b'].
      * destruct IH as (pre & d' & post & -> & Hpre & Hev).
        exists (d :: pre), d', post. repeat split; [now constructor|assumption].
      * destruct IH as [Hfinal Hall]. split; [assumption|now constructor].
Qed.

(** Conversely, a failing candidate after candidates that return makes
    the loop raise its exception. *)
Lemma fit_loop_raises (pre post : list string) (d : string) (e : Py.Exc)
  (b : Fitter.Best) :
  Forall evaluates pre -> evaluate d = inl e ->
  Fitter.fit_loop scipy data (pre ++ d :: post) b = inl e.
Proof.
  intros Hpre Hev. revert b.
  induction Hpre as [|d0 pre (p & a & Hd0) _ IH]; intros b; cbn.
  - unfold Fitter.try_candidate. now rewrite Hev.
  - unfold Fitter.try_candidate at 1. rewrite Hd0. apply IH.
Qed.

End FitLoop.

(** *** The worker *)

Lemma evaluate_inr (scipy : Fitter.SciPy) (data : list float) (d : string)
  (params : list float) (aic : float) :
  Fitter.evaluate scipy data d = inr (params, aic) ->
  exists ll, Fitter.fit scipy d data = inr params
             /\ Fitter.logpdf_sum scipy d data params = inr ll
             /\ aic = Fitter.aic_of params ll.
Proof.
  unfold Fitter.evaluate.
  destruct (Fitter.fit scipy d data) as [e|p]; [discriminate|].
  destruct (Fitter.logpdf_sum scipy d data p) as [e|ll] eqn:Hll;
    [discriminate|].
  intros H. injection H as <- <-. now exists ll.
Qed.

(** The loop over the catalogue, when every candidate returns and one
    has an AIC below [+inf]: it ends with one candidate selected. *)
Lemma fit_loop_selects (scipy : Fitter.SciPy) (data : list float) :
  Forall (Fitter.evaluates scipy data) Fitter.dist_names ->
  Exists (Spec.candidate_fits scipy data) Fitter.dist_names ->
  exists b pre d post params,
    Fitter.fit_loop scipy data Fitter.dist_names Fitter.init_best = inr b
    /\ Fitter.dist_names = pre ++ d :: post
    /\ Fitter.best_dist b = Some d
    /\ Fitter.best_params b = Some params
    /\ Fitter.evaluate scipy data d = inr (params, Fitter.best_aic b)
    /\ (forall d' params' aic',
          In d' Fitter.dist_names ->
          Fitter.evaluate scipy data d' = inr (params', aic') ->
          (aic' <? Fitter.best_aic b)%float = false)
    /\ (forall d' params' aic',
          In d' pre ->
          Fitter.evaluate scipy data d' = inr (params', aic') ->
          (aic' <=? Fitter.best_aic b)%float = false).
Proof.
  intros Hall Hsome.
  pose proof (fit_loop_inv scipy data Fitter.dist_names []
                Fitter.init_best (loop_inv_init _ _)) as Hloop.
  destruct (Fitter.fit_loop scipy data Fitter.dist_names Fitter.init_best)
    as [e|b].
  - exfalso. destruct Hloop as (pre & d & post & Hn & _ & Hev).
    rewrite Forall_forall in Hall.
    destruct (Hall d) as (p & a & Hd); [|congruence].
    rewrite Hn. apply in_or_app. right. now left.
  - destruct Hloop as [[Hmin Hsel] _]. cbn [app] in *.
    destruct Hsel as [(_ & _ & Hinf)|(pre & d & post & params & Hn & Hd & Hp
                                      & Hev & _ & Hfirst)].
    + exfalso. apply Exists_exists in Hsome as (d & Hin & p & a & Hev & Hlt).
      rewrite <- Hinf, (Hmin d p a Hin Hev) in Hlt. discriminate Hlt.
    + exists b, pre, d, post, params. repeat split; assumption.
Qed.

(** The AIC that the code computes is the criterion [2*k - 2*ll] of
    the specification. *)
Lemma aic_of_spec (params : list float) (ll : float) :
  Fitter.aic_of params ll = Spec.aic (List.length params) ll.
Proof.
  unfold Fitter.aic_of, Fitter.float_of_nat, Spec.aic, Spec.count_to_float.
  now rewrite Nat2Z.inj_mul.
Qed.

Lemma evaluate_of_calls (scipy : Fitter.SciPy) (data : list float)
  (d : string) (params : list float) (ll : float) :
  Fitter.fit scipy d data = inr params ->
  Fitter.logpdf_sum scipy d data params = inr ll ->
  Fitter.evaluate scipy data d
  = inr (params, Spec.aic (List.length params) ll).
Proof.
  intros Hfit Hll. unfold Fitter.evaluate.
  now rewrite Hfit, Hll, aic_of_spec.
Qed.




(** Log-normal and gamma tie at the lowest AIC, 45; log-normal is listed
    first and is shown. *)
Example tie_goes_to_first_listed :
  Fitter._worker Examples.steady_scipy Examples.twelve_values
  = Fitter.ShowBestFit (Some "lognorm"%string) (Some [1; 1; 1]%float)
  /\ map (fun d => option_map snd
            (match Fitter.evaluate Examples.steady_scipy
                     (Fitter.dropna Examples.twelve_values) d with
             | inr r => Some r
             | inl _ => None
             end))
       ["norm"; "lognorm"; "gamma"]%string
     = [Some 46; Some 45; Some 45]%float.
Proof. split; reflexivity. Qed.

(** *** The request as a whole *)

(** C1, as the code has it.  The request is refused with the row-count
    box exactly when the frame has fewer than 10 rows, missing values
    counted.  Otherwise the worker ends in the error box with [e] exactly
    when some candidate raises [e] and every candidate listed before it
    returns: the first exception ends the loop, whatever fitted before.
    And when no candidate raises and one of them has an AIC below [+inf],
    a fitted distribution of the catalogue is shown. *)
Theorem fit_request_outcomes (scipy : Fitter.SciPy) (col : list float) :
  let data := Fitter.dropna col in
  let outcome := Fitter.on_data_menu_best_fit scipy col in
  (outcome = Fitter.TooFewRowsBox 10 <-> List.length col < 10)
  /\ (10 <= List.length col ->
      forall e,
        outcome = Fitter.Ran (Fitter.ErrorBox e) <->
        exists pre d post,
          Fitter.dist_names = pre ++ d :: post
          /\ Forall (Fitter.evaluates scipy data) pre
          /\ Fitter.evaluate scipy data d = inl e)
  /\ (10 <= List.length col ->
      Forall (Fitter.evaluates scipy data) Fitter.dist_names ->
      Exists (Spec.candidate_fits scipy data) Fitter.dist_names ->
      exists d params,
        In d Fitter.dist_names
        /\ Fitter.fit scipy d data = inr params
        /\ outcome = Fitter.Ran (Fitter.ShowBestFit (Some d) (Some params))).
Proof.
  cbv zeta.
  unfold Fitter.on_data_menu_best_fit, Fitter.show_column_selection_dialog.
  destruct (Nat.ltb_spec (List.length col) 10) as [Hlt|Hge];
    (split; [|split]); try (intros; lia).
  - split; [intros _; assumption|reflexivity].
  - split; [discriminate|lia].
  - intros _ e. split.
    + intros H. injection H as H. unfold Fitter._worker in H.
      pose proof (fit_loop_inv scipy (Fitter.dropna col) Fitter.dist_names
                    [] Fitter.init_best (loop_inv_init _ _)) as Hloop.
      destruct (Fitter.fit_loop scipy (Fitter.dropna col) Fitter.dist_names
                  Fitter.init_best) as [e'|b]; [|discriminate H].
      injection H as ->. exact Hloop.
    + intros (pre & d & post & Hn & Hpre & Hev).
      unfold Fitter._worker. rewrite Hn.
      now rewrite (fit_loop_raises scipy (Fitter.dropna col) pre post d e).
  - intros _ Hall Hsome.
    destruct (fit_loop_selects scipy (Fitter.dropna col) Hall Hsome)
      as (b & pre & d & post & params & Hloop & Hn & Hd & Hp & Hev & _).
    destruct (evaluate_inr _ _ _ _ _ Hev) as (ll & Hfit & _).
    exists d, params. unfold Fitter._worker. rewrite Hloop, Hd, Hp.
    repeat split; [|assumption].
    rewrite Hn. apply in_or_app. right. now left.
Qed.

(** When every candidate returns and none has an AIC below [+inf] (each
    is [+inf] or a NaN), the worker raises nothing: it hands on "no
    distribution, no parameters". *)
Lemma worker_without_usable_aic (scipy : Fitter.SciPy) (col : list float) :
  Forall (Fitter.evaluates scipy (Fitter.dropna col)) Fitter.dist_names ->
  (forall d, In d Fitter.dist_names ->
             ~ Spec.candidate_fits scipy (Fitter.dropna col) d) ->
  Fitter._worker scipy col = Fitter.ShowBestFit None None.
Proof.
  intros Hall Hnone.
  pose proof (fit_loop_inv scipy (Fitter.dropna col) Fitter.dist_names []
                Fitter.init_best (loop_inv_init _ _)) as Hloop.
  unfold Fitter._worker.
  destruct (Fitter.fit_loop scipy (Fitter.dropna col) Fitter.dist_names
              Fitter.init_best) as [e|b].
  - exfalso. destruct Hloop as (pre & d & post & Hn & _ & Hev).
    rewrite Forall_forall in Hall.
    destruct (Hall d) as (p & a & Hd); [|congruence].
    rewrite Hn. apply in_or_app. right. now left.
  - destruct Hloop as [[_ Hsel] _]. cbn [app] in Hsel.
    destruct Hsel as [(-> & -> & _)|(pre & d & post & params & Hn & _ & _
                                     & Hev & Hfin & _)]; [reflexivity|].
    exfalso. apply (Hnone d).
    + rewrite Hn. apply in_or_app. right. now left.
    + now exists params, (Fitter.best_aic b).
Qed.

(** The statement as worded fails on a frame of ten rows with nine
    values: nine non-missing values are fewer than 10, yet the row count
    passes the test, the candidates are fitted on the nine values and a
    distribution is shown. *)
Lemma fit_error_counterexample :
  List.length Examples.nine_of_ten = 10
  /\ List.length (Fitter.dropna Examples.nine_of_ten) = 9
  /\ Fitter.on_data_menu_best_fit Examples.steady_scipy Examples.nine_of_ten
     = Fitter.Ran (Fitter.ShowBestFit (Some "lognorm"%string)
                                      (Some [1; 1; 1]%float))
  /\ ~ Spec.fit_error_statement Examples.steady_scipy Examples.nine_of_ten.
Proof.
  repeat apply conj; try reflexivity.
  unfold Spec.fit_error_statement. intros [_ H].
  assert (Hf : Spec.fitter_fails
                 (Fitter.on_data_menu_best_fit Examples.steady_scipy
                    Examples.nine_of_ten)).
  { apply H. left. vm_compute. lia. }
  vm_compute in Hf. exact Hf.
Qed.

(** It fails in the other direction too: twelve values, the normal
    family fits, the fit of the exponential family raises, and the
    request ends in the error box. *)
Lemma one_failing_candidate_fails_the_fit :
  List.length (Fitter.dropna Examples.twelve_values) = 12
  /\ Spec.candidate_fits Examples.expon_raises_scipy
       (Fitter.dropna Examples.twelve_values) "norm"
  /\ Fitter.on_data_menu_best_fit Examples.expon_raises_scipy
       Examples.twelve_values
     = Fitter.Ran (Fitter.ErrorBox (Py.OtherError "fit did not converge"))
  /\ ~ Spec.fit_error_statement Examples.expon_raises_scipy
         Examples.twelve_values.
Proof.
  assert (Hnorm : Spec.candidate_fits Examples.expon_raises_scipy
                    (Fitter.dropna Examples.twelve_values) "norm")
    by (eexists; eexists; split; reflexivity).
  repeat apply conj; try reflexivity; [exact Hnorm|].
  unfold Spec.fit_error_statement. intros [H _].
  destruct H as [H|H].
  - vm_compute. exact I.
  - vm_compute in H. lia.
  - apply (H "norm"%string); [now left|exact Hnorm].
Qed.

(** No candidate with a usable AIC: nothing is raised. *)
Example nan_likelihoods_show_nothing :
  Fitter.on_data_menu_best_fit Examples.nan_scipy Examples.twelve_values
  = Fitter.Ran (Fitter.ShowBestFit None None).
Proof. reflexivity. Qed.

(* ------------------------------------------------------------------ *)
(** ** Pages                                                            *)
(* ------------------------------------------------------------------ *)

Lemma ceil_div_bounds (a b : Z) :
  (0 < b)%Z ->
  ((Paging.ceil_div a b - 1) * b < a <= Paging.ceil_div a b * b)%Z.
Proof.
  intros Hb. unfold Paging.ceil_div.
  pose proof (Z.div_mod (- a) b ltac:(lia)) as Hdm.
  pose proof (Z.mod_pos_bound (- a) b Hb) as Hm. nia.
Qed.

Lemma ceil_div_nonneg (a b : Z) :
  (0 <= a)%Z -> (0 < b)%Z -> (0 <= Paging.ceil_div a b)%Z.
Proof. intros Ha Hb. pose proof (ceil_div_bounds a b Hb). nia. Qed.

(** With bounds that are not negative, a slice skips and then takes. *)
Lemma py_slice_nonneg {A : Type} (l : list A) (a s : Z) :
  (0 <= a)%Z -> (0 <= s)%Z ->
  Paging.py_slice l a (a + s)
  = firstn (Z.to_nat s) (skipn (Z.to_nat a) l).
Proof.
  intros Ha Hs. unfold Paging.py_slice, Paging.clamp_index.
  destruct (Z.ltb_spec a 0); [lia|].
  destruct (Z.ltb_spec (a + s) 0); [lia|].
  set (len := Z.of_nat (List.length l)).
  destruct (Z.le_gt_cases len a) as [Hge|Hlt].
  - rewrite !skipn_all2 by lia. now rewrite !firstn_nil.
  - rewrite (Z.min_l a len) by lia.
    destruct (Z.le_gt_cases (a + s) len) as [Hin|Hout].
    + rewrite Z.min_l by lia. now replace (a + s - a)%Z with s by lia.
    + rewrite Z.min_r by lia.
      rewrite !firstn_all2; try reflexivity; rewrite length_skipn; lia.
Qed.

Lemma firstn_add {A : Type} (l : list A) (a b : nat) :
  firstn (a + b) l = firstn a l ++ firstn b (skipn a l).
Proof.
  revert l. induction a as [|a IH]; intros l; [reflexivity|].
  destruct l as [|x l]; cbn; [now rewrite firstn_nil|]. now rewrite IH.
Qed.

(** The chunks of [s] elements number [0 .. n-1], one after the other,
    are the first [n * s] elements. *)
Lemma chunks_concat {A : Type} (l : list A) (s n : nat) :
  concat (map (fun k => firstn s (skipn (k * s) l)) (seq 0 n))
  = firstn (n * s) l.
Proof.
  induction n as [|n IH]; [reflexivity|].
  rewrite seq_S, map_app, concat_app, IH. cbn [map concat plus].
  rewrite app_nil_r. replace (S n * s) with (n * s + s) by lia.
  symmetry. apply firstn_add.
Qed.

Section Pages.

Context {Cell : Type} {ops : Frame.CellOps Cell}.

Lemma page_rows_chunk (rows : list (list Cell)) (k : nat) (size : Z) :
  (0 < size)%Z ->
  Paging.page_rows rows (Z.of_nat (S k)) size
  = firstn (Z.to_nat size) (skipn (k * Z.to_nat size) rows).
Proof.
  intros Hs. unfold Paging.page_rows.
  rewrite py_slice_nonneg by nia. f_equal. f_equal. nia.
Qed.

(** Pages 1 .. [total_pages], one after the other, are the rows of the
    view: every row is on exactly one page and the order is kept. *)
Theorem pages_cover_the_view (rows : list (list Cell)) (page_size : Z) :
  (0 < page_size)%Z ->
  let total_pages :=
    Paging.ceil_div (Z.of_nat (List.length rows)) page_size in
  concat (map (fun p => Paging.page_rows rows (Z.of_nat p) page_size)
              (seq 1 (Z.to_nat total_pages)))
  = rows.
Proof.
  intros Hs. cbv zeta.
  set (n := Z.to_nat (Paging.ceil_div (Z.of_nat (List.length rows)) page_size)).
  rewrite <- seq_shift, map_map.
  rewrite (map_ext _ (fun k => firstn (Z.to_nat page_size)
                                 (skipn (k * Z.to_nat page_size) rows)))
    by (intros k; now apply page_rows_chunk).
  rewrite chunks_concat. apply firstn_all2.
  pose proof (ceil_div_bounds (Z.of_nat (List.length rows)) page_size Hs).
  pose proof (ceil_div_nonneg (Z.of_nat (List.length rows)) page_size
                ltac:(lia) Hs).
  subst n. nia.
Qed.

(** The number of rows on a page. *)
Lemma page_rows_length (rows : list (list Cell)) (page_number page_size : Z) :
  (1 <= page_number)%Z -> (0 < page_size)%Z ->
  Z.of_nat (List.length (Paging.page_rows rows page_number page_size))
  = Z.max 0 (Z.min page_size
               (Z.of_nat (List.length rows)
                - (page_number - 1) * page_size)).
Proof.
  intros Hp Hs. unfold Paging.page_rows.
  rewrite py_slice_nonneg by nia.
  rewrite length_firstn, length_skipn. nia.
Qed.

Lemma page_rows_nonempty_iff (rows : list (list Cell))
  (page_number page_size : Z) :
  (1 <= page_number)%Z -> (0 < page_size)%Z ->
  Paging.page_rows rows page_number page_size <> []
  <-> (page_number
       <= Paging.ceil_div (Z.of_nat (List.length rows)) page_size)%Z.
Proof.
  intros Hp Hs.
  pose proof (page_rows_length rows page_number page_size Hp Hs) as Hlen.
  pose proof (ceil_div_bounds (Z.of_nat (List.length rows)) page_size Hs)
    as Hc.
  split.
  - intros Hne.
    destruct (Paging.page_rows rows page_number page_size);
      [contradiction|]. cbn [List.length] in Hlen. nia.
  - intros Hin Hnil. rewrite Hnil in Hlen. cbn [List.length] in Hlen. nia.
Qed.

(** A page from 1 on has rows exactly when its number is at most
    [total_pages]; it never has more than [page_size] rows, and every
    page before the last is full. *)
Theorem page_has_rows_iff_in_range (rows : list (list Cell))
  (page_number page_size : Z) :
  (1 <= page_number)%Z -> (0 < page_size)%Z ->
  let total_pages :=
    Paging.ceil_div (Z.of_nat (List.length rows)) page_size in
  let page := Paging.page_rows rows page_number page_size in
  (page <> [] <-> (page_number <= total_pages)%Z)
  /\ (Z.of_nat (List.length page) <= page_size)%Z
  /\ ((page_number < total_pages)%Z ->
      Z.of_nat (List.length page) = page_size)
  /\ ((page_number = total_pages)%Z ->
      Z.of_nat (List.length page)
      = (Z.of_nat (List.length rows) - (total_pages - 1) * page_size)%Z).
Proof.
  intros Hp Hs. cbv zeta.
  pose proof (page_rows_length rows page_number page_size Hp Hs) as Hlen.
  pose proof (ceil_div_bounds (Z.of_nat (List.length rows)) page_size Hs)
    as Hc.
  split; [now apply page_rows_nonempty_iff|].
  split; [rewrite Hlen; nia|].
  split; intros Hlt; rewrite Hlen; nia.
Qed.

End Pages.

(** A table of an integer and a float column is shown with floats in
    both: the cell that the search reads as [1] is shown as [1.0]. *)
Example numbers_are_shown_as_floats :
  Paging._worker (inr Examples.prices)
    (Viewer.mkLoad "prices" 1 2 None false None true)
  = Paging.Display
      (Paging.mkPage
         [ [Examples.F 2; Examples.F 5]; [Examples.F 4; Examples.F 8] ]
         ["id"; "price"]%string 3 2 None true)
  /\ map (map Frame.cell_str)
       (Paging.page_rows (Frame.rows Examples.prices) 1 2)
     = [ ["1"; "2.5"]; ["2"; "4.0"] ]%string
  /\ map (map Frame.cell_str)
       (Paging.values_tolist (Paging.page Examples.prices 1 2))
     = [ ["1.0"; "2.5"]; ["2.0"; "4.0"] ]%string.
Proof. repeat split. Qed.

(* ------------------------------------------------------------------ *)
(** ** Sessions                                                         *)
(* ------------------------------------------------------------------ *)

Lemma list_index_of_position (c : string) (cols : list string) (i : nat) :
  Frame.column_position c cols = inr i -> Paging.list_index c cols = inr i.
Proof.
  unfold Frame.column_position.
  assert (H : forall k,
             match Frame.label_positions c cols k with
             | [] => True
             | j :: _ => Paging.list_index c cols = inr (j - k)
             end).
  { induction cols as [|y cols IH]; intros k; cbn; [exact I|].
    destruct (String.eqb y c); cbn.
    - f_equal. lia.
    - specialize (IH (S k)).
      destruct (Frame.label_positions c cols (S k)) as [|j rest] eqn:E;
        [exact I|].
      rewrite IH. f_equal.
      assert (Hge : forall cs n m, In m (Frame.label_positions c cs n) ->
                                   n <= m).
      { clear. induction cs as [|z cs IHc]; intros n m Hin; cbn in Hin;
          [contradiction|].
        apply in_app_or in Hin. destruct Hin as [Hin|Hin].
        - destruct (String.eqb z c); cbn in Hin; [|contradiction].
          destruct Hin as [->|[]]. lia.
        - apply IHc in Hin. lia. }
      assert (S k <= j) by (apply (Hge cols); rewrite E; now left). lia. }
  specialize (H 0).
  destruct (Frame.label_positions c cols 0) as [|j [|j' rest]]; try discriminate.
  intros [= <-]. rewrite H. f_equal. lia.
Qed.

Section Sessions.

Context {Cell : Type} {ops : Frame.CellOps Cell}.
Variable libs : Connection.Libraries Cell.
Variable argsort : list Cell -> Py.result (list nat).
Variable splitext : string -> string * string.

Local Abbreviation Window := (@App.Window Cell).
Local Abbreviation load := (App.load libs argsort).
Local Abbreviation step := (App.step libs argsort splitext).
Local Abbreviation session := (App.session libs argsort splitext).
Local Abbreviation consistent := (App.consistent libs argsort).
Local Abbreviation shows_current_page := (App.shows_current_page libs argsort).
Local Abbreviation coherent := (Connection.coherent libs argsort).

(** The columns of a view are those of the table. *)
Lemma filtered_sorted_df_columns (df view : Frame.DataFrame Cell) sc so q :
  Frame.filtered_sorted_df argsort df sc so q = inr view ->
  Frame.columns view = Frame.columns df.
Proof.
  unfold Frame.filtered_sorted_df.
  set (df1 := Py.if_truthy q _ _).
  assert (H1 : Frame.columns df1 = Frame.columns df).
  { subst df1. destruct q as [[|c q]|]; reflexivity. }
  destruct sc as [[|c s]|]; cbn [Py.if_truthy];
    try (intros [= <-]; exact H1).
  unfold Frame.sort_values.
  destruct (Frame.column_position _ _); [discriminate|].
  destruct (Frame.nargsort _ _ _); [discriminate|].
  intros [= <-]. exact H1.
Qed.

(** A view that is sorted has its sort column, once. *)
Lemma filtered_sorted_df_position (df view : Frame.DataFrame Cell)
  (c : string) so q :
  Py.truthy (Some c) = true ->
  Frame.filtered_sorted_df argsort df (Some c) so q = inr view ->
  exists i, Frame.column_position c (Frame.columns view) = inr i.
Proof.
  intros Ht Hv.
  pose proof (filtered_sorted_df_columns _ _ _ _ _ Hv) as Hcols.
  revert Hv. unfold Frame.filtered_sorted_df.
  set (df1 := Py.if_truthy q _ _).
  assert (H1 : Frame.columns df1 = Frame.columns df).
  { subst df1. destruct q as [[|a q]|]; reflexivity. }
  destruct c as [|a c]; [discriminate|]. cbn [Py.if_truthy].
  unfold Frame.sort_values.
  destruct (Frame.column_position _ _) as [e|i] eqn:E; [discriminate|].
  intros _. exists i. now rewrite Hcols, <- H1.
Qed.

(** [_worker] on a view that was computed: the error path is not
    taken; the page is shown unless it has no rows, and the sort
    indicator is on the column the view is sorted by. *)
Lemma worker_of_view (df view : Frame.DataFrame Cell)
  (req : Viewer.LoadRequest) :
  Frame.filtered_sorted_df argsort df (Viewer.lr_sort_column req)
    (Viewer.lr_sort_order req) (Viewer.lr_search_query req) = inr view ->
  exists indicator,
    Py.if_truthy (Viewer.lr_sort_column req)
      (fun c => Frame.column_position c (Frame.columns view)
                = inr (fst (snd indicator))
                /\ indicator = (true, (fst (snd indicator),
                                       Viewer.lr_sort_order req)))
      (fst indicator = false)
    /\ Paging._worker (inr view) req
       = match Paging.page_rows (Frame.rows view)
                 (Viewer.lr_page_number req) (Viewer.lr_page_size req) with
         | [] => Paging.NoDataBox
         | _ :: _ =>
             Paging.Display
               (Paging.mkPage
                  (Paging.values_tolist
                     (Paging.page view (Viewer.lr_page_number req)
                        (Viewer.lr_page_size req)))
                  (Frame.columns view)
                  (Z.of_nat (List.length (Frame.rows view)))
                  (Paging.ceil_div
                     (Z.of_nat (List.length (Frame.rows view)))
                     (Viewer.lr_page_size req))
                  (if fst indicator then Some (snd indicator) else None)
                  (Viewer.lr_set_status req))
         end.
Proof.
  intros Hv. unfold Paging._worker, Paging.values_tolist, Paging.page.
  cbn [Frame.rows].
  destruct (Viewer.lr_sort_column req) as [[|a c]|] eqn:Hsc;
    cbn [Py.if_truthy].
  - exists (false, (0, false)). split; [reflexivity|].
    now destruct (Paging.page_rows (Frame.rows view) _ _).
  - destruct (filtered_sorted_df_position df view (String a c)
                (Viewer.lr_sort_order req) (Viewer.lr_search_query req)
                eq_refl Hv) as [i Hi].
    rewrite (list_index_of_position _ _ _ Hi).
    exists (true, (i, Viewer.lr_sort_order req)). cbn [fst snd].
    split; [split; [exact Hi|reflexivity]|].
    now destruct (Paging.page_rows (Frame.rows view) _ _).
  - exists (false, (0, false)). split; [reflexivity|].
    now destruct (Paging.page_rows (Frame.rows view) _ _).
Qed.

(** What one [load_table_data] does, on a store whose caches agree with
    the files. *)
Lemma load_table_data_spec (self : Connection.DataframeConnection)
  (req : Viewer.LoadRequest) (st : Viewer.State)
  (w : @Connection.World Cell) :
  coherent w ->
  let r := Paging.load_table_data libs argsort self req st w in
  coherent (snd r)
  /\ ((exists e, fst (fst r) = Paging.ErrorBox e /\ snd (fst r) = st)
      \/ (exists df view ref,
            Connection.load_frame libs self (Viewer.lr_table_name req)
            = inr df
            /\ Frame.filtered_sorted_df argsort df
                 (Viewer.lr_sort_column req) (Viewer.lr_sort_order req)
                 (Viewer.lr_search_query req) = inr view
            /\ Connection.slot (Connection.view_cache (snd r))
               = Some (Connection.mkViewKey self
                         (Viewer.lr_table_name req)
                         (Viewer.lr_sort_column req)
                         (Viewer.lr_sort_order req)
                         (Viewer.lr_search_query req), ref)
            /\ fst (fst r) = Paging._worker (inr view) req
            /\ snd (fst r)
               = match Paging.page_rows (Frame.rows view)
                         (Viewer.lr_page_number req)
                         (Viewer.lr_page_size req) with
                 | [] => st
                 | _ :: _ =>
                     Paging.set_total_pages
                       (Paging.ceil_div
                          (Z.of_nat (List.length (Frame.rows view)))
                          (Viewer.lr_page_size req)) st
                 end)).
Proof.
  intros Hc. cbv zeta. unfold Paging.load_table_data. cbn [fst snd].
  destruct (get_view_spec libs argsort self (Viewer.lr_table_name req)
              (Viewer.lr_sort_column req) (Viewer.lr_sort_order req)
              (Viewer.lr_search_query req) w Hc)
    as (extra & _ & Hc' & Hres).
  unfold Connection.bind.
  destruct (Connection.get_filtered_sorted_df libs argsort self _ _ _ _ w)
    as [[e|ref] w'] eqn:Hrun; cbn [fst snd] in *.
  - split; [exact Hc'|]. left. exists e. split; reflexivity.
  - destruct Hres as (df & view & Hl & Hv & Hn & Hslot).
    unfold Connection.deref. rewrite Hn. cbn [fst snd].
    split; [exact Hc'|]. right. exists df, view, ref.
    repeat apply conj; try assumption; try reflexivity.
    destruct (worker_of_view df view req Hv) as (ind & _ & ->).
    now destruct (Paging.page_rows (Frame.rows view) _ _).
Qed.

Lemma set_total_pages_same (st : Viewer.State) :
  Paging.set_total_pages (Viewer.total_pages st) st = st.
Proof. now destruct st. Qed.

Lemma with_ui_same (win : Window) : App.with_ui (App.ui win) win = win.
Proof. now destruct win. Qed.

(** A load that asks for what the state says leaves a window that
    shows the current page, or a cleared list. *)
Lemma load_current_spec (b : bool) (win : Window) :
  coherent (App.world win) ->
  (0 < Viewer.items_per_page (App.ui win))%Z ->
  (1 <= Viewer.current_page (App.ui win))%Z ->
  Viewer.db_loaded (App.ui win)
  = match App.db win with Some _ => true | None => false end ->
  let win' := load (Viewer.load_current b (App.ui win)) win in
  consistent win'
  /\ App.shown_view_is_cached win'
  /\ App.db win' = App.db win
  /\ App.table_switcher win' = App.table_switcher win
  /\ App.connections win' = App.connections win
  /\ exists tp, App.ui win' = Paging.set_total_pages tp (App.ui win).
Proof.
  intros Hc Hs Hp Hdb. cbv zeta. unfold App.load.
  assert (Hsame : exists tp,
             App.ui win = Paging.set_total_pages tp (App.ui win)).
  { exists (Viewer.total_pages (App.ui win)).
    symmetry. apply set_total_pages_same. }
  destruct (App.db win) as [self|] eqn:Hself.
  - set (req := Viewer.load_current b (App.ui win)).
    destruct (load_table_data_spec self req (App.ui win) (App.world win) Hc)
      as [Hc' Hres].
    set (r := Paging.load_table_data libs argsort self req (App.ui win)
                (App.world win)) in *.
    unfold App.consistent, App.shown_view_is_cached, App.shows_current_page.
    cbn [App.db App.ui App.table_switcher App.list_ctrl App.connections
         App.world].
    destruct Hres as [(e & -> & ->)|(df & view & ref & Hl & Hv & Hslot
                                    & -> & ->)].
    + split; [split; [exact Hc'|split; [|split; [|split; [|split]]]]
             |split; [|split; [|split; [|split]]]];
        try assumption; try reflexivity; try discriminate;
        try contradiction.
    + destruct (worker_of_view df view req Hv) as (ind & _ & ->).
      assert (Hrows : Paging.page_rows (Frame.rows view)
                        (Viewer.lr_page_number req)
                        (Viewer.lr_page_size req)
                      = Paging.page_rows (Frame.rows view)
                          (Viewer.current_page (App.ui win))
                          (Viewer.items_per_page (App.ui win)))
        by reflexivity.
      destruct (Paging.page_rows (Frame.rows view)
                  (Viewer.lr_page_number req) (Viewer.lr_page_size req))
        as [|row rest] eqn:Hpage.
      * split; [split; [exact Hc'|split; [|split; [|split; [|split]]]]
               |split; [|split; [|split; [|split]]]];
          try assumption; try reflexivity; try discriminate;
          try contradiction.
      * split; [split; [exact Hc'|split; [|split; [|split; [|split]]]]
               |split; [|split; [|split; [|split]]]];
          try assumption; try reflexivity; try discriminate.
        -- intros p [= <-] _. exists self, df, view.
           cbn [Paging.pg_rows Paging.pg_columns].
           split; [reflexivity|]. split; [exact Hl|]. split; [exact Hv|].
           split; [reflexivity|]. split; [reflexivity|].
           split.
           { unfold Paging.values_tolist, Paging.page. cbn [Frame.rows].
             intros Hnil. apply map_eq_nil in Hnil.
             discriminate (eq_trans Hrows Hnil). }
           split; [reflexivity|].
           split; [exact Hp|].
           cbn [Paging.set_total_pages Viewer.total_pages
                Viewer.current_page Viewer.items_per_page].
           apply (page_rows_nonempty_iff (Frame.rows view));
             try assumption.
           intros Hnil. discriminate (eq_trans Hrows Hnil).
        -- intros _. exists self, ref. split; [reflexivity|]. exact Hslot.
        -- eexists. reflexivity.
  - unfold App.consistent, App.shown_view_is_cached, App.shows_current_page.
    cbn [App.db App.ui App.table_switcher App.list_ctrl App.connections
         App.world].
    split; [split; [exact Hc|split; [|split; [|split; [|split]]]]
           |split; [|split; [|split; [|split]]]];
      try assumption; try reflexivity; try discriminate;
      try contradiction.
Qed.

Lemma run_load_spec (b : bool) (st' : Viewer.State) (win : Window) :
  coherent (App.world win) ->
  (0 < Viewer.items_per_page st')%Z ->
  (1 <= Viewer.current_page st')%Z ->
  Viewer.db_loaded st'
  = match App.db win with Some _ => true | None => false end ->
  let win' :=
    App.run libs argsort (st', Some (Viewer.load_current b st')) win in
  consistent win'
  /\ App.shown_view_is_cached win'
  /\ App.db win' = App.db win
  /\ App.table_switcher win' = App.table_switcher win
  /\ App.connections win' = App.connections win
  /\ exists tp, App.ui win' = Paging.set_total_pages tp st'.
Proof.
  intros Hc Hs Hp Hdb.
  exact (load_current_spec b (App.with_ui st' win) Hc Hs Hp Hdb).
Qed.

(** The labels of the menu are read back as the page sizes they were
    made from. *)
Lemma menu_label_value (item : nat) (n : Z) :
  nth_error Menu.items_per_page_options item = Some n ->
  Menu.label_value (Menu.item_label n) = inr n /\ (0 < n)%Z.
Proof.
  intros H.
  do 8 (destruct item as [|item];
        [injection H as <-; split; [vm_compute; reflexivity|lia]|]).
  destruct item; discriminate H.
Qed.

Lemma on_column_click_shape (c : string) (st : Viewer.State) :
  snd (Viewer.on_column_click c st)
  = Viewer.load_current false (fst (Viewer.on_column_click c st))
  /\ Viewer.current_page (fst (Viewer.on_column_click c st)) = 1%Z
  /\ Viewer.items_per_page (fst (Viewer.on_column_click c st))
     = Viewer.items_per_page st
  /\ Viewer.db_loaded (fst (Viewer.on_column_click c st))
     = Viewer.db_loaded st
  /\ Viewer.table_selection (fst (Viewer.on_column_click c st))
     = Viewer.table_selection st.
Proof.
  unfold Viewer.on_column_click.
  destruct (Py.opt_str_eqb _ _); [destruct (Viewer.sort_order st)|];
    cbn; repeat split.
Qed.

(** The three properties that every event keeps. *)
Lemma step_invariants (ev : App.Event) (win : Window) :
  consistent win /\ App.shown_view_is_cached win
  /\ App.switcher_lists_tables libs win ->
  consistent (step ev win) /\ App.shown_view_is_cached (step ev win)
  /\ App.switcher_lists_tables libs (step ev win).
Proof.
  intros (Hcons & Hcached & Hsw).
  pose proof Hcons as (Hc & Hs & Hp & Hdb & Hlist & Hshow).
  assert (Hrun : forall b st',
             (0 < Viewer.items_per_page st')%Z ->
             (1 <= Viewer.current_page st')%Z ->
             Viewer.db_loaded st' = Viewer.db_loaded (App.ui win) ->
             In (Viewer.table_selection st') (App.table_switcher win) ->
             let win' :=
               App.run libs argsort
                 (st', Some (Viewer.load_current b st')) win in
             consistent win' /\ App.shown_view_is_cached win'
             /\ App.switcher_lists_tables libs win').
  { intros b st' Hs' Hp' Hdb' Hin. cbv zeta.
    rewrite Hdb in Hdb'.
    destruct (run_load_spec b st' win Hc Hs' Hp' Hdb')
      as (H1 & H2 & Hdb2 & Hsw2 & _ & tp & Hui).
    split; [exact H1|]. split; [exact H2|].
    intros self Hself. rewrite Hdb2 in Hself. rewrite Hsw2, Hui.
    split; [now apply Hsw|exact Hin]. }
  assert (Hsel : forall self, App.db win = Some self ->
                   In (Viewer.table_selection (App.ui win))
                      (App.table_switcher win))
    by (intros self Hself; now apply Hsw in Hself).
  assert (Hnone : Viewer.db_loaded (App.ui win) = false ->
                  App.db win = None /\ App.list_ctrl win = None).
  { intros Hf. rewrite Hf in Hdb.
    destruct (App.db win) eqn:E; [discriminate|]. split; [reflexivity|].
    destruct (App.list_ctrl win); [|reflexivity].
    exfalso. apply Hlist; [discriminate|reflexivity]. }
  assert (Hloaded : Viewer.db_loaded (App.ui win) = true ->
                    In (Viewer.table_selection (App.ui win))
                       (App.table_switcher win)).
  { intros Ht. rewrite Ht in Hdb.
    destruct (App.db win) as [self|] eqn:E; [|discriminate].
    now apply (Hsel self). }
  destruct ev as [filename|item|text| |col|backward|item];
    cbn [App.step].
  - (* Open *)
    unfold App.load_database_file.
    destruct (Connection.get_table_or_sheet_names libs _)
      as [e|[|first others]] eqn:Hnames.
    + split; [exact Hcons|]. split; [exact Hcached|exact Hsw].
    + split; [exact Hcons|]. split; [exact Hcached|exact Hsw].
    + set (self := App.new_connection splitext (App.connections win)
                     filename) in *.
      set (st := App.reset_state _).
      set (win0 := App.mkWindow (Some self) st (first :: others)
                     (App.list_ctrl win) (S (App.connections win))
                     (App.world win)).
      destruct (load_current_spec true win0 Hc Hs ltac:(cbn; lia) eq_refl)
        as (H1 & H2 & Hdb2 & Hsw2 & _ & tp & Hui).
      change (App.load_defaults first (Viewer.items_per_page st))
        with (Viewer.load_current true (App.ui win0)).
      split; [exact H1|]. split; [exact H2|].
      intros self' Hself'. rewrite Hdb2 in Hself'. rewrite Hsw2, Hui.
      injection Hself' as <-. split; [exact Hnames|now left].
  - (* SwitchTable *)
    destruct (nth_error (App.table_switcher win) item) as [name|] eqn:Hitem;
      [|split; [exact Hcons|split; [exact Hcached|exact Hsw]]].
    unfold App.on_switch_table. cbn [App.set_selection Viewer.db_loaded].
    destruct (Viewer.db_loaded (App.ui win)) eqn:Hl.
    + apply (Hrun true (App.reset_state
                          (App.set_selection name (App.ui win))));
        cbn; try assumption; try lia.
      now apply nth_error_In in Hitem.
    + destruct (Hnone eq_refl) as [Hdbn Hln].
      unfold App.run; cbn [snd fst].
      unfold App.consistent, App.shown_view_is_cached,
        App.shows_current_page, App.switcher_lists_tables.
      cbn [App.with_ui App.db App.ui App.list_ctrl App.world
           App.table_switcher].
      rewrite Hdbn, Hln.
      split; [split; [exact Hc|split; [exact Hs|split; [exact Hp|
              split; [exact Hl|split]]]]|split];
        try discriminate; try contradiction.
  - (* Search *)
    unfold App.on_search.
    destruct (Viewer.db_loaded (App.ui win) && Py.truthy (Some text))
      eqn:Hg.
    + apply andb_true_iff in Hg as [Hl _].
      apply (Hrun true (App.set_search_query (Some text)
                          (Viewer.set_page 1 (App.ui win))));
        cbn; try assumption; try lia; try reflexivity.
      now apply Hloaded.
    + unfold App.run; cbn [snd fst]. rewrite with_ui_same.
      split; [exact Hcons|split; [exact Hcached|exact Hsw]].
  - (* SearchCancel *)
    unfold App.on_search_cancel.
    destruct (Viewer.db_loaded (App.ui win)) eqn:Hl.
    + apply (Hrun true (Viewer.set_page 1
                          (App.set_search_query None (App.ui win))));
        cbn; try assumption; try lia; try reflexivity.
      now apply Hloaded.
    + unfold App.run; cbn [snd fst]. rewrite with_ui_same.
      split; [exact Hcons|split; [exact Hcached|exact Hsw]].
  - (* ColumnClick *)
    destruct (App.list_ctrl win) as [p|] eqn:Hp0;
      [|split; [exact Hcons|split; [exact Hcached|exact Hsw]]].
    destruct (nth_error (Paging.pg_columns p) col) as [column|];
      [|split; [exact Hcons|split; [exact Hcached|exact Hsw]]].
    cbv zeta.
    destruct (on_column_click_shape column (App.ui win))
      as (Hreq & Hp1 & Hs1 & Hdb1 & Hsel1).
    rewrite Hreq.
    apply Hrun.
    + now rewrite Hs1.
    + rewrite Hp1. lia.
    + exact Hdb1.
    + rewrite Hsel1.
      destruct (App.db win) as [self|] eqn:E.
      * now apply (Hsel self).
      * exfalso. apply Hlist; [discriminate|reflexivity].
  - (* PageChange *)
    unfold Viewer.on_page_change.
    destruct (Viewer.db_loaded (App.ui win)
              && (1 <? Viewer.total_pages (App.ui win))%Z) eqn:Hg.
    + apply andb_true_iff in Hg as [Hl Htp]. apply Z.ltb_lt in Htp.
      cbv zeta. apply Hrun; cbn; try assumption; try reflexivity.
      * pose proof (Z.mod_pos_bound
                      (if backward
                       then (Viewer.current_page (App.ui win) - 2)%Z
                       else Viewer.current_page (App.ui win))
                      (Viewer.total_pages (App.ui win)) ltac:(lia)).
        lia.
      * now apply Hloaded.
    + unfold App.run; cbn [snd fst]. rewrite with_ui_same.
      split; [exact Hcons|split; [exact Hcached|exact Hsw]].
  - (* SetItemsPerPage *)
    destruct (nth_error Menu.items_per_page_options item) as [n|] eqn:Hitem;
      [|split; [exact Hcons|split; [exact Hcached|exact Hsw]]].
    destruct (menu_label_value item n Hitem) as [Hval Hn].
    unfold App.on_set_items_per_page. rewrite Hval. cbv zeta.
    cbn [App.set_items_per_page Viewer.db_loaded].
    destruct (Viewer.db_loaded (App.ui win)
              && negb (App.column_count win =? 0)) eqn:Hg.
    + apply andb_true_iff in Hg as [Hl _].
      apply (Hrun true (Viewer.set_page 1
                          (App.set_items_per_page n (App.ui win))));
        cbn; try assumption; try lia; try reflexivity.
      now apply Hloaded.
    + unfold App.run; cbn [snd fst].
      unfold App.consistent, App.shown_view_is_cached,
        App.shows_current_page, App.switcher_lists_tables.
      cbn [App.with_ui App.db App.ui App.list_ctrl App.world
           App.table_switcher App.set_items_per_page
           Viewer.items_per_page Viewer.current_page Viewer.db_loaded
           Viewer.table_selection].
      split; [split; [exact Hc|split; [exact Hn|split; [exact Hp|
              split; [exact Hdb|split; [exact Hlist|]]]]]
             |split; [exact Hcached|exact Hsw]].
      intros p Hp0 Hcols. exfalso.
      apply andb_false_iff in Hg as [Hl|Hcc].
      * destruct (Hnone Hl) as [_ Hln]. congruence.
      * unfold App.column_count in Hcc. rewrite Hp0 in Hcc.
        destruct (Paging.pg_columns p); [contradiction|discriminate].
Qed.

Lemma init_window_invariants :
  consistent (@App.init_window Cell)
  /\ App.shown_view_is_cached (@App.init_window Cell)
  /\ App.switcher_lists_tables libs (@App.init_window Cell).
Proof.
  unfold App.consistent, App.shown_view_is_cached,
    App.shows_current_page, App.switcher_lists_tables. cbn.
  split; [split; [apply init_world_coherent|split; [lia|split; [lia|
          split; [reflexivity|split]]]]|split];
    try discriminate; try contradiction.
Qed.

Lemma session_snoc (events : list App.Event) (ev : App.Event) :
  session (events ++ [ev]) = step ev (session events).
Proof. unfold App.session. now rewrite fold_left_app. Qed.

Lemma session_invariants (events : list App.Event) :
  consistent (session events)
  /\ App.shown_view_is_cached (session events)
  /\ App.switcher_lists_tables libs (session events).
Proof.
  induction events as [|ev events IH] using rev_ind.
  - apply init_window_invariants.
  - rewrite session_snoc. now apply step_invariants.
Qed.


(** In every session the table switcher lists the tables of the open
    file, as [get_table_or_sheet_names] gives them, and the selected
    table is one of them: a file that cannot be opened or has no table
    never replaces the one that is open. *)
Theorem switcher_lists_the_tables_of_the_file (events : list App.Event) :
  App.switcher_lists_tables libs (session events).
Proof.
  enough (H : consistent (session events)
              /\ App.shown_view_is_cached (session events)
              /\ App.switcher_lists_tables libs (session events))
    by apply H.
  induction events as [|ev events IH] using rev_ind.
  - apply init_window_invariants.
  - rewrite session_snoc. now apply step_invariants.
Qed.


End Sessions.

(* ------------------------------------------------------------------ *)
(** ** Sessions and the two caches                                      *)
(* ------------------------------------------------------------------ *)

Section SessionCaches.

Context {Cell : Type} {ops : Frame.CellOps Cell}.
Variable libs : Connection.Libraries Cell.
Variable argsort : list Cell -> Py.result (list nat).
Variable splitext : string -> string * string.

Local Abbreviation World := (@Connection.World Cell).
Local Abbreviation Window := (@App.Window Cell).
Local Abbreviation get_df := (Connection.get_df libs).
Local Abbreviation get_view := (Connection.get_filtered_sorted_df libs argsort).
Local Abbreviation view_body := (Connection.get_filtered_sorted_df_body libs argsort).
Local Abbreviation coherent := (Connection.coherent libs argsort).
Local Abbreviation step := (App.step libs argsort splitext).
Local Abbreviation session := (App.session libs argsort splitext).
Local Abbreviation consistent := (App.consistent libs argsort).

(** The [get_df] cache after one [get_filtered_sorted_df] call: as it
    was with one more hit, or after one more miss. *)
Lemma get_view_df_cache self name sc so q (w : World) :
  let w' := snd (get_view self name sc so q w) in
  ((exists r, Connection.slot (Connection.view_cache w)
              = Some (Connection.mkViewKey self name sc so q, r))
   /\ Connection.df_cache w' = Connection.df_cache w)
  \/ (exists r0,
        Connection.slot (Connection.df_cache w) = Some ((self, name), r0)
        /\ Connection.df_cache w'
           = Connection.mkLru (Connection.slot (Connection.df_cache w))
               (S (Connection.hits (Connection.df_cache w)))
               (Connection.misses (Connection.df_cache w)))
  \/ (Connection.misses_on (Connection.df_cache w) (self, name)
      /\ Connection.df_cache w'
         = Connection.df_cache (snd (Connection.df_miss libs self name w))).
Proof.
  cbv zeta.
  destruct (get_view_cases libs argsort self name sc so q w)
    as [(r & Hr & ->)|(_ & ->)];
    [left; split; [now exists r|reflexivity]|].
  unfold Connection.view_miss.
  set (counted := Connection.set_view_cache _ w).
  pose proof (view_body_df_cache libs argsort
                (Connection.mkViewKey self name sc so q) counted) as Hb.
  cbn [Connection.vk_self Connection.vk_table_name] in Hb.
  assert (Hfinal : Connection.df_cache
                     (snd (Connection.view_miss libs argsort
                             (Connection.mkViewKey self name sc so q) w))
                   = Connection.df_cache (snd (get_df self name counted))).
  { unfold Connection.view_miss. fold counted.
    destruct (view_body _ counted) as [[e|v] w']; cbn [snd] in Hb |- *;
      [exact Hb|]. cbn [Connection.set_view_cache Connection.df_cache].
    exact Hb. }
  unfold Connection.view_miss in Hfinal. fold counted in Hfinal.
  rewrite Hfinal. clear Hfinal Hb.
  destruct (get_df_cases libs self name counted)
    as [(r0 & Hs & ->)|(Hm & ->)].
  - right; left. exists r0. split; [exact Hs|reflexivity].
  - right; right. split; [exact Hm|].
    unfold Connection.df_miss. cbn [Connection.heap Connection.df_cache
      Connection.set_view_cache counted].
    destruct (Connection.load_frame libs self name); reflexivity.
Qed.

(** A view call for the table whose frame [get_df] holds does not read
    the file: no miss is counted and the entry stays. *)
Lemma get_view_reads_nothing self name sc so q (w : World) r0 :
  Connection.slot (Connection.df_cache w) = Some ((self, name), r0) ->
  let w' := snd (get_view self name sc so q w) in
  Connection.slot (Connection.df_cache w')
  = Connection.slot (Connection.df_cache w)
  /\ Connection.misses (Connection.df_cache w')
     = Connection.misses (Connection.df_cache w).
Proof.
  intros Hs. cbv zeta.
  destruct (get_view_df_cache self name sc so q w)
    as [[_ ->]|[(r & _ & ->)|(Hm & _)]]; [split; reflexivity..|].
  exfalso. unfold Connection.misses_on in Hm. rewrite Hs in Hm.
  now apply Hm.
Qed.

(** The entries of the two caches after one view call. *)
Lemma get_view_slots self name sc so q (w : World) :
  coherent w ->
  App.caches_hold_one_table w ->
  (Py.truthy sc = true ->
   forall k r, Connection.slot (Connection.view_cache w) = Some (k, r) ->
               Connection.vk_self k = self
               /\ Connection.vk_table_name k = name) ->
  let w' := snd (get_view self name sc so q w) in
  App.caches_hold_one_table w'
  /\ forall k r,
       Connection.slot (Connection.view_cache w') = Some (k, r) ->
       Connection.slot (Connection.view_cache w) = Some (k, r)
       \/ (Connection.vk_self k = self
           /\ Connection.vk_table_name k = name).
Proof.
  intros Hc Hone Hsort. cbv zeta.
  pose proof (get_view_spec libs argsort self name sc so q w Hc)
    as (extra & _ & _ & Hres).
  pose proof (get_view_df_cache self name sc so q w) as Hdf.
  cbv zeta in Hdf.
  destruct (get_view self name sc so q w) as [[e|ref] w'] eqn:Hrun;
    cbn [fst snd] in *.
  - (* the call raised: the view entry is the old one *)
    assert (Hvs : Connection.slot (Connection.view_cache w')
                  = Connection.slot (Connection.view_cache w)).
    { destruct (get_view_cases libs argsort self name sc so q w)
        as [(r & _ & Hh)|(_ & Hm)].
      - rewrite Hh in Hrun. discriminate Hrun.
      - rewrite Hm in Hrun. unfold Connection.view_miss in Hrun.
        set (counted := Connection.set_view_cache _ w) in Hrun.
        pose proof (view_body_view_cache libs argsort
                      (Connection.mkViewKey self name sc so q) counted)
          as Hvc.
        destruct (view_body _ counted) as [[e'|v] w1]; [|discriminate Hrun].
        injection Hrun as _ <-. cbn [snd] in Hvc. now rewrite Hvc. }
    split.
    + intros k r Hk. rewrite Hvs in Hk.
      destruct Hdf as [[_ ->]|[(r0 & Hs0 & ->)|(Hm & ->)]].
      * cbn [Connection.slot]; exact (Hone _ _ Hk).
      * cbn [Connection.slot]; exact (Hone _ _ Hk).
      * unfold Connection.df_miss.
        destruct (Connection.load_frame libs self name) as [e0|df] eqn:Hl;
          cbn [snd Connection.df_cache Connection.slot].
        -- cbn [Connection.slot]; exact (Hone _ _ Hk).
        -- destruct Hres as [Hbad|(df' & _ & Hview)]; [congruence|].
           assert (Ht : Py.truthy sc = true).
           { unfold Frame.filtered_sorted_df in Hview.
             destruct sc as [[|c s]|]; try discriminate Hview.
             reflexivity. }
           destruct (Hsort Ht k r Hk) as [-> ->]. eexists. reflexivity.
    + intros k r Hk. left. now rewrite <- Hvs.
  - (* the call returned: the view entry is the one asked for *)
    destruct Hres as (df & v & Hl & _ & _ & Hslot).
    split.
    + intros k r Hk. rewrite Hslot in Hk. injection Hk as <- <-.
      cbn [Connection.vk_self Connection.vk_table_name].
      destruct Hdf as [[(r & Hs) ->]|[(r0 & Hs0 & ->)|(Hm & ->)]].
      * destruct (Hone _ _ Hs) as [r0 Hr0]. now exists r0.
      * now exists r0.
      * unfold Connection.df_miss. rewrite Hl.
        cbn [snd Connection.df_cache Connection.slot]. eexists. reflexivity.
    + intros k r Hk. right. rewrite Hslot in Hk. injection Hk as <- <-.
      split; reflexivity.
Qed.

(** The store after a load is the store after its view call. *)
Lemma load_world (req : Viewer.LoadRequest) (win : Window)
  (self : Connection.DataframeConnection) :
  App.db win = Some self ->
  App.world (App.load libs argsort req win)
  = snd (get_view self (Viewer.lr_table_name req)
           (Viewer.lr_sort_column req) (Viewer.lr_sort_order req)
           (Viewer.lr_search_query req) (App.world win)).
Proof.
  intros Hself. unfold App.load. rewrite Hself. cbn [App.world].
  unfold Paging.load_table_data. cbn [snd]. unfold Connection.bind.
  destruct (get_view self _ _ _ _ (App.world win)) as [[e|r] w'];
    [reflexivity|].
  unfold Connection.deref. now destruct (nth_error _ r).
Qed.

(** A load changes the state in [total_pages] only. *)
Lemma load_ui (req : Viewer.LoadRequest) (win : Window) :
  exists tp,
    App.ui (App.load libs argsort req win)
    = Paging.set_total_pages tp (App.ui win).
Proof.
  unfold App.load. destruct (App.db win) as [self|]; cbn [App.ui].
  - unfold Paging.load_table_data. cbn [fst snd].
    destruct (Paging._worker _ req) as [e| |p];
      try (exists (Viewer.total_pages (App.ui win));
           symmetry; apply set_total_pages_same).
    eexists. reflexivity.
  - exists (Viewer.total_pages (App.ui win)).
    symmetry. apply set_total_pages_same.
Qed.

Lemma load_db (req : Viewer.LoadRequest) (win : Window) :
  App.db (App.load libs argsort req win) = App.db win.
Proof. unfold App.load. now destruct (App.db win). Qed.

Lemma load_current_caches (b : bool) (win : Window) :
  coherent (App.world win) ->
  App.caches_hold_one_table (App.world win) ->
  App.sorted_table_is_cached win ->
  let win' := App.load libs argsort (Viewer.load_current b (App.ui win)) win in
  App.caches_hold_one_table (App.world win')
  /\ App.sorted_table_is_cached win'.
Proof.
  intros Hc Hone Hsorted. cbv zeta.
  set (req := Viewer.load_current b (App.ui win)).
  destruct (load_ui req win) as [tp Hui].
  pose proof (load_db req win) as Hdb.
  unfold App.sorted_table_is_cached. rewrite Hui, Hdb.
  cbn [Paging.set_total_pages Viewer.sort_column Viewer.table_selection].
  destruct (App.db win) as [self|] eqn:Hself.
  - rewrite (load_world req win self Hself).
    destruct (get_view_slots self (Viewer.lr_table_name req)
                (Viewer.lr_sort_column req) (Viewer.lr_sort_order req)
                (Viewer.lr_search_query req) (App.world win) Hc Hone)
      as [Hone' Hslots].
    { intros Ht k r Hk.
      destruct (Hsorted Ht) as (self' & Hs' & Hall).
      rewrite Hself in Hs'. injection Hs' as <-. exact (Hall k r Hk). }
    split; [exact Hone'|].
    intros Ht. exists self. split; [reflexivity|].
    intros k r Hk. destruct (Hslots k r Hk) as [Hold|Hnew]; [|exact Hnew].
    destruct (Hsorted Ht) as (self' & Hs' & Hall).
    rewrite Hself in Hs'. injection Hs' as <-. exact (Hall k r Hold).
  - unfold App.load. rewrite Hself. cbn [App.world].
    split; [exact Hone|].
    intros Ht. destruct (Hsorted Ht) as (self' & Hs' & _).
    rewrite Hself in Hs'. discriminate Hs'.
Qed.

(** Every event keeps the two properties of the caches. *)
Lemma step_cache_invariants (ev : App.Event) (win : Window) :
  consistent win ->
  App.shown_view_is_cached win ->
  App.caches_hold_one_table (App.world win) ->
  App.sorted_table_is_cached win ->
  App.caches_hold_one_table (App.world (step ev win))
  /\ App.sorted_table_is_cached (step ev win).
Proof.
  intros Hcons Hcached Hone Hsorted.
  pose proof Hcons as (Hc & _ & _ & Hdb & Hlist & _).
  assert (Hrun : forall b st',
             App.sorted_table_is_cached (App.with_ui st' win) ->
             let win' :=
               App.run libs argsort
                 (st', Some (Viewer.load_current b st')) win in
             App.caches_hold_one_table (App.world win')
             /\ App.sorted_table_is_cached win').
  { intros b st' Hs'.
    exact (load_current_caches b (App.with_ui st' win) Hc Hone Hs'). }
  assert (Hsame : forall st',
             Viewer.sort_column st' = Viewer.sort_column (App.ui win) ->
             Viewer.table_selection st'
             = Viewer.table_selection (App.ui win) ->
             App.sorted_table_is_cached (App.with_ui st' win)).
  { intros st' Hsc Hts. unfold App.sorted_table_is_cached.
    cbn [App.with_ui App.ui App.db App.world]. rewrite Hsc, Hts.
    exact Hsorted. }
  assert (Hunsorted : forall st',
             Viewer.sort_column st' = None ->
             Viewer.db_loaded (App.ui win) = true ->
             App.sorted_table_is_cached (App.with_ui st' win)).
  { intros st' Hsc _. unfold App.sorted_table_is_cached.
    cbn [App.with_ui App.ui]. rewrite Hsc. discriminate. }
  destruct ev as [filename|item|text| |col|backward|item];
    cbn [App.step].
  - (* Open *)
    unfold App.load_database_file.
    destruct (Connection.get_table_or_sheet_names libs _)
      as [e|[|first others]] eqn:Hnames.
    + split; [exact Hone|exact Hsorted].
    + split; [exact Hone|exact Hsorted].
    + set (self := App.new_connection splitext (App.connections win)
                     filename) in *.
      set (st := App.reset_state _).
      set (win0 := App.mkWindow (Some self) st (first :: others)
                     (App.list_ctrl win) (S (App.connections win))
                     (App.world win)).
      change (App.load_defaults first (Viewer.items_per_page st))
        with (Viewer.load_current true (App.ui win0)).
      apply (load_current_caches true win0 Hc Hone).
      unfold App.sorted_table_is_cached. cbn. discriminate.
  - (* SwitchTable *)
    destruct (nth_error (App.table_switcher win) item) as [name|];
      [|split; [exact Hone|exact Hsorted]].
    unfold App.on_switch_table. cbn [App.set_selection Viewer.db_loaded].
    destruct (Viewer.db_loaded (App.ui win)) eqn:Hl.
    + apply (Hrun true). apply Hunsorted; reflexivity.
    + unfold App.run; cbn [snd fst App.with_ui App.world].
      split; [exact Hone|].
      unfold App.sorted_table_is_cached.
      cbn [App.with_ui App.ui App.db App.world Viewer.sort_column].
      intros Ht. destruct (Hsorted Ht) as (self & Hs & _).
      rewrite Hs in Hdb. discriminate Hdb.
  - (* Search *)
    unfold App.on_search.
    destruct (Viewer.db_loaded (App.ui win) && Py.truthy (Some text)).
    + apply (Hrun true). apply Hsame; reflexivity.
    + unfold App.run; cbn [snd fst]. rewrite with_ui_same.
      split; [exact Hone|exact Hsorted].
  - (* SearchCancel *)
    unfold App.on_search_cancel.
    destruct (Viewer.db_loaded (App.ui win)).
    + apply (Hrun true). apply Hsame; reflexivity.
    + unfold App.run; cbn [snd fst]. rewrite with_ui_same.
      split; [exact Hone|exact Hsorted].
  - (* ColumnClick *)
    destruct (App.list_ctrl win) as [p|] eqn:Hp0;
      [|split; [exact Hone|exact Hsorted]].
    destruct (nth_error (Paging.pg_columns p) col) as [column|];
      [|split; [exact Hone|exact Hsorted]].
    cbv zeta.
    destruct (on_column_click_shape column (App.ui win))
      as (Hreq & _ & _ & _ & Hsel1).
    rewrite Hreq. apply Hrun.
    unfold App.sorted_table_is_cached.
    cbn [App.with_ui App.ui App.db App.world]. rewrite Hsel1.
    intros _.
    destruct Hcached as (self & ref & Hself & Hslot);
      [rewrite Hp0; discriminate|].
    exists self. split; [exact Hself|].
    intros k r Hk. rewrite Hslot in Hk. injection Hk as <- _.
    split; reflexivity.
  - (* PageChange *)
    unfold Viewer.on_page_change.
    destruct (Viewer.db_loaded (App.ui win)
              && (1 <? Viewer.total_pages (App.ui win))%Z).
    + cbv zeta. apply Hrun. apply Hsame; reflexivity.
    + unfold App.run; cbn [snd fst]. rewrite with_ui_same.
      split; [exact Hone|exact Hsorted].
  - (* SetItemsPerPage *)
    destruct (nth_error Menu.items_per_page_options item) as [n|] eqn:Hitem;
      [|split; [exact Hone|exact Hsorted]].
    destruct (menu_label_value item n Hitem) as [Hval _].
    unfold App.on_set_items_per_page. rewrite Hval. cbv zeta.
    cbn [App.set_items_per_page Viewer.db_loaded].
    destruct (Viewer.db_loaded (App.ui win)
              && negb (App.column_count win =? 0)).
    + apply (Hrun true). apply Hsame; reflexivity.
    + unfold App.run; cbn [snd fst App.with_ui App.world].
      split; [exact Hone|]. apply Hsame; reflexivity.
Qed.

Lemma session_cache_invariants (events : list App.Event) :
  App.caches_hold_one_table (App.world (session events))
  /\ App.sorted_table_is_cached (session events).
Proof.
  induction events as [|ev events IH] using rev_ind.
  - split.
    + intros k r Hk. discriminate Hk.
    + intros Ht. discriminate Ht.
  - rewrite session_snoc.
    destruct (session_invariants libs argsort splitext events)
      as (Hcons & Hcached & _).
    destruct IH as [Hone Hsorted].
    now apply step_cache_invariants.
Qed.


End SessionCaches.

(* ------------------------------------------------------------------ *)
(** ** Labels and counts                                                *)
(* ------------------------------------------------------------------ *)

Lemma string_of_uint_digits (d : Decimal.uint) :
  Forall (fun c => In c (list_ascii_of_string "0123456789"))
         (list_ascii_of_string (NilEmpty.string_of_uint d)).
Proof.
  induction d; cbn [NilEmpty.string_of_uint list_ascii_of_string];
    constructor; try assumption; cbn; tauto.
Qed.

Lemma commas_rev_filter (l : list ascii) (k : nat) :
  Forall (fun c => c <> ","%char) l ->
  filter (fun c => negb (Ascii.eqb c ",")) (Text.commas_rev l k) = l.
Proof.
  intros H. revert k. induction H as [|c l Hc _ IH]; intros k;
    [reflexivity|].
  cbn [Text.commas_rev].
  apply Ascii.eqb_neq in Hc.
  destruct (k =? 3); cbn [filter]; rewrite ?Hc; cbn [negb Ascii.eqb];
    cbn; rewrite ?Hc; cbn; now rewrite IH.
Qed.

Lemma commas_rev_chars (l : list ascii) (k : nat) (c : ascii) :
  In c (Text.commas_rev l k) -> c = ","%char \/ In c l.
Proof.
  revert k. induction l as [|d l IH]; intros k; cbn [Text.commas_rev];
    [intros []|].
  destruct (k =? 3); cbn [In].
  - intros [<-|[<-|H]]; auto. apply IH in H. tauto.
  - intros [<-|H]; auto. apply IH in H. tauto.
Qed.

Lemma remove_char_list (c : ascii) (l : list ascii) :
  Text.remove_char c (string_of_list_ascii l)
  = string_of_list_ascii (filter (fun d => negb (Ascii.eqb d c)) l).
Proof.
  induction l as [|d l IH]; cbn; [reflexivity|].
  destruct (Ascii.eqb d c); cbn; now rewrite IH.
Qed.

Lemma before_first_append (sep : ascii) (l : list ascii) (rest : string) :
  ~ In sep l ->
  Text.before_first sep (string_of_list_ascii l ++ String sep rest)
  = string_of_list_ascii l.
Proof.
  induction l as [|d l IH]; cbn; intros Hn.
  - now rewrite Ascii.eqb_refl.
  - destruct (Ascii.eqb_spec d sep) as [->|_]; [tauto|].
    rewrite IH; tauto.
Qed.

(** A text of digits that starts with a digit is read by [int] as the
    number it writes. *)
Lemma int_of_uint_string (d : Decimal.uint) :
  d <> Decimal.Nil ->
  Text.int (NilEmpty.string_of_uint d) = inr (Z.of_N (N.of_uint d)).
Proof.
  intros Hd.
  assert (Hdigits : Text.int_of_digits (NilEmpty.string_of_uint d)
                    = inr (Z.of_N (N.of_uint d))).
  { unfold Text.int_of_digits, NilZero.uint_of_string.
    pose proof (NilEmpty.usu d) as Hu.
    destruct (NilEmpty.string_of_uint d) eqn:E.
    - destruct d; cbn in E; try discriminate E. contradiction.
    - now rewrite Hu. }
  rewrite <- Hdigits.
  destruct d; try contradiction; reflexivity.
Qed.

(** The digits of a page size, as the label writes them and as the
    handler reads them back. *)
Lemma grouped_digits_read_back (m : N) :
  let digits :=
    list_ascii_of_string (NilEmpty.string_of_uint (N.to_uint m)) in
  let grouped := rev (Text.commas_rev (rev digits) 0) in
  ~ In " "%char grouped
  /\ Text.remove_char "," (string_of_list_ascii grouped)
     = NilEmpty.string_of_uint (N.to_uint m).
Proof.
  cbv zeta.
  pose proof (string_of_uint_digits (N.to_uint m)) as Hd.
  set (digits := list_ascii_of_string
                   (NilEmpty.string_of_uint (N.to_uint m))) in *.
  assert (Hnc : Forall (fun c => c <> ","%char) (rev digits)).
  { apply Forall_rev. eapply Forall_impl; [|exact Hd].
    cbn. intros c Hc ->. repeat destruct Hc as [Hc|Hc]; discriminate || auto. }
  split.
  - intros Hin. apply in_rev in Hin.
    apply commas_rev_chars in Hin as [Hin|Hin]; [discriminate Hin|].
    apply in_rev in Hin.
    rewrite Forall_forall in Hd. specialize (Hd _ Hin). cbn in Hd.
    repeat destruct Hd as [Hd|Hd]; discriminate || auto.
  - rewrite remove_char_list, filter_rev, (commas_rev_filter _ _ Hnc),
      rev_involutive.
    subst digits. apply string_of_list_ascii_of_string.
Qed.

Lemma to_uint_nonnil (m : N) : N.to_uint m <> Decimal.Nil.
Proof.
  destruct m; cbn; [discriminate|apply DecimalPos.Unsigned.to_uint_nonnil].
Qed.

(** The page size that [on_set_items_per_page] reads from the label of
    a menu item is the number the label was made from, whatever the
    number: the thousands separators of the label are taken out
    again. *)
Theorem items_per_page_label_round_trip (items_per_page : Z) :
  Menu.label_value (Menu.item_label items_per_page) = inr items_per_page.
Proof.
  unfold Menu.label_value, Menu.item_label, Text.format_thousands.
  destruct (grouped_digits_read_back (Z.abs_N items_per_page))
    as [Hspace Hback].
  set (grouped := rev (Text.commas_rev _ 0)) in *.
  pose proof (int_of_uint_string _ (to_uint_nonnil (Z.abs_N items_per_page)))
    as Hint.
  rewrite DecimalN.Unsigned.of_to, N2Z.inj_abs_N in Hint.
  destruct (Z.ltb_spec items_per_page 0) as [Hneg|Hpos].
  - change (String "-" (string_of_list_ascii grouped)
            ++ " items per page")%string
      with (string_of_list_ascii ("-"%char :: grouped)
            ++ String " " "items per page")%string.
    rewrite before_first_append.
    + cbn [string_of_list_ascii Text.remove_char Ascii.eqb Bool.eqb].
      cbn. rewrite Hback.
      unfold Text.int.
      assert (Hdigits : Text.int_of_digits
                          (NilEmpty.string_of_uint
                             (N.to_uint (Z.abs_N items_per_page)))
                        = inr (Z.abs items_per_page)).
      { rewrite <- Hint. pose proof (to_uint_nonnil (Z.abs_N items_per_page)).
        destruct (N.to_uint (Z.abs_N items_per_page));
          try contradiction; reflexivity. }
      rewrite Hdigits. f_equal. lia.
    + intros [H|H]; [discriminate H|contradiction].
  - change (string_of_list_ascii grouped ++ " items per page")%string
      with (string_of_list_ascii grouped
            ++ String " " "items per page")%string.
    rewrite (before_first_append _ _ _ Hspace), Hback, Hint.
    f_equal. lia.
Qed.

(** The plural ending ['s'[:n ^ 1]] is empty for the count 1 (and for
    a negative number) and is ["s"] for every other count, 0
    included. *)
Theorem plural_suffix_of_count (n : Z) :
  Text.plural_suffix n
  = if ((n <? 0) || (n =? 1))%Z then EmptyString else "s"%string.
Proof.
  assert (Hslice : forall k,
             Paging.py_slice (list_ascii_of_string "s") 0 k
             = if (k <=? 0)%Z then [] else ["s"%char]).
  { intros k. unfold Paging.py_slice, Paging.clamp_index.
    change (Z.of_nat (List.length (list_ascii_of_string "s"))) with 1%Z.
    change (0 <? 0)%Z with false. cbv iota.
    change (Z.to_nat (Z.min 0 1)) with 0. cbn [skipn].
    destruct (Z.leb_spec k 0) as [Hk|Hk].
    - replace (Z.to_nat _) with 0; [reflexivity|].
      destruct (Z.ltb_spec k 0); lia.
    - replace (Z.to_nat _) with 1; [reflexivity|].
      destruct (Z.ltb_spec k 0); lia. }
  unfold Text.plural_suffix. rewrite Hslice.
  destruct (Z.ltb_spec n 0) as [Hneg|Hpos]; cbn [orb].
  - assert (Hx : (Z.lxor n 1 < 0)%Z).
    { apply Z.nle_gt. intros H. apply Z.lxor_nonneg in H. lia. }
    destruct (Z.leb_spec (Z.lxor n 1) 0); [reflexivity|lia].
  - assert (Hx : (0 <= Z.lxor n 1)%Z) by (apply Z.lxor_nonneg; lia).
    destruct (Z.eqb_spec n 1) as [->|Hne]; [reflexivity|].
    assert (Hnz : Z.lxor n 1 <> 0%Z).
    { intros H0. apply Z.lxor_eq in H0. contradiction. }
    destruct (Z.leb_spec (Z.lxor n 1) 0); [lia|reflexivity].
Qed.

(* ------------------------------------------------------------------ *)
(** ** The rows that a session shows                                    *)
(* ------------------------------------------------------------------ *)

Lemma in_py_slice {A : Type} (l : list A) (start stop : Z) (x : A) :
  In x (Paging.py_slice l start stop) -> In x l.
Proof.
  unfold Paging.py_slice. intros H.
  set (a := Z.to_nat (Paging.clamp_index _ start)) in *.
  set (n := Z.to_nat _) in H.
  rewrite <- (firstn_skipn a l). apply in_or_app. right.
  rewrite <- (firstn_skipn n (skipn a l)). apply in_or_app. now left.
Qed.

Lemma in_take {A : Type} (l : list A) (p : list nat) (x : A) :
  In x (Frame.take l p) -> In x l.
Proof.
  unfold Frame.take. rewrite in_flat_map. intros (j & _ & H).
  destruct (nth_error l j) as [y|] eqn:E; [|contradiction].
  destruct H as [<-|[]]. now apply nth_error_In in E.
Qed.

Lemma StronglySorted_skipn {A : Type} (R : A -> A -> Prop) (l : list A)
  (n : nat) :
  StronglySorted R l -> StronglySorted R (skipn n l).
Proof.
  revert l. induction n as [|n IH]; intros l H; [exact H|].
  destruct l as [|x l]; [exact H|]. cbn. apply IH.
  now inversion H.
Qed.

Lemma StronglySorted_firstn {A : Type} (R : A -> A -> Prop) (l : list A)
  (n : nat) :
  StronglySorted R l -> StronglySorted R (firstn n l).
Proof.
  revert l. induction n as [|n IH]; intros l H; [constructor|].
  destruct l as [|x l]; [constructor|]. cbn.
  inversion H as [|? ? Hl Hx]; subst. constructor; [now apply IH|].
  rewrite Forall_forall in *. intros y Hy. apply Hx.
  rewrite <- (firstn_skipn n l). apply in_or_app. now left.
Qed.

Lemma StronglySorted_py_slice {A : Type} (R : A -> A -> Prop) (l : list A)
  (start stop : Z) :
  StronglySorted R l -> StronglySorted R (Paging.py_slice l start stop).
Proof.
  intros H. unfold Paging.py_slice.
  now apply StronglySorted_firstn, StronglySorted_skipn.
Qed.

Lemma StronglySorted_app {A : Type} (R : A -> A -> Prop) (l1 l2 : list A) :
  StronglySorted R l1 -> StronglySorted R l2 ->
  (forall x y, In x l1 -> In y l2 -> R x y) ->
  StronglySorted R (l1 ++ l2).
Proof.
  intros H1 H2 Hcross. induction H1 as [|x l1 Hl1 IH Hx]; [exact H2|].
  cbn. constructor.
  - apply IH. intros a b Ha Hb. apply Hcross; [now right|exact Hb].
  - apply Forall_app. split; [exact Hx|].
    apply Forall_forall. intros y Hy. apply Hcross; [now left|exact Hy].
Qed.

Section ShownRows.

Context {Cell : Type} {ops : Frame.CellOps Cell}.
Variable libs : Connection.Libraries Cell.
Variable argsort : list Cell -> Py.result (list nat).
Variable splitext : string -> string * string.

Local Abbreviation session := (App.session libs argsort splitext).

(** The rows of a view are rows of the table, and are found by the
    query when there is one. *)
Lemma view_rows (df view : Frame.DataFrame Cell) (sc : option string)
  (so : bool) (q : option string) (row : list Cell) :
  Frame.filtered_sorted_df argsort df sc so q = inr view ->
  In row (Frame.rows view) ->
  In row (Frame.rows df)
  /\ Py.if_truthy q (fun q' => Spec.row_found q' row) True.
Proof.
  unfold Frame.filtered_sorted_df.
  set (df1 := Py.if_truthy q _ df).
  assert (H1 : In row (Frame.rows df1) ->
               In row (Frame.rows df)
               /\ Py.if_truthy q (fun q' => Spec.row_found q' row) True).
  { subst df1. destruct q as [[|a q]|]; cbn [Py.if_truthy]; auto.
    rewrite filter_rows_filter, filter_In. intros [Hin Hm].
    split; [exact Hin|]. now apply row_mask_found. }
  destruct sc as [[|a c]|]; cbn [Py.if_truthy];
    try (intros [= <-]; exact H1).
  unfold Frame.sort_values.
  destruct (Frame.column_position _ _); [discriminate|].
  destruct (Frame.nargsort _ _ _); [discriminate|].
  intros [= <-]. cbn [Frame.rows]. intros Hin. apply H1.
  now apply in_take in Hin.
Qed.


(** The rows of a sorted view are in order, top to bottom. *)
Lemma sorted_view_in_order (df view : Frame.DataFrame Cell) (c : string)
  (so : bool) (q : option string) :
  Frame.Sorter argsort ->
  Py.truthy (Some c) = true ->
  Frame.filtered_sorted_df argsort df (Some c) so q = inr view ->
  exists i,
    Frame.label_positions c (Frame.columns view) 0 = [i]
    /\ StronglySorted (App.rows_in_order i so) (Frame.rows view).
Proof.
  intros Hsort Ht Hv.
  pose proof (filtered_sorted_df_columns argsort _ _ _ _ _ Hv) as Hcols.
  revert Hv. unfold Frame.filtered_sorted_df.
  set (df1 := Py.if_truthy q _ df).
  assert (H1 : Frame.columns df1 = Frame.columns df).
  { subst df1. destruct q as [[|a q]|]; reflexivity. }
  destruct c as [|a c]; [discriminate Ht|]. cbn [Py.if_truthy].
  destruct (Frame.column_position (String a c) (Frame.columns df1))
    as [e|i] eqn:Hpos.
  { unfold Frame.sort_values. rewrite Hpos. discriminate. }
  destruct (argsort (Frame.sort_input
                       (map (Frame.key_at i) (Frame.rows df1)) so))
    as [e|order] eqn:Hret.
  { rewrite (sort_values_raises argsort df1 (String a c) i so e Hpos Hret).
    discriminate. }
  destruct (sort_values_rows argsort Hsort df1 (String a c) i so order
              Hpos Hret) as (Hsv & _ & Hkeys & Hord).
  rewrite Hsv. intros [= <-]. cbn [Frame.columns Frame.rows].
  exists i. split.
  { unfold Frame.column_position in Hpos.
    destruct (Frame.label_positions _ _ 0) as [|j [|j' l]];
      try discriminate Hpos. now injection Hpos as ->. }
  set (keys := map (Frame.key_at i) (Frame.rows df1)) in *.
  set (items := Frame.sorted_items order keys so) in *.
  set (present := Frame.take (Frame.rows df1) (map fst items)) in *.
  apply StronglySorted_app.
  - (* the rows that have a value *)
    clearbody present. clear - Hkeys Hord.
    revert present Hkeys.
    induction Hord as [|k ks Hks IH Hk]; intros present Hkeys.
    + destruct present; [constructor|discriminate Hkeys].
    + destruct present as [|r present]; [discriminate Hkeys|].
      cbn [map] in Hkeys. injection Hkeys as Hr Hrest.
      constructor; [now apply IH|].
      apply Forall_forall. intros r' Hr'.
      apply (in_map (Frame.key_at i)) in Hr'. rewrite Hrest in Hr'.
      apply in_map_iff in Hr' as (k' & Hk' & Hin').
      unfold App.rows_in_order. rewrite Hr, <- Hk'.
      rewrite Forall_forall in Hk. specialize (Hk k' Hin').
      unfold Spec.key_in_order in Hk. exact Hk.
  - (* the rows that have none *)
    clear.
    induction (Frame.rows df1) as [|r rows IH]; cbn [filter];
      [constructor|].
    destruct (Spec.key_missing i r) eqn:Hm; [|exact IH].
    constructor; [exact IH|].
    apply Forall_forall. intros r' Hr'. apply filter_In in Hr' as [_ Hm'].
    unfold Spec.key_missing in Hm, Hm'. unfold App.rows_in_order.
    destruct (Frame.key_at i r); [discriminate Hm|].
    now destruct (Frame.key_at i r').
  - intros r r' Hr Hr'. apply filter_In in Hr' as [_ Hm'].
    unfold Spec.key_missing in Hm'. unfold App.rows_in_order.
    destruct (Frame.key_at i r') eqn:E'; [discriminate Hm'|].
    now destruct (Frame.key_at i r).
Qed.

(** The list form of two rows in order is in order: [.values.tolist()]
    keeps a missing value missing and two values in their order. *)
Lemma key_at_tolist (d : Frame.DataFrame Cell) (i : nat)
  (row : list Cell) :
  Frame.key_at i (map (Frame.cell_tolist d) row)
  = option_map (Frame.cell_tolist d) (Frame.key_at i row).
Proof.
  unfold Frame.key_at. rewrite nth_error_map.
  destruct (nth_error row i) as [c|]; [|reflexivity].
  cbn [option_map]. rewrite Frame.tolist_isna.
  now destruct (Frame.cell_isna c).
Qed.

Lemma key_at_present (i : nat) (row : list Cell) (v : Cell) :
  Frame.key_at i row = Some v -> Frame.cell_isna v = false.
Proof.
  unfold Frame.key_at. destruct (nth_error row i) as [c|]; [|discriminate].
  destruct (Frame.cell_isna c) eqn:E; [discriminate|].
  now intros [= <-].
Qed.

Lemma rows_in_order_tolist (d : Frame.DataFrame Cell) (i : nat)
  (ascending : bool) (upper lower : list Cell) :
  App.rows_in_order i ascending upper lower ->
  App.rows_in_order i ascending (map (Frame.cell_tolist d) upper)
    (map (Frame.cell_tolist d) lower).
Proof.
  unfold App.rows_in_order. rewrite !key_at_tolist.
  destruct (Frame.key_at i upper) as [a|] eqn:Ha,
           (Frame.key_at i lower) as [b|] eqn:Hb;
    cbn [option_map]; auto.
  apply key_at_present in Ha, Hb.
  destruct ascending; intros H; now apply Frame.tolist_order.
Qed.

Lemma StronglySorted_map {A B : Type} (R : A -> A -> Prop)
  (R' : B -> B -> Prop) (f : A -> B) (l : list A) :
  (forall x y, R x y -> R' (f x) (f y)) ->
  StronglySorted R l -> StronglySorted R' (map f l).
Proof.
  intros Hf. induction 1 as [|x l Hl IH Hx]; cbn; constructor;
    [exact IH|].
  apply Forall_map. eapply Forall_impl; [|exact Hx]. intros y. apply Hf.
Qed.



End ShownRows.

(* ------------------------------------------------------------------ *)
(** ** Copying rows                                                     *)
(* ------------------------------------------------------------------ *)

Lemma skipn_cons_nth {A : Type} (l : list A) (k : nat) (x : A)
  (rest : list A) :
  skipn k l = x :: rest -> nth_error l k = Some x /\ skipn (S k) l = rest.
Proof.
  revert l. induction k as [|k IH]; intros [|y l] H; cbn in H;
    try discriminate H.
  - injection H as -> ->. split; reflexivity.
  - apply IH in H. exact H.
Qed.

(** The loop of [on_copy] from the first selected item of a rest of the
    list on: it ends, and has added the cells of the selected items of
    that rest, in order. *)
Lemma copy_loop_selected (lc : Clipboard.ListCtrl)
  (rest : list (bool * list string)) :
  forall (k fuel : nat) (data : list (list string)),
    skipn k (Clipboard.items lc) = rest ->
    List.length rest <= fuel ->
    Clipboard.copy_loop fuel lc
      (Clipboard.first_selected_from (map fst rest) k) data
    = Some (data
            ++ map (fun it => map (fun col => nth col (snd it) EmptyString)
                                  (seq 0 (Clipboard.column_count lc)))
                   (filter fst rest)).
Proof.
  induction rest as [|[b texts] rest IH]; intros k fuel data Hk Hfuel.
  - cbn. rewrite app_nil_r. now destruct fuel.
  - apply skipn_cons_nth in Hk as [Hnth Hrest].
    cbn [map fst Clipboard.first_selected_from filter].
    destruct b.
    + destruct fuel as [|fuel]; [cbn in Hfuel; lia|].
      cbn [Clipboard.copy_loop].
      destruct (Z.eqb_spec (Z.of_nat k) (-1)) as [Hbad|_]; [lia|].
      unfold Clipboard.GetNextSelected.
      replace (Z.to_nat (Z.of_nat k + 1)) with (S k) by lia.
      rewrite skipn_map, Hrest.
      rewrite (IH (S k) fuel _ Hrest ltac:(cbn in Hfuel; lia)).
      rewrite <- app_assoc. cbn [map app snd]. do 3 f_equal.
      apply map_ext. intros col. unfold Clipboard.item_text.
      now rewrite Nat2Z.id, Hnth.
    + apply (IH (S k) fuel data Hrest). cbn in Hfuel. lia.
Qed.

(** [on_copy] ends within as many turns as the list has items, and what
    it copies are the cells of the selected items, in the order of the
    list; with no item selected nothing is put on the clipboard. *)
Theorem on_copy_copies_the_selected_rows (lc : Clipboard.ListCtrl)
  (fuel : nat) (clipboard_opens : bool) :
  List.length (Clipboard.items lc) <= fuel ->
  Clipboard.on_copy fuel lc clipboard_opens
  = Some match Clipboard.selected_rows lc with
         | [] => Clipboard.NoRowsSelected
         | row :: others =>
             if clipboard_opens then
               Clipboard.Copied
                 (Clipboard.clipboard_text (row :: others))
                 (List.length (filter fst (Clipboard.items lc)))
             else Clipboard.ClipboardError
         end.
Proof.
  intros Hfuel. unfold Clipboard.on_copy, Clipboard.GetFirstSelected,
    Clipboard.GetNextSelected.
  change (Z.to_nat (-1 + 1)) with 0. cbn [skipn].
  rewrite (copy_loop_selected lc (Clipboard.items lc) 0 fuel [] eq_refl
             Hfuel).
  cbn [app]. fold (Clipboard.selected_rows lc).
  assert (Hlen : List.length (Clipboard.selected_rows lc)
                 = List.length (filter fst (Clipboard.items lc)))
    by apply length_map.
  destruct (Clipboard.selected_rows lc) as [|row others];
    [reflexivity|].
  destruct clipboard_opens; [|reflexivity]. do 2 f_equal. exact Hlen.
Qed.

Lemma has_char_append (c : ascii) (a b : string) :
  Text.has_char c (a ++ b) = Text.has_char c a || Text.has_char c b.
Proof.
  induction a as [|d a IH]; cbn; [reflexivity|].
  now rewrite IH, orb_assoc.
Qed.

Lemma split_no_sep (sep : ascii) (s : string) :
  Text.has_char sep s = false -> Text.split sep s = [s].
Proof.
  induction s as [|c s IH]; cbn; [reflexivity|].
  intros H. apply orb_false_iff in H as [Hc Hs].
  rewrite Hc, (IH Hs). reflexivity.
Qed.

Lemma split_append (sep : ascii) (x rest : string) :
  Text.has_char sep x = false ->
  Text.split sep (x ++ String sep rest) = x :: Text.split sep rest.
Proof.
  induction x as [|c x IH]; cbn.
  - intros _. now rewrite Ascii.eqb_refl.
  - intros H. apply orb_false_iff in H as [Hc Hs].
    rewrite Hc, (IH Hs). reflexivity.
Qed.

Lemma join_cons (sep : ascii) (x y : string) (l : list string) :
  Text.join (String sep EmptyString) (x :: y :: l)
  = (x ++ String sep (Text.join (String sep EmptyString) (y :: l)))%string.
Proof. reflexivity. Qed.

Lemma split_join (sep : ascii) (l : list string) :
  l <> [] ->
  Forall (fun x => Text.has_char sep x = false) l ->
  Text.split sep (Text.join (String sep EmptyString) l) = l.
Proof.
  intros Hne H. induction H as [|x l Hx Hl IH]; [contradiction|].
  destruct l as [|y l].
  - cbn. now apply split_no_sep.
  - rewrite join_cons, (split_append _ _ _ Hx), IH;
      [reflexivity|discriminate].
Qed.

Lemma has_char_join (c sep : ascii) (l : list string) :
  c <> sep ->
  Forall (fun x => Text.has_char c x = false) l ->
  Text.has_char c (Text.join (String sep EmptyString) l) = false.
Proof.
  intros Hne H. induction H as [|x l Hx Hl IH]; [reflexivity|].
  destruct l as [|y l]; [exact Hx|].
  rewrite join_cons, has_char_append, Hx.
  cbn [Text.has_char orb]. rewrite IH.
  apply Ascii.eqb_neq in Hne. rewrite Ascii.eqb_sym in Hne.
  now rewrite Hne.
Qed.

(** The text put on the clipboard can be cut back into the rows and
    cells it was made of, at the newlines and the tabs, whenever there
    is a row, every row has a cell, and no cell holds a tab or a
    newline. *)
Theorem clipboard_text_splits_back (data : list (list string)) :
  data <> [] ->
  (forall row, In row data ->
     row <> []
     /\ forall cell, In cell row ->
          Text.has_char Text.tab cell = false
          /\ Text.has_char Text.newline cell = false) ->
  map (Text.split Text.tab)
      (Text.split Text.newline (Clipboard.clipboard_text data))
  = data.
Proof.
  intros Hne Hcells. unfold Clipboard.clipboard_text.
  rewrite split_join.
  - rewrite map_map. rewrite <- (map_id data) at 2.
    apply map_ext_in. intros row Hrow.
    destruct (Hcells row Hrow) as [Hr Hc].
    apply split_join; [exact Hr|].
    apply Forall_forall. intros cell Hcell. now apply Hc.
  - destruct data; [contradiction|discriminate].
  - apply Forall_forall. intros line Hline.
    apply in_map_iff in Hline as (row & <- & Hrow).
    destruct (Hcells row Hrow) as [_ Hc].
    apply has_char_join; [discriminate|].
    apply Forall_forall. intros cell Hcell. now apply Hc.
Qed.

(* ------------------------------------------------------------------ *)
(** ** The layout of the list                                           *)
(* ------------------------------------------------------------------ *)

Lemma widths_lookup (C : list (string * Z)) (d0 : Layout.Dict Z)
  (h : string) :
  (~ In h (map fst C) ->
   Layout.dict_get
     (fold_left (fun d c => Layout.dict_set d (fst c) (snd c)) C d0) h
   = Layout.dict_get d0 h)
  /\ (forall w, NoDup (map fst C) -> In (h, w) C ->
      Layout.dict_get
        (fold_left (fun d c => Layout.dict_set d (fst c) (snd c)) C d0) h
      = Some w).
Proof.
  revert d0. induction C as [|[k v] C IH]; intros d0; cbn [fold_left map fst snd].
  - split; [reflexivity|]. intros w _ [].
  - split.
    + intros Hn. cbn [In] in Hn.
      rewrite (proj1 (IH _)) by tauto.
      cbn [Layout.dict_set Layout.dict_get].
      destruct (String.eqb_spec k h) as [->|_]; [tauto|reflexivity].
    + intros w Hnd Hin. inversion Hnd as [|? ? Hk Hnd']; subst.
      destruct Hin as [[= -> ->]|Hin].
      * rewrite (proj1 (IH _)) by exact Hk.
        cbn [Layout.dict_set Layout.dict_get]. now rewrite String.eqb_refl.
      * now apply (proj2 (IH _)).
Qed.

Lemma dict_get_set_same {V : Type} (d : Layout.Dict V) (k : string) (v : V) :
  Layout.dict_get (Layout.dict_set d k v) k = Some v.
Proof. cbn. now rewrite String.eqb_refl. Qed.

Lemma dict_get_set_other {V : Type} (d : Layout.Dict V) (k k' : string)
  (v : V) :
  k <> k' ->
  Layout.dict_get (Layout.dict_set d k v) k' = Layout.dict_get d k'.
Proof.
  intros Hne. cbn. destruct (String.eqb_spec k k'); [contradiction|reflexivity].
Qed.

Section LayoutProps.

Context {Cell : Type}.
Variable str : Cell -> string.
Variable text_extent : string -> Z.

Local Abbreviation display_table := (Layout.display_table str text_extent).

Lemma insert_columns_spec (widths : Layout.Dict Z) (columns : list string)
  (lc : Layout.ListCtrl) :
  Layout.insert_columns text_extent widths columns lc
  = Layout.mkList
      (Layout.cols lc
       ++ map (fun h => (h, match Layout.dict_get widths h with
                            | Some w => w
                            | None => (text_extent h + 40)%Z
                            end)) columns)
      (Layout.order lc
       ++ seq (List.length (Layout.cols lc)) (List.length columns))
      (Layout.items lc).
Proof.
  revert lc. induction columns as [|h columns IH]; intros lc.
  - cbn. rewrite !app_nil_r. now destruct lc.
  - cbn [Layout.insert_columns]. rewrite IH.
    cbn [Layout.InsertColumn Layout.cols Layout.order Layout.items
         map List.length seq].
    rewrite <- !app_assoc, length_app. cbn [app List.length].
    now replace (List.length (Layout.cols lc) + 1)
      with (S (List.length (Layout.cols lc))) by lia.
Qed.

Lemma insert_items_spec (rows : list (list Cell)) (lc : Layout.ListCtrl) :
  Forall (fun row => row <> []) rows ->
  Layout.insert_items str rows lc
  = inr (Layout.mkList (Layout.cols lc) (Layout.order lc)
           (Layout.items lc
            ++ map (fun row => (false, map str row)) rows)).
Proof.
  intros H. revert lc. induction H as [|row rows Hrow _ IH]; intros lc.
  - cbn. rewrite app_nil_r. now destruct lc.
  - destruct row as [|cell cells]; [contradiction|].
    cbn [Layout.insert_items]. rewrite IH.
    cbn [Layout.cols Layout.order Layout.items map].
    now rewrite <- app_assoc.
Qed.

(** A list shown from attributes that were saved from a list [lc] has
    the columns, widths and order of [lc]. *)
Lemma display_restores (column_attr : Layout.Dict Layout.Value)
  (table_name : string) (rows : list (list Cell)) (lc : Layout.ListCtrl) :
  Layout.dict_get column_attr table_name
  = Some (Layout.VAttr
            (Layout.mkAttr (Some (Layout.order lc))
               (Layout.widths_by_heading lc))) ->
  NoDup (map fst (Layout.cols lc)) ->
  Layout.cols lc <> [] ->
  List.length (Layout.order lc) = List.length (Layout.cols lc) ->
  Forall (fun row => row <> []) rows ->
  display_table column_attr table_name rows (map fst (Layout.cols lc))
  = inr (Layout.mkList (Layout.cols lc) (Layout.order lc)
           (map (fun row => (false, map str row)) rows)).
Proof.
  intros Hget Hnd Hne Hlen Hrows. unfold Layout.display_table, Layout.attr_of.
  rewrite Hget. cbn [Layout.col_widths Layout.col_order].
  destruct (map fst (Layout.cols lc)) as [|h hs] eqn:Hh.
  { destruct (Layout.cols lc); [contradiction|discriminate Hh]. }
  rewrite <- Hh in *. clear Hh h hs.
  rewrite insert_columns_spec, (insert_items_spec _ _ Hrows).
  cbn [Layout.ClearAll Layout.cols Layout.order Layout.items app
       List.length].
  assert (Hcols : map (fun h0 =>
                         (h0, match Layout.dict_get
                                      (Layout.widths_by_heading lc) h0 with
                              | Some w => w
                              | None => (text_extent h0 + 40)%Z
                              end)) (map fst (Layout.cols lc))
                  = Layout.cols lc).
  { rewrite map_map. rewrite <- (map_id (Layout.cols lc)) at 2.
    apply map_ext_in. intros [k w] Hin. cbn [fst].
    unfold Layout.widths_by_heading.
    now rewrite (proj2 (widths_lookup (Layout.cols lc) [] k) w Hnd Hin). }
  rewrite Hcols.
  destruct (Layout.order lc) as [|i os] eqn:Ho.
  { destruct (Layout.cols lc); [contradiction|discriminate Hlen]. }
  unfold Layout.SetColumnsOrder. cbn [Layout.cols Layout.items].
  rewrite Hlen, Nat.eqb_refl. reflexivity.
Qed.

(** Loading the table that is shown again (turning the page, sorting,
    searching) keeps the layout of the list: [save_column_attr] stores
    the widths and the order of the columns under the table's name and
    [display_table] puts them back.  This needs a table name that is
    not empty and is not the key ["current_table"], and headings that
    differ from one another. *)
Theorem layout_survives_a_reload (table_name : string)
  (lc : Layout.ListCtrl) (column_attr : Layout.Dict Layout.Value)
  (rows : list (list Cell)) :
  Layout.dict_get column_attr Layout.current_table_key
  = Some (Layout.VName table_name) ->
  table_name <> Layout.current_table_key ->
  table_name <> EmptyString ->
  NoDup (map fst (Layout.cols lc)) ->
  Layout.cols lc <> [] ->
  List.length (Layout.order lc) = List.length (Layout.cols lc) ->
  Forall (fun row => row <> []) rows ->
  let saved := Layout.save_column_attr table_name lc column_attr in
  snd saved = None
  /\ display_table (fst saved) table_name rows (map fst (Layout.cols lc))
     = inr (Layout.mkList (Layout.cols lc) (Layout.order lc)
              (map (fun row => (false, map str row)) rows)).
Proof.
  intros Hcur Hkey Hname Hnd Hne Hlen Hrows. cbv zeta.
  unfold Layout.save_column_attr. rewrite Hcur.
  destruct table_name as [|a name]; [contradiction|].
  cbn [Py.truthy fst snd]. split; [reflexivity|].
  apply display_restores; try assumption.
  rewrite dict_get_set_same.
  destruct (Layout.cols lc); [contradiction|reflexivity].
Qed.

(** The layout of a table survives a visit to another table: what was
    saved when the other table was loaded is put back when the first
    one is shown again, whatever the list looked like in between. *)
Theorem layout_survives_a_visit_elsewhere (first other : string)
  (lc between : Layout.ListCtrl) (column_attr : Layout.Dict Layout.Value)
  (rows : list (list Cell)) :
  Layout.dict_get column_attr Layout.current_table_key
  = Some (Layout.VName first) ->
  first <> other ->
  first <> Layout.current_table_key ->
  other <> Layout.current_table_key ->
  first <> EmptyString ->
  other <> EmptyString ->
  NoDup (map fst (Layout.cols lc)) ->
  Layout.cols lc <> [] ->
  List.length (Layout.order lc) = List.length (Layout.cols lc) ->
  Forall (fun row => row <> []) rows ->
  let leaving := Layout.save_column_attr other lc column_attr in
  let returning := Layout.save_column_attr first between (fst leaving) in
  snd leaving = None
  /\ snd returning = None
  /\ display_table (fst returning) first rows (map fst (Layout.cols lc))
     = inr (Layout.mkList (Layout.cols lc) (Layout.order lc)
              (map (fun row => (false, map str row)) rows)).
Proof.
  intros Hcur Hdiff Hk1 Hk2 Hn1 Hn2 Hnd Hne Hlen Hrows. cbv zeta.
  set (attr1 :=
         Layout.dict_set
           (Layout.dict_set column_attr Layout.current_table_key
              (Layout.VName other))
           first
           (Layout.VAttr
              (Layout.mkAttr
                 (if List.length (Layout.cols lc) =? 0 then None
                  else Some (Layout.order lc))
                 (Layout.widths_by_heading lc)))).
  assert (Hleave : Layout.save_column_attr other lc column_attr
                   = (attr1, None)).
  { unfold Layout.save_column_attr. rewrite Hcur.
    destruct first; [contradiction|reflexivity]. }
  rewrite Hleave. cbn [fst snd].
  assert (Hcur1 : Layout.dict_get attr1 Layout.current_table_key
                  = Some (Layout.VName other)).
  { subst attr1. rewrite dict_get_set_other by exact Hk1.
    apply dict_get_set_same. }
  unfold Layout.save_column_attr. rewrite Hcur1.
  destruct other as [|b other']; [contradiction|].
  cbn [Py.truthy fst snd].
  split; [reflexivity|]. split; [reflexivity|].
  apply display_restores; try assumption.
  rewrite dict_get_set_other by (intros E; apply Hdiff; now symmetry).
  rewrite dict_get_set_other by (intros E; apply Hk1; now symmetry).
  subst attr1. rewrite dict_get_set_same.
  destruct (Layout.cols lc); [contradiction|reflexivity].
Qed.

(** Select all, then copy: the clipboard gets the page as the list
    shows it, every row with the texts of its cells, in order. *)
Theorem select_all_then_copy_copies_the_page
  (column_attr : Layout.Dict Layout.Value) (table_name : string)
  (rows : list (list Cell)) (columns : list string)
  (lc : Layout.ListCtrl) (fuel : nat) :
  display_table column_attr table_name rows columns = inr lc ->
  rows <> [] ->
  Forall (fun row => List.length row = List.length columns) rows ->
  List.length rows <= fuel ->
  Clipboard.on_copy fuel (Layout.copy_source (Layout.on_select_all lc)) true
  = Some (Clipboard.Copied
            (Clipboard.clipboard_text (map (map str) rows))
            (List.length rows)).
Proof.
  intros Hshow Hne Hrect Hfuel.
  assert (Hlc : List.length (Layout.cols lc) = List.length columns
                /\ Layout.items lc
                   = map (fun row => (false, map str row)) rows).
  { revert Hshow. unfold Layout.display_table.
    destruct columns as [|h hs].
    - (* no column: every row is empty, and [row[0]] raises *)
      destruct rows as [|row rows']; [contradiction|].
      inversion Hrect as [|? ? Hrow _]; subst.
      destruct row; [|discriminate Hrow]. cbn. discriminate.
    - destruct (Layout.attr_of column_attr table_name) as [e|a];
        [discriminate|].
      rewrite insert_columns_spec.
      assert (Hrows : Forall (fun row : list Cell => row <> []) rows).
      { eapply Forall_impl; [|exact Hrect]. cbn. intros row Hl ->.
        discriminate Hl. }
      rewrite (insert_items_spec _ _ Hrows).
      cbn [Layout.ClearAll Layout.cols Layout.order Layout.items app].
      assert (Hdone : forall o,
                 Layout.mkList
                   (map (fun h0 =>
                           (h0, match Layout.dict_get (Layout.col_widths a)
                                        h0 with
                                | Some w => w
                                | None => (text_extent h0 + 40)%Z
                                end)) (h :: hs))
                   o (map (fun row => (false, map str row)) rows) = lc ->
                 List.length (Layout.cols lc) = List.length (h :: hs)
                 /\ Layout.items lc
                    = map (fun row => (false, map str row)) rows).
      { intros o <-. cbn [Layout.cols Layout.items].
        split; [now rewrite length_map|reflexivity]. }
      destruct (Layout.col_order a) as [[|i os]|].
      * intros [= H]. exact (Hdone _ H).
      * unfold Layout.SetColumnsOrder. cbn [Layout.cols Layout.items].
        match goal with
        | |- context [Nat.eqb ?x ?y] => destruct (Nat.eqb x y)
        end; [|discriminate].
        intros [= H]. exact (Hdone _ H).
      * intros [= H]. exact (Hdone _ H). }
  destruct Hlc as [Hcount Hitems].
  set (src := Layout.copy_source (Layout.on_select_all lc)).
  assert (Hf : List.length (Clipboard.items src) <= fuel).
  { subst src.
    cbn [Layout.copy_source Layout.on_select_all Clipboard.items
         Layout.items]. rewrite Hitems, !length_map. exact Hfuel. }
  unfold Clipboard.on_copy, Clipboard.GetFirstSelected,
    Clipboard.GetNextSelected.
  change (Z.to_nat (-1 + 1)) with 0. cbn [skipn].
  rewrite (copy_loop_selected src (Clipboard.items src) 0 fuel [] eq_refl
             Hf).
  subst src.
  cbn [app Layout.copy_source Layout.on_select_all Clipboard.items
       Clipboard.column_count Layout.items Layout.cols].
  rewrite Hitems, Hcount, map_map. cbn [snd].
  assert (Hall : filter fst
                   (map (fun row : list Cell => (true, map str row)) rows)
                 = map (fun row => (true, map str row)) rows).
  { clear. induction rows as [|r rs IH]; cbn; [reflexivity|].
    now rewrite IH. }
  rewrite Hall, map_map. cbn [snd].
  assert (Hcells : map (fun row : list Cell =>
                          map (fun col => nth col (map str row) EmptyString)
                              (seq 0 (List.length columns))) rows
                   = map (map str) rows).
  { apply map_ext_in. intros row Hrow.
    rewrite Forall_forall in Hrect. specialize (Hrect row Hrow).
    rewrite <- Hrect, <- (length_map str row).
    clear. induction (map str row) as [|x l IH]; [reflexivity|].
    cbn [List.length seq map nth]. f_equal.
    rewrite <- seq_shift, map_map. exact IH. }
  rewrite Hcells.
  destruct rows as [|row rows']; [contradiction|].
  cbn [map]. do 2 f_equal. cbn [List.length]. now rewrite length_map.
Qed.

Lemma fold_max_spec (l : list Z) (x : Z) :
  (x <= fold_left Z.max l x)%Z
  /\ (forall y, In y l -> (y <= fold_left Z.max l x)%Z)
  /\ (fold_left Z.max l x = x \/ In (fold_left Z.max l x) l).
Proof.
  revert x. induction l as [|y l IH]; intros x; cbn [fold_left In].
  - split; [lia|]. split; [intros y []|now left].
  - destruct (IH (Z.max x y)) as (H1 & H2 & H3).
    split; [lia|]. split.
    + intros z [<-|Hz]; [lia|now apply H2].
    + destruct H3 as [H3|H3]; [|now right; right].
      rewrite H3. destruct (Z.max_spec x y) as [[_ ->]|[_ ->]];
        [right; now left|now left].
Qed.

(** On a list with items, the loop of [on_auto_size_columns] returns:
    every heading keeps its place and gets a width. *)
Lemma auto_size_from_spec (lc : Layout.ListCtrl) (todo : list (string * Z))
  (i : nat) :
  Layout.items lc <> [] ->
  exists sized,
    Layout.auto_size_from text_extent lc i todo = inr sized
    /\ map fst sized = map fst todo
    /\ forall j heading w,
         nth_error sized j = Some (heading, w) ->
         Layout.auto_width text_extent lc (i + j) heading = inr w.
Proof.
  intros Hitems. revert i.
  induction todo as [|[heading w0] todo IH]; intros i.
  - exists []. split; [reflexivity|]. split; [reflexivity|].
    intros [|j] heading w H; discriminate H.
  - cbn [Layout.auto_size_from].
    assert (Hw : exists w, Layout.auto_width text_extent lc i heading
                           = inr w).
    { unfold Layout.auto_width, Layout.py_max.
      destruct (Layout.items lc); [contradiction|]. cbn [map].
      eexists. reflexivity. }
    destruct Hw as [w Hw]. rewrite Hw.
    destruct (IH (S i)) as (sized & -> & Hfst & Hall).
    exists ((heading, w) :: sized). split; [reflexivity|].
    split; [cbn; now rewrite Hfst|].
    intros [|j] heading' w' H; cbn in H.
    + injection H as <- <-. now rewrite Nat.add_0_r.
    + replace (i + S j) with (S i + j) by lia. now apply Hall.
Qed.

(** [on_auto_size_columns] does not raise on a list that is cleared or
    shows rows (the two states in which [load_table_data] leaves it):
    [max] always has an item to look at.  Every column then is as wide
    as its widest text needs, heading included, and no wider. *)
Theorem auto_size_fits_every_cell (lc : Layout.ListCtrl) :
  Layout.cols lc = [] \/ Layout.items lc <> [] ->
  exists sized,
    Layout.on_auto_size_columns text_extent lc
    = inr (Layout.mkList sized (Layout.order lc) (Layout.items lc))
    /\ map fst sized = map fst (Layout.cols lc)
    /\ forall i heading w,
         nth_error sized i = Some (heading, w) ->
         (text_extent heading + 40 <= w)%Z
         /\ (forall it, In it (Layout.items lc) ->
               (text_extent (Layout.GetItemText it i) + 40 <= w)%Z)
         /\ (w = (text_extent heading + 40)%Z
             \/ exists it, In it (Layout.items lc)
                  /\ w = (text_extent (Layout.GetItemText it i) + 40)%Z).
Proof.
  intros [Hcols|Hitems].
  - exists []. unfold Layout.on_auto_size_columns. rewrite Hcols.
    split; [reflexivity|]. split; [reflexivity|].
    intros [|i] heading w H; discriminate H.
  - destruct (auto_size_from_spec lc (Layout.cols lc) 0 Hitems)
      as (sized & Hrun & Hfst & Hall).
    exists sized. unfold Layout.on_auto_size_columns. rewrite Hrun.
    split; [reflexivity|]. split; [exact Hfst|].
    intros i heading w Hi. specialize (Hall i heading w Hi).
    cbn [plus] in Hall. revert Hall.
    unfold Layout.auto_width, Layout.py_max.
    destruct (Layout.items lc) as [|it0 its] eqn:Hits; [contradiction|].
    cbn [map]. intros [= <-].
    set (f := fun it => (text_extent (Layout.GetItemText it i) + 40)%Z).
    destruct (fold_max_spec (map f its) (f it0)) as (H1 & H2 & H3).
    split; [lia|]. split.
    + intros it [<-|Hin].
      * unfold f in *. lia.
      * specialize (H2 (f it) (in_map f its it Hin)). unfold f in *. lia.
    + change (text_extent (Layout.GetItemText it0 i) + 40)%Z
        with (f it0).
      destruct (Z.max_spec (text_extent heading + 40)
                  (fold_left Z.max (map f its) (f it0)))
        as [[_ ->]|[_ ->]]; [|now left].
      right. destruct H3 as [->|H3].
      * exists it0. split; [now left|reflexivity].
      * apply in_map_iff in H3 as (it & Hf & Hin).
        exists it. split; [now right|]. now rewrite <- Hf.
Qed.

(** Resetting the columns gives the layout in which a table is shown
    the first time, when nothing is saved for it: every column at the
    width of its heading plus 40, in the order of the frame. *)
Theorem reset_gives_the_first_layout (lc : Layout.ListCtrl)
  (table_name : string) (rows : list (list Cell)) :
  Layout.cols lc <> [] ->
  List.length (Layout.order lc) = List.length (Layout.cols lc) ->
  Forall (fun row => row <> []) rows ->
  exists reset shown,
    Layout.on_reset_columns text_extent lc = inr reset
    /\ display_table [] table_name rows (map fst (Layout.cols lc))
       = inr shown
    /\ Layout.cols reset = Layout.cols shown
    /\ Layout.order reset = Layout.order shown
    /\ Layout.items reset = Layout.items lc.
Proof.
  intros Hne Hlen Hrows.
  unfold Layout.on_reset_columns, Layout.SetColumnsOrder.
  destruct (Nat.eqb_spec (List.length (Layout.cols lc)) 0) as [H0|_].
  { destruct (Layout.cols lc); [contradiction|discriminate H0]. }
  rewrite length_seq, Nat.eqb_refl.
  cbn [Layout.cols Layout.order Layout.items].
  eexists. unfold Layout.display_table, Layout.attr_of.
  cbn [Layout.dict_get Layout.col_widths Layout.col_order].
  destruct (map fst (Layout.cols lc)) as [|h hs] eqn:Hh.
  { destruct (Layout.cols lc); [contradiction|discriminate Hh]. }
  rewrite <- Hh. clear Hh h hs.
  rewrite insert_columns_spec, (insert_items_spec _ _ Hrows).
  cbn [Layout.ClearAll Layout.cols Layout.order Layout.items app
       List.length Layout.dict_get].
  eexists. split; [reflexivity|]. split; [reflexivity|].
  cbn [Layout.cols Layout.order Layout.items].
  rewrite map_map, length_map. repeat split.
Qed.

End LayoutProps.

(* ------------------------------------------------------------------ *)
(** ** The column selection dialog                                      *)
(* ------------------------------------------------------------------ *)

Lemma marked_from_range (marks : list bool) (i j : nat) :
  In j (Dialog.marked_from marks i) -> i <= j < i + List.length marks.
Proof.
  revert i. induction marks as [|b marks IH]; intros i; cbn;
    [intros []|].
  destruct b; cbn [In].
  - intros [<-|H]; [lia|]. apply IH in H. lia.
  - intros H. apply IH in H. lia.
Qed.

Lemma GetSelections_range (count : nat) (marks : list bool) (j : nat) :
  In j (Dialog.GetSelections count marks) -> j < count.
Proof.
  unfold Dialog.GetSelections. intros H. apply marked_from_range in H.
  pose proof (firstn_le_length count marks). lia.
Qed.

Lemma pick_in_range (columns : list string) (selected : list nat) :
  (forall j, In j selected -> j < List.length columns) ->
  exists cs,
    Dialog.pick columns selected = inr cs
    /\ List.length cs = List.length selected
    /\ forall c, In c cs -> In c columns.
Proof.
  induction selected as [|i selected IH]; intros Hr.
  - exists []. repeat split. intros c [].
  - destruct IH as (cs & Hcs & Hlen & Hin).
    { intros j Hj. apply Hr. now right. }
    cbn [Dialog.pick].
    destruct (nth_error columns i) as [c|] eqn:Hi.
    + rewrite Hcs. exists (c :: cs). split; [reflexivity|].
      split; [cbn; now rewrite Hlen|].
      intros c' [<-|Hc']; [now apply nth_error_In in Hi|now apply Hin].
    + apply nth_error_None in Hi. specialize (Hr i (or_introl eq_refl)).
      lia.
Qed.

Lemma ShowModal_ended (count : nat) (min_count : Z) (max_count : option Z)
  (actions : list Dialog.Action) (selected : list nat) :
  Dialog.ShowModal count min_count max_count actions = Some selected ->
  Dialog._on_ok min_count max_count selected = Dialog.EndModalOk
  /\ forall j, In j selected -> j < count.
Proof.
  induction actions as [|[marks|] actions IH]; cbn; try discriminate.
  destruct (Dialog._on_ok min_count max_count
              (Dialog.GetSelections count marks)) eqn:Hok;
    try exact IH.
  intros [= <-]. split; [exact Hok|]. intros j.
  apply GetSelections_range.
Qed.

Lemma _on_ok_bounds (min_count : Z) (max_count : option Z)
  (selected : list nat) :
  Dialog._on_ok min_count max_count selected = Dialog.EndModalOk ->
  (min_count <> 0%Z -> (min_count <= Z.of_nat (List.length selected))%Z)
  /\ (forall m, max_count = Some m -> m <> 0%Z ->
                (Z.of_nat (List.length selected) <= m)%Z).
Proof.
  unfold Dialog._on_ok.
  destruct (Z.eqb_spec min_count 0) as [H0|H0];
    destruct (Z.ltb_spec (Z.of_nat (List.length selected)) min_count);
    cbn [negb andb]; try discriminate;
    (destruct max_count as [m|];
     [destruct (Z.eqb_spec m 0);
      destruct (Z.ltb_spec m (Z.of_nat (List.length selected)));
      cbn [negb andb]; try discriminate|]);
    intros _; (split; [intros; lia|]); intros m' [=]; intros; lia.
Qed.

(** An analysis is started only on columns the dialog offered, as many
    as the menu entry asks for, and on a frame with enough rows; the
    selection never indexes outside the list of columns.  A scatter
    plot gets two columns and the distribution fit one, so their
    callbacks find [columns[0]] (and [columns[1]]). *)
Theorem analysis_gets_the_columns_it_asks_for (a : Dialog.Analysis)
  (columns : list string) (actions : list Dialog.Action)
  (ignore_filters : bool) (table_len view_len : Z) :
  let shown :=
    Dialog.show_column_selection_dialog a columns actions ignore_filters
      table_len view_len in
  (forall e, shown <> Dialog.Raised e)
  /\ forall selected_columns filtered,
       shown = Dialog.Called selected_columns filtered ->
       (Dialog.min_column_count a
        <= Z.of_nat (List.length selected_columns))%Z
       /\ (forall m, Dialog.max_column_count a = Some m ->
                     (Z.of_nat (List.length selected_columns) <= m)%Z)
       /\ (forall c, In c selected_columns -> In c columns)
       /\ filtered = negb ignore_filters
       /\ (Dialog.min_data_count a
           <= if filtered then view_len else table_len)%Z
       /\ (a = Dialog.ScatterPlot ->
           exists x y, selected_columns = [x; y])
       /\ (a = Dialog.BestFittedDistribution ->
           exists x, selected_columns = [x]).
Proof.
  cbv zeta. unfold Dialog.show_column_selection_dialog.
  destruct (Z.ltb_spec (Z.of_nat (List.length columns))
              (Dialog.min_column_count a)) as [Hfew|Hcols].
  { split; [discriminate|]. discriminate. }
  destruct (Dialog.ShowModal _ _ _ actions) as [selected|] eqn:Hmodal;
    [|split; discriminate].
  apply ShowModal_ended in Hmodal as [Hok Hrange].
  destruct (pick_in_range columns selected Hrange)
    as (cs & -> & Hlen & Hin).
  apply _on_ok_bounds in Hok as [Hmin Hmax].
  destruct (Z.ltb_spec (if ignore_filters then table_len else view_len)
              (Dialog.min_data_count a)) as [Hrows|Hrows];
    (split; [discriminate|]); [discriminate|].
  intros selected_columns filtered [= <- <-]. rewrite Hlen.
  assert (Hlo : (Dialog.min_column_count a
                 <= Z.of_nat (List.length selected))%Z)
    by (apply Hmin; destruct a; discriminate).
  assert (Hhi : forall m, Dialog.max_column_count a = Some m ->
                          (Z.of_nat (List.length selected) <= m)%Z).
  { intros m Hm. apply (Hmax m Hm). destruct a; cbn in Hm;
      try discriminate Hm; injection Hm as <-; discriminate. }
  split; [exact Hlo|]. split; [exact Hhi|]. split; [exact Hin|].
  split; [reflexivity|].
  split; [now destruct ignore_filters|].
  split.
  - intros ->. specialize (Hhi 2%Z eq_refl). cbn in Hlo.
    destruct cs as [|x [|y [|z cs]]]; cbn in Hlen; try lia.
    now exists x, y.
  - intros ->. specialize (Hhi 1%Z eq_refl). cbn in Hlo.
    destruct cs as [|x [|y cs]]; cbn in Hlen; try lia.
    now exists x.
Qed.

(* ------------------------------------------------------------------ *)
(** ** Narrowing a search, and the sort indicator                       *)
(* ------------------------------------------------------------------ *)

Lemma str_in_trans (a b c : string) :
  Py.str_in a b = true -> Py.str_in b c = true -> Py.str_in a c = true.
Proof.
  rewrite !str_in_iff_append.
  intros (pre1 & post1 & ->) (pre2 & post2 & ->).
  exists (pre2 ++ pre1)%string, (post1 ++ post2)%string.
  now rewrite !append_assoc.
Qed.

Section Narrowing.

Context {Cell : Type} {ops : Frame.CellOps Cell}.

Lemma row_mask_narrows (q q' : string) (row : list Cell) :
  Py.str_in (Frame.str_upper q) (Frame.str_upper q') = true ->
  Frame.row_mask q' row = true -> Frame.row_mask q row = true.
Proof.
  intros Hq. unfold Frame.row_mask. rewrite !existsb_exists.
  intros (c & Hin & Hc). exists c. split; [exact Hin|].
  unfold Frame.str_contains in *. now apply (str_in_trans _ _ _ Hq).
Qed.

(** A query that contains another one, letter case aside, finds no row
    that the other does not find: searching the rows found by the
    shorter query with the longer one gives the rows that the longer
    one finds in the table, in the same order. *)
Theorem longer_query_narrows_the_search (q q' : string)
  (df : Frame.DataFrame Cell) :
  Py.str_in (Frame.str_upper q) (Frame.str_upper q') = true ->
  Frame.filter_rows q' (Frame.filter_rows q df) = Frame.filter_rows q' df
  /\ forall row, In row (Frame.rows (Frame.filter_rows q' df)) ->
                 In row (Frame.rows (Frame.filter_rows q df)).
Proof.
  intros Hq.
  assert (Hrows : Frame.rows (Frame.filter_rows q' (Frame.filter_rows q df))
                  = Frame.rows (Frame.filter_rows q' df)).
  { rewrite !filter_rows_filter.
    induction (Frame.rows df) as [|row rows IH]; [reflexivity|].
    cbn [filter].
    destruct (Frame.row_mask q row) eqn:Hm; cbn [filter].
    - destruct (Frame.row_mask q' row); now rewrite IH.
    - destruct (Frame.row_mask q' row) eqn:Hm'; [|exact IH].
      apply (row_mask_narrows q q' row Hq) in Hm'. congruence. }
  split.
  - unfold Frame.filter_rows at 1 3. cbn [Frame.columns].
    f_equal.
    change (Frame.boolean_index (Frame.rows (Frame.filter_rows q df))
              (Frame.search_mask q' (Frame.filter_rows q df)))
      with (Frame.rows (Frame.filter_rows q' (Frame.filter_rows q df))).
    rewrite Hrows. reflexivity.
  - intros row. rewrite !filter_rows_filter, !filter_In.
    intros [Hin Hm]. split; [exact Hin|].
    now apply (row_mask_narrows q q' row Hq).
Qed.

Variable argsort : list Cell -> Py.result (list nat).

(** A view that could be computed is never answered with the error
    box: its page is shown, or the "No data found" box when the page
    has no rows.  When a page is shown, the sort indicator is on the
    one column that carries the sort label, in the direction of the
    sort, and there is no indicator without a sort column. *)
Theorem sort_indicator_marks_the_sorted_column
  (df view : Frame.DataFrame Cell) (req : Viewer.LoadRequest) :
  Frame.filtered_sorted_df argsort df (Viewer.lr_sort_column req)
    (Viewer.lr_sort_order req) (Viewer.lr_search_query req) = inr view ->
  (forall e, Paging._worker (inr view) req <> Paging.ErrorBox e)
  /\ (Paging._worker (inr view) req = Paging.NoDataBox
      <-> Paging.page_rows (Frame.rows view) (Viewer.lr_page_number req)
            (Viewer.lr_page_size req) = [])
  /\ forall p,
       Paging._worker (inr view) req = Paging.Display p ->
       Paging.pg_columns p = Frame.columns view
       /\ Py.if_truthy (Viewer.lr_sort_column req)
            (fun c =>
               exists i,
                 Frame.label_positions c (Frame.columns view) 0 = [i]
                 /\ Paging.pg_sort_indicator p
                    = Some (i, Viewer.lr_sort_order req))
            (Paging.pg_sort_indicator p = None).
Proof.
  intros Hv.
  destruct (worker_of_view argsort df view req Hv) as (ind & Hind & ->).
  destruct (Paging.page_rows (Frame.rows view) _ _) as [|row rest].
  - split; [discriminate|]. split; [tauto|]. discriminate.
  - split; [discriminate|]. split; [split; discriminate|].
    intros p [= <-]. cbn [Paging.pg_columns Paging.pg_sort_indicator].
    split; [reflexivity|].
    destruct (Viewer.lr_sort_column req) as [[|a c]|];
      cbn [Py.if_truthy] in *; try (now rewrite Hind).
    destruct Hind as [Hpos ->]. cbn [fst snd].
    exists (fst (snd ind)). split; [|reflexivity].
    unfold Frame.column_position in Hpos.
    destruct (Frame.label_positions _ _ 0) as [|i [|j l]];
      try discriminate Hpos.
    now injection Hpos as ->.
Qed.

End Narrowing.

(* ------------------------------------------------------------------ *)
(** ** The properties at sample inputs                                  *)
(* ------------------------------------------------------------------ *)

Lemma pages_cover_the_view_witness :
  concat (map (fun p => Paging.page_rows (Frame.rows Samples.ledger)
                          (Z.of_nat p) 5)
              (seq 1 (Z.to_nat
                        (Paging.ceil_div
                           (Z.of_nat
                              (List.length (Frame.rows Samples.ledger)))
                           5))))
  = Frame.rows Samples.ledger.
Proof.
  exact (pages_cover_the_view (Frame.rows Samples.ledger) 5 ltac:(lia)).
Defined.

(** The third and last page of the ledger, five rows a page, has the
    two rows that are left. *)
Lemma page_has_rows_iff_in_range_witness :
  Paging.page_rows (Frame.rows Samples.ledger) 3 5 <> []
  /\ Z.of_nat (List.length (Paging.page_rows (Frame.rows Samples.ledger)
                              3 5))
     = (Z.of_nat (List.length (Frame.rows Samples.ledger))
        - (Paging.ceil_div
             (Z.of_nat (List.length (Frame.rows Samples.ledger))) 5 - 1)
          * 5)%Z.
Proof.
  pose proof (page_has_rows_iff_in_range (Frame.rows Samples.ledger) 3 5
                ltac:(lia) ltac:(lia)) as (Hiff & _ & _ & Hlast).
  split.
  - apply Hiff. vm_compute. discriminate.
  - apply Hlast. reflexivity.
Defined.


Lemma switcher_lists_the_tables_witness :
  Connection.get_table_or_sheet_names Samples.bank_libs Samples.bank_db
  = inr (App.table_switcher (Samples.bank_session Samples.browsed))
  /\ In (Viewer.table_selection
           (App.ui (Samples.bank_session Samples.browsed)))
        (App.table_switcher (Samples.bank_session Samples.browsed)).
Proof.
  exact (switcher_lists_the_tables_of_the_file (ops := Examples.PyValueOps) Samples.bank_libs
           Examples.numpy_argsort
           Samples.posix_splitext Samples.browsed Samples.bank_db
           ltac:(vm_compute; reflexivity)).
Defined.



Lemma on_copy_copies_the_selected_rows_witness :
  Clipboard.on_copy 4 Samples.four_items true
  = Some (Clipboard.Copied
            (Clipboard.clipboard_text
               [ ["2"; "bob"]; ["4"; "Carol"] ]%string) 2).
Proof.
  exact (on_copy_copies_the_selected_rows Samples.four_items 4 true
           ltac:(cbn; lia)).
Defined.

Lemma clipboard_text_splits_back_witness :
  map (Text.split Text.tab)
      (Text.split Text.newline
         (Clipboard.clipboard_text
            (Clipboard.selected_rows Samples.four_items)))
  = Clipboard.selected_rows Samples.four_items.
Proof.
  apply clipboard_text_splits_back; [discriminate|].
  intros row [<-|[<-|[]]]; (split; [discriminate|]);
    intros cell [<-|[<-|[]]]; split; reflexivity.
Defined.

(** The scatter plot is called once two columns are marked. *)
Lemma analysis_gets_the_columns_witness :
  exists x y, ["entry"; "city"]%string = [x; y].
Proof.
  exact (proj1 (proj2 (proj2 (proj2 (proj2 (proj2
           (proj2 (analysis_gets_the_columns_it_asks_for
                     Dialog.ScatterPlot ["entry"; "kind"; "city"]%string
                     Samples.two_attempts true 12 12)
              ["entry"; "city"]%string false eq_refl))))))
           eq_refl).
Defined.

Lemma longer_query_narrows_the_search_witness :
  Frame.filter_rows "ali" (Frame.filter_rows "AL" Examples.people)
  = Frame.filter_rows "ali" Examples.people
  /\ forall row,
       In row (Frame.rows (Frame.filter_rows "ali" Examples.people)) ->
       In row (Frame.rows (Frame.filter_rows "AL" Examples.people)).
Proof.
  exact (longer_query_narrows_the_search (ops := Examples.PyValueOps) "AL" "ali" Examples.people
           eq_refl).
Defined.

Lemma sort_indicator_marks_the_sorted_column_witness :
  Paging.pg_columns Samples.sorted_page
  = Frame.columns Samples.ledger_by_kind
  /\ exists i,
       Frame.label_positions "kind"
         (Frame.columns Samples.ledger_by_kind) 0 = [i]
       /\ Paging.pg_sort_indicator Samples.sorted_page = Some (i, true).
Proof.
  exact (proj2 (proj2 (sort_indicator_marks_the_sorted_column
                         (ops := Examples.PyValueOps)
                         Examples.numpy_argsort
                         Samples.ledger Samples.ledger_by_kind
                         Samples.sorted_request
                         ltac:(vm_compute; reflexivity)))
           Samples.sorted_page ltac:(vm_compute; reflexivity)).
Defined.

Lemma layout_survives_a_reload_witness :
  snd (Layout.save_column_attr "people" Samples.people_list
         Samples.people_attr) = None
  /\ Layout.display_table Examples.value_str Samples.sample_extent
       (fst (Layout.save_column_attr "people" Samples.people_list
               Samples.people_attr))
       "people" (Frame.rows Examples.people)
       (map fst (Layout.cols Samples.people_list))
     = inr (Layout.mkList (Layout.cols Samples.people_list)
              (Layout.order Samples.people_list)
              (map (fun row => (false, map Examples.value_str row))
                   (Frame.rows Examples.people))).
Proof.
  apply (layout_survives_a_reload Examples.value_str Samples.sample_extent
           "people" Samples.people_list Samples.people_attr
           (Frame.rows Examples.people));
    try reflexivity; try discriminate.
  - repeat constructor; cbn; intuition discriminate.
  - repeat constructor; discriminate.
Defined.

Lemma layout_survives_a_visit_elsewhere_witness :
  snd (Layout.save_column_attr "orders" Samples.people_list
         Samples.people_attr) = None
  /\ snd (Layout.save_column_attr "people" Samples.orders_list
            (fst (Layout.save_column_attr "orders" Samples.people_list
                    Samples.people_attr))) = None
  /\ Layout.display_table Examples.value_str Samples.sample_extent
       (fst (Layout.save_column_attr "people" Samples.orders_list
               (fst (Layout.save_column_attr "orders" Samples.people_list
                       Samples.people_attr))))
       "people" (Frame.rows Examples.people)
       (map fst (Layout.cols Samples.people_list))
     = inr (Layout.mkList (Layout.cols Samples.people_list)
              (Layout.order Samples.people_list)
              (map (fun row => (false, map Examples.value_str row))
                   (Frame.rows Examples.people))).
Proof.
  apply (layout_survives_a_visit_elsewhere Examples.value_str
           Samples.sample_extent "people" "orders" Samples.people_list
           Samples.orders_list Samples.people_attr
           (Frame.rows Examples.people));
    try reflexivity; try discriminate.
  - repeat constructor; cbn; intuition discriminate.
  - repeat constructor; discriminate.
Defined.

Lemma select_all_then_copy_witness :
  Clipboard.on_copy 4
    (Layout.copy_source (Layout.on_select_all Samples.people_list)) true
  = Some (Clipboard.Copied
            (Clipboard.clipboard_text
               (map (map Examples.value_str) (Frame.rows Examples.people)))
            (List.length (Frame.rows Examples.people))).
Proof.
  apply (select_all_then_copy_copies_the_page Examples.value_str
           Samples.sample_extent
           (fst (Layout.save_column_attr "people" Samples.people_list
                   Samples.people_attr))
           "people" (Frame.rows Examples.people)
           (Frame.columns Examples.people) Samples.people_list 4).
  - vm_compute. reflexivity.
  - discriminate.
  - repeat constructor.
  - cbn. lia.
Defined.

(** A table whose name is the key ["current_table"] cannot be shown:
    its name is found where its attributes are looked for. *)
Example table_named_like_the_key :
  Layout.display_table Examples.value_str Samples.sample_extent
    (fst (Layout.save_column_attr "current_table" Layout.ClearAll []))
    "current_table" (Frame.rows Examples.people)
    (Frame.columns Examples.people)
  = inl (Py.OtherError "AttributeError").
Proof. reflexivity. Qed.

Lemma auto_size_fits_every_cell_witness :
  exists sized,
    Layout.on_auto_size_columns Samples.sample_extent Samples.people_list
    = inr (Layout.mkList sized (Layout.order Samples.people_list)
             (Layout.items Samples.people_list))
    /\ map fst sized = map fst (Layout.cols Samples.people_list)
    /\ forall i heading w,
         nth_error sized i = Some (heading, w) ->
         (Samples.sample_extent heading + 40 <= w)%Z
         /\ (forall it, In it (Layout.items Samples.people_list) ->
               (Samples.sample_extent (Layout.GetItemText it i) + 40
                <= w)%Z)
         /\ (w = (Samples.sample_extent heading + 40)%Z
             \/ exists it, In it (Layout.items Samples.people_list)
                  /\ w = (Samples.sample_extent (Layout.GetItemText it i)
                          + 40)%Z).
Proof.
  apply (auto_size_fits_every_cell Samples.sample_extent
           Samples.people_list).
  right. discriminate.
Defined.

Lemma reset_gives_the_first_layout_witness :
  exists reset shown,
    Layout.on_reset_columns Samples.sample_extent Samples.people_list
    = inr reset
    /\ Layout.display_table Examples.value_str Samples.sample_extent []
         "people" (Frame.rows Examples.people)
         (map fst (Layout.cols Samples.people_list))
       = inr shown
    /\ Layout.cols reset = Layout.cols shown
    /\ Layout.order reset = Layout.order shown
    /\ Layout.items reset = Layout.items Samples.people_list.
Proof.
  apply (reset_gives_the_first_layout Examples.value_str
           Samples.sample_extent Samples.people_list "people"
           (Frame.rows Examples.people)).
  - discriminate.
  - reflexivity.
  - repeat constructor; discriminate.
Defined.




